(** * Session and reset-token lifecycle of the Firebase-Auth application

    A shallow embedding of the server-side authentication core:

    - [lib/utils/jwt-server.ts]            (signJWT, verifyJWT, ...)
  - [lib/database/models/user.ts]        (the Mongoose user model)
  - [lib/database/services/user-service.ts]
  - [lib/services/reset-token-service.ts]
  - [lib/env.ts]                         (envSchema, validateEnv)
  - [app/api/auth/{session,refresh-session,logout}/route.ts]
  - [app/api/user/me/route.ts]

    Asynchronous functions are embedded in a state-and-exception monad over
  the application's world (the user collection and the console); a thrown
  exception keeps the state reached so far, as in JavaScript.  The npm
  packages the code calls (jsonwebtoken, bcryptjs, zod, mongoose,
  firebase-admin, nodemailer) are outside the repository: the
  cryptographic primitives and the remote services are parameters
  ([Platform]), the control flow of [jwt.sign] / [jwt.verify] and of the
  Mongoose operations the code uses is written out.

    Scope of the model.  The database is an in-memory collection that is
  always reachable: a store operation throws where the source or the
  schema makes it throw ("User not found", a [required] validator, a
  unique index), not for lost connections.  Requests run one after the
  other.  Claims objects are flat, with scalar values.  The [updatedAt]
  stamp that Mongoose maintains is not part of a document.  A string is
  the UTF-8 text of a well-formed JavaScript string; its [length] in
  JavaScript counts UTF-16 code units ([js_length]). *)

From Stdlib Require Import List String Ascii ZArith Lia Bool.
From stdpp Require Import gmap strings pretty.
Import ListNotations.
Local Open Scope Z_scope.
Local Open Scope string_scope.

(** ** JavaScript values and helpers *)

(** [x || y] on strings that may be undefined: the empty string is falsy. *)
Definition truthy (v : option string) : bool :=
  match v with
  | Some s => negb (String.eqb s "")
  | None => false
  end.

(** [v === "literal"] for a string that may be undefined. *)
Definition str_is (v : option string) (lit : string) : bool :=
  match v with
  | Some s => String.eqb s lit
  | None => false
  end.

Definition or_else (v w : option string) : option string :=
  if truthy v then v else w.

Definition or_default (v : option string) (d : string) : string :=
  match or_else v None with
  | Some s => s
  | None => d
  end.

(** [String.prototype.toLowerCase] on the ASCII letters; other bytes are
    kept. *)
Definition lower_ascii (c : ascii) : ascii :=
  let n := nat_of_ascii c in
  if (Nat.leb 65 n && Nat.leb n 90)%bool then ascii_of_nat (n + 32) else c.

Fixpoint toLowerCase (s : string) : string :=
  match s with
  | EmptyString => EmptyString
  | String c r => String (lower_ascii c) (toLowerCase r)
  end.

(** [s.split(sep)[0]] for a one-character separator. *)
Fixpoint split_head (sep : ascii) (s : string) : string :=
  match s with
  | EmptyString => EmptyString
  | String c r => if Ascii.eqb c sep then EmptyString else String c (split_head sep r)
  end.

(** [s.startsWith(p)] and [s.substring(n)]. *)
Fixpoint startsWith (p s : string) : bool :=
  match p, s with
  | EmptyString, _ => true
  | String a p', String b s' => Ascii.eqb a b && startsWith p' s'
  | String _ _, EmptyString => false
  end.

Fixpoint substring_from (n : nat) (s : string) : string :=
  match n, s with
  | O, _ => s
  | S n', String _ r => substring_from n' r
  | S _, EmptyString => EmptyString
  end.

(** [s.length]: the number of UTF-16 code units of the text.  In UTF-8 a
    code point below U+10000 has one leading byte and is one code unit, a
    code point from U+10000 on has a leading byte from 0xF0 on and is two
    code units (a surrogate pair); continuation bytes (0x80 to 0xBF) add
    nothing. *)
Definition utf16_units (c : ascii) : nat :=
  let n := nat_of_ascii c in
  if Nat.ltb n 128 then 1%nat
  else if Nat.ltb n 192 then 0%nat
  else if Nat.ltb n 240 then 1%nat
  else 2%nat.

Fixpoint js_length (s : string) : nat :=
  match s with
  | EmptyString => 0%nat
  | String c r => (utf16_units c + js_length r)%nat
  end.

(** The scalar JSON values a token's claims hold in this application. *)
Inductive JValue : Type :=
  | JNull
  | JBool (b : bool)
  | JNum (n : Z)
  | JStr (s : string).

(** A decoded claims object; [o !! k = None] reads as [o.k === undefined]. *)
Abbreviation JObject := (gmap string JValue).

(** ** Exceptions, results and the effect monad *)

Record ZodIssue := mkIssue { issue_path : string; issue_message : string }.

Inductive Exn : Type :=
  | Error (msg : string)
  | ZodError (issues : list ZodIssue)
  | SyntaxError (msg : string)
  | JsonWebTokenError (msg : string)
  | TokenExpiredError
  | NotBeforeError
  | ValidationError (path : string)
  | MongoServerError (code : Z) (key : string).

Inductive Result (A : Type) : Type :=
  | Ok (a : A)
  | Throw (e : Exn).
Arguments Ok {A} a.
Arguments Throw {A} e.

(** [M S A]: a computation over a state [S] that returns or throws; the
    state survives a throw. *)
Definition M (S A : Type) : Type := S -> Result A * S.

Definition ret {S A} (a : A) : M S A := fun s => (Ok a, s).
Definition throw {S A} (e : Exn) : M S A := fun s => (Throw e, s).
Definition bind {S A B} (m : M S A) (f : A -> M S B) : M S B :=
  fun s => match m s with
           | (Ok a, s') => f a s'
           | (Throw e, s') => (Throw e, s')
           end.
Definition try_catch {S A} (m : M S A) (h : Exn -> M S A) : M S A :=
  fun s => match m s with
           | (Ok a, s') => (Ok a, s')
           | (Throw e, s') => h e s'
           end.
Definition gets {S A} (f : S -> A) : M S A := fun s => (Ok (f s), s).
Definition modify {S} (f : S -> S) : M S unit := fun s => (Ok tt, f s).
Definition lift_result {S A} (r : Result A) : M S A := fun s => (r, s).

Declare Scope js_scope.
Delimit Scope js_scope with js.
Notation "'let*' x ':=' m 'in' k" := (bind m (fun x => k))
  (at level 10, x name, m at level 100, k at level 200) : js_scope.
Notation "m ';;' k" := (bind m (fun _ => k))
  (at level 100, k at level 200, right associativity) : js_scope.

(** ** The platform: primitives and services outside the repository *)

(** A session or reset token is a compact JWS string.  It is represented by
    its parse: algorithm of the header, claims object and signature, or
    [Malformed s] for a string that is not a three-part JWS. *)
Record Jws := mkJws { jws_alg : string; jws_claims : JObject; jws_signature : string }.

Inductive RawToken : Type :=
  | Malformed (s : string)
  | Compact (t : Jws).

(** What [adminAuth.verifyIdToken] resolves to. *)
Record DecodedIdToken := mkDecoded {
  d_uid : string;
  d_email : option string;
  d_name : option string;
  d_picture : option string;
  d_sign_in_provider : option string
}.

Class Platform := {
  (** [hmac alg secret claims]: the MAC of the signing input (header with
      algorithm [alg], claims) under [secret]. *)
  hmac : string -> string -> JObject -> string;
  (** A MAC is never the empty string (HS256 yields 43 characters). *)
  hmac_nonempty : forall alg secret claims, hmac alg secret claims <> "";
  (** [bcrypt.hash(data, 10)] with the salt it draws, and [bcrypt.compareSync]. *)
  bcrypt_hash : string -> RawToken -> string;
  bcrypt_compareSync : RawToken -> string -> bool;
  (** [adminAuth.verifyIdToken]: the decoded token, or the message of the
      error it rejects with. *)
  adminAuth_verifyIdToken : string -> DecodedIdToken + string;
  (** [transporter.sendMail(to, subject)] delivered the message. *)
  transporter_sendMail : string -> string -> bool;
  (** zod's [z.string().url()] test. *)
  is_url : string -> bool
}.

(** Inputs a request reads from its surroundings: the clock (milliseconds,
    [Date.now()]), [Math.random().toString(36).substring(2)], the salt
    bcrypt draws and the ObjectId the driver would assign to a new
    document.  A function that takes one [Ambient] reads each of them at
    one instant. *)
Record Ambient := mkAmbient {
  now : Z;
  random36 : string;
  salt : string;
  fresh_id : string
}.

(** The reads of the sign-in path of [POST /api/auth/session], one after
    the other: [new Date()] in [upsertUser] (and the [_id] of an insert),
    [Date.now()] and [Math.random()] in [generateSessionId], [Date.now()]
    in [getJWTExpiration], the timestamp of [jwt.sign], and the salt and
    the dates of [addSession]. *)
Record SignInReads := mkSignInReads {
  at_upsert : Ambient;
  at_sessionId : Ambient;
  at_expiry : Ambient;
  at_sign : Ambient;
  at_save : Ambient
}.

(** All the reads at one instant. *)
Definition at_once (amb : Ambient) : SignInReads := mkSignInReads amb amb amb amb amb.

(** ** Data model ([types/auth.ts], [lib/database/models/user.ts]) *)

Inductive Provider : Type := ProvEmail | ProvGoogle | ProvGithub.

Definition provider_name (p : Provider) : string :=
  match p with
  | ProvEmail => "email"
  | ProvGoogle => "google"
  | ProvGithub => "github"
  end.

(** Dates are milliseconds since the epoch. *)
Record SessionRecord := mkSession {
  tokenHash : string;
  issuedAt : Z;
  expiresAt : Z;
  userAgent : option string;
  ip : option string
}.

Record User := mkUser {
  doc_id : string;
  uid : string;
  email : string;
  name : option string;
  provider : Provider;
  photoURL : option string;
  createdAt : Z;
  lastSeen : Z;
  sessions : list SessionRecord
}.

Inductive LogLevel : Type := LogInfo | LogWarn | LogError.

Record LogEntry := mkLog {
  log_level : LogLevel;
  log_text : string;
  log_exn : option Exn
}.

(** The world a request runs in: the [users] collection, in insertion
    order, and the console. *)
Record World := mkWorld {
  users : list User;
  console : list LogEntry
}.

Definition console_error (text : string) (e : option Exn) : M World unit :=
  modify (fun w => mkWorld (users w) (console w ++ [mkLog LogError text e])).

Definition console_log (text : string) : M World unit :=
  modify (fun w => mkWorld (users w) (console w ++ [mkLog LogInfo text None])).

(** ** jsonwebtoken: the control flow of [jwt.sign] and [jwt.verify] *)

Module jwt.

Record SignOptions := mkSignOptions {
  expiresIn : option Z;          (* seconds: "7d" = 604800, "1h" = 3600 *)
  sign_issuer : option string;
  sign_audience : option string
}.

Record VerifyOptions := mkVerifyOptions {
  issuer : option string;
  audience : option string
}.

Definition clockTimestamp (now_ms : Z) : Z := now_ms / 1000.

Definition is_number (v : option JValue) : bool :=
  match v with
  | Some (JNum _) | None => true
  | Some _ => false
  end.

(** [options_to_payload]: an option is copied into its claim, and refused
    when the payload already carries that claim. *)
Definition set_claim (key claim : string) (v : option string) (p : JObject)
  : Result JObject :=
  match v with
  | None => Ok p
  | Some s =>
      match p !! claim with
      | Some _ => Throw (Error ("Bad options." ++ key ++ " option. The payload already has the claim " ++ claim))
      | None => Ok (<[claim := JStr s]> p)
      end
  end.

Section Sign.
Context `{Platform}.

Definition sign (payload : JObject) (secret : string) (o : SignOptions)
    (now_ms : Z) : Result RawToken :=
  if String.eqb secret "" then Throw (Error "secretOrPrivateKey must have a value")
  else if negb (is_number (payload !! "iat") && is_number (payload !! "exp")
                && is_number (payload !! "nbf"))
  then Throw (Error "iat, exp and nbf should be a number of seconds")
  else
    match payload !! "exp", expiresIn o with
    | Some _, Some _ =>
        Throw (Error "Bad options.expiresIn option the payload already has an exp property.")
    | _, _ =>
        let timestamp :=
          match payload !! "iat" with
          | Some (JNum n) => if Z.eqb n 0 then clockTimestamp now_ms else n
          | _ => clockTimestamp now_ms
          end in
        let p1 := <["iat" := JNum timestamp]> payload in
        let p2 := match expiresIn o with
                  | Some span => <["exp" := JNum (timestamp + span)]> p1
                  | None => p1
                  end in
        match set_claim "audience" "aud" (sign_audience o) p2 with
        | Throw e => Throw e
        | Ok p3 =>
            match set_claim "issuer" "iss" (sign_issuer o) p3 with
            | Throw e => Throw e
            | Ok p4 => Ok (Compact (mkJws "HS256" p4 (hmac "HS256" secret p4)))
            end
        end
    end.

Definition HS_ALGS : list string := ["HS256"; "HS384"; "HS512"].

Definition claim_matches (expected : option string) (actual : option JValue) : bool :=
  match expected with
  | None => true
  | Some "" => true               (* [if (options.audience)]: falsy, not checked *)
  | Some s => match actual with
              | Some (JStr a) => String.eqb a s
              | _ => false
              end
  end.

(** [payload.nbf > clockTimestamp] is "not active"; [clockTimestamp >=
    payload.exp] is "expired"; a claim that is absent is not checked. *)
Definition check_nbf (clock : Z) (nbf : option JValue) : Result unit :=
  match nbf with
  | Some (JNum n) => if Z.ltb clock n then Throw NotBeforeError else Ok tt
  | Some _ => Throw (JsonWebTokenError "invalid nbf value")
  | None => Ok tt
  end.

Definition check_exp (clock : Z) (exp : option JValue) : Result unit :=
  match exp with
  | Some (JNum n) => if Z.leb n clock then Throw TokenExpiredError else Ok tt
  | Some _ => Throw (JsonWebTokenError "invalid exp value")
  | None => Ok tt
  end.

Definition verify (token : RawToken) (secret : string) (o : VerifyOptions)
    (now_ms : Z) : Result JObject :=
  match token with
  | Malformed _ => Throw (JsonWebTokenError "jwt malformed")
  | Compact t =>
      if String.eqb (jws_signature t) "" then
        if String.eqb secret "" then
          Throw (JsonWebTokenError "please specify none in algorithms to verify unsigned tokens")
        else Throw (JsonWebTokenError "jwt signature is required")
      else if String.eqb secret "" then
        Throw (JsonWebTokenError "secret or public key must be provided")
      else if negb (existsb (String.eqb (jws_alg t)) HS_ALGS) then
        Throw (JsonWebTokenError "invalid algorithm")
      else if negb (String.eqb (jws_signature t) (hmac (jws_alg t) secret (jws_claims t))) then
        Throw (JsonWebTokenError "invalid signature")
      else
        let payload := jws_claims t in
        let clock := clockTimestamp now_ms in
        match check_nbf clock (payload !! "nbf") with
        | Throw e => Throw e
        | Ok _ =>
            match check_exp clock (payload !! "exp") with
            | Throw e => Throw e
            | Ok _ =>
                if negb (claim_matches (audience o) (payload !! "aud")) then
                  Throw (JsonWebTokenError "jwt audience invalid")
                else if negb (claim_matches (issuer o) (payload !! "iss")) then
                  Throw (JsonWebTokenError "jwt issuer invalid")
                else Ok payload
            end
        end
  end.

(** [jwt.decode]: the claims without any check, [null] when the string is
    not a token. *)
Definition decode (token : RawToken) : option JObject :=
  match token with
  | Malformed _ => None
  | Compact t => Some (jws_claims t)
  end.
End Sign.

End jwt.

(** ** [lib/utils/jwt-server.ts] *)

(** The parameter type of [signJWT]: [JWTPayload] without [iat] and [exp].
    For the optional fields [None] is [undefined]; for the nullable ones
    [Some None] is [null]. *)
Record SessionClaims := mkClaims {
  c_uid : string;
  c_email : string;
  c_name : option (option string);
  c_provider : option string;
  c_photoURL : option (option string);
  c_sessionId : string
}.

Definition nullable_json (v : option string) : JValue :=
  match v with
  | Some s => JStr s
  | None => JNull
  end.

(** The object [JSON.stringify] sees: a key whose value is [undefined] is
    dropped, [null] is kept. *)
Definition set_optional {V} (k : string) (v : option V) (o : gmap string V) : gmap string V :=
  match v with
  | Some j => <[k := j]> o
  | None => o
  end.

Definition claims_object (c : SessionClaims) : JObject :=
  set_optional "photoURL" (nullable_json <$> c_photoURL c)
    (set_optional "provider" (JStr <$> c_provider c)
      (set_optional "name" (nullable_json <$> c_name c)
        (<["sessionId" := JStr (c_sessionId c)]>
          (<["email" := JStr (c_email c)]>
            (<["uid" := JStr (c_uid c)]> ∅))))).

Module jwt_server.
Section JwtServer.
Context `{Platform}.
Variable JWT_SECRET : string.

Definition JWT_EXPIRES_IN : Z := 7 * 24 * 60 * 60.

Definition signJWT (amb : Ambient) (payload : SessionClaims) : Result RawToken :=
  jwt.sign (claims_object payload) JWT_SECRET
    (jwt.mkSignOptions (Some JWT_EXPIRES_IN) (Some "firebase-auth-app")
       (Some "firebase-auth-app-users"))
    (now amb).

Definition verifyJWT (amb : Ambient) (token : RawToken) : M World (option JObject) :=
  try_catch
    (let* decoded := lift_result
         (jwt.verify token JWT_SECRET
            (jwt.mkVerifyOptions (Some "firebase-auth-app") (Some "firebase-auth-app-users"))
            (now amb)) in
     ret (Some decoded))%js
    (fun error => console_error "JWT verification failed:" (Some error) ;; ret None)%js.

Definition getJWTExpiration (amb : Ambient) : Z :=
  now amb + 7 * 24 * 60 * 60 * 1000.

Definition generateSessionId (amb : Ambient) : string :=
  "session_" ++ pretty (now amb) ++ "_" ++ random36 amb.

Definition decodeJWT (token : RawToken) : option JObject := jwt.decode token.
End JwtServer.
End jwt_server.

(** Reading a claim where the code expects a string ([payload.uid] under
    the cast [as JWTPayload], which checks nothing at run time): a string
    is itself, a number or a boolean is what Mongoose's string cast of a
    filter value gives.  [null] and [undefined] equal no stored uid; they
    read as the empty string, which is no user's uid (the schema requires
    the field, and the [required] validator refuses the empty string). *)
Definition claim_string (v : option JValue) : string :=
  match v with
  | Some (JStr s) => s
  | Some (JNum n) => pretty n
  | Some (JBool true) => "true"
  | Some (JBool false) => "false"
  | Some JNull | None => ""
  end.

(** ** The Mongoose model ([lib/database/models/user.ts]) *)

(** What [upsertUser] receives. *)
Record UserData := mkUserData {
  ud_uid : string;
  ud_email : string;
  ud_name : option (option string);
  ud_provider : Provider;
  ud_photoURL : option (option string)
}.

Module UserModel.

(** [Model.findOne(filter)]: the first document, in collection order, that
    satisfies the filter. *)
Definition findOne (filter : User -> bool) (coll : list User) : option User :=
  List.find filter coll.

Definition by_uid (u : string) : User -> bool := fun d => String.eqb (uid d) u.
Definition by_email (e : string) : User -> bool := fun d => String.eqb (email d) e.

(** Writing one document back: the stored document with the same [_id] is
    replaced. *)
Fixpoint replace_doc (u : User) (coll : list User) : list User :=
  match coll with
  | [] => []
  | d :: rest =>
      if String.eqb (doc_id d) (doc_id u) then u :: rest
      else d :: replace_doc u rest
  end.

(** [userSchema.pre("save")]: a modified email is lowercased. *)
Definition pre_save (coll : list User) (u : User) : User :=
  match findOne (fun d => String.eqb (doc_id d) (doc_id u)) coll with
  | Some stored =>
      if String.eqb (email stored) (email u) then u
      else mkUser (doc_id u) (uid u) (toLowerCase (email u)) (name u) (provider u)
             (photoURL u) (createdAt u) (lastSeen u) (sessions u)
  | None => u
  end.

Definition save (u : User) : M World unit :=
  modify (fun w => mkWorld (replace_doc (pre_save (users w) u) (users w)) (console w)).

Definition set_sessions (u : User) (l : list SessionRecord) : User :=
  mkUser (doc_id u) (uid u) (email u) (name u) (provider u) (photoURL u)
    (createdAt u) (lastSeen u) l.

Definition set_lastSeen (u : User) (t : Z) : User :=
  mkUser (doc_id u) (uid u) (email u) (name u) (provider u) (photoURL u)
    (createdAt u) t (sessions u).

Section Methods.
Context `{Platform}.

(** [cleanExpiredSessions] changes the document in memory only. *)
Definition cleanExpiredSessions (amb : Ambient) (this : User) : User :=
  set_sessions this (List.filter (fun session => Z.ltb (now amb) (expiresAt session))
                       (sessions this)).

Definition addSession (amb : Ambient) (this : User) (token : RawToken)
    (expires : Z) (ua ip_ : option string) : M World unit :=
  let hashedToken := bcrypt_hash (salt amb) token in
  let this1 := set_sessions this
                 (sessions this ++ [mkSession hashedToken (now amb) expires ua ip_]) in
  let this2 := cleanExpiredSessions amb this1 in
  let this3 := set_lastSeen this2 (now amb) in
  save this3.

Definition removeSession (this : User) (token : RawToken) : M World unit :=
  let this1 := set_sessions this
                 (List.filter (fun session => negb (bcrypt_compareSync token (tokenHash session)))
                    (sessions this)) in
  save this1.

Definition validateSession (amb : Ambient) (this : User) (token : RawToken) : bool :=
  existsb (fun session => Z.ltb (now amb) (expiresAt session)
                          && bcrypt_compareSync token (tokenHash session))
    (sessions this).
End Methods.

Definition findByUid (u : string) : M World (option User) :=
  gets (fun w => findOne (by_uid u) (users w)).

Definition findByEmail (e : string) : M World (option User) :=
  gets (fun w => findOne (by_email (toLowerCase e)) (users w)).

(** The update document [{ ...userData, email, lastSeen }] as [$set]: a key
    whose value is [undefined] is not part of the update.  The email is
    lowercased by the caller and again by the schema's [lowercase]
    setter.  [timestamps] adds [createdAt] on insert only. *)
Definition apply_update (amb : Ambient) (d : UserData) (u : User) : User :=
  mkUser (doc_id u) (ud_uid d) (toLowerCase (toLowerCase (ud_email d)))
    (match ud_name d with Some n => n | None => name u end)
    (ud_provider d)
    (match ud_photoURL d with Some p => p | None => photoURL u end)
    (createdAt u) (now amb) (sessions u).

(** The document an upsert inserts: the filter's [uid], the update's
    fields, and the schema defaults ([name] and [photoURL] null,
    [createdAt] now, no sessions). *)
Definition new_document (amb : Ambient) (d : UserData) : User :=
  mkUser (fresh_id amb) (ud_uid d) (toLowerCase (toLowerCase (ud_email d)))
    (match ud_name d with Some n => n | None => None end)
    (ud_provider d)
    (match ud_photoURL d with Some p => p | None => None end)
    (now amb) (now amb) [].

(** The unique index on [email]: another document holds the value. *)
Definition email_taken (e : string) (self : string) (coll : list User) : bool :=
  existsb (fun d => String.eqb (email d) e && negb (String.eqb (doc_id d) self)) coll.

(** [findOneAndUpdate({ uid }, update, { upsert, new, runValidators })]:
    the [required] validators of the paths the update sets, then the
    write, which the unique indexes may refuse (E11000). *)
Definition findOneAndUpdate_upsert (amb : Ambient) (d : UserData)
  : M World (option User) :=
  fun w =>
    if String.eqb (ud_uid d) "" then (Throw (ValidationError "uid"), w)
    else if String.eqb (toLowerCase (ud_email d)) "" then (Throw (ValidationError "email"), w)
    else
      match findOne (by_uid (ud_uid d)) (users w) with
      | Some u =>
          let u' := apply_update amb d u in
          if email_taken (email u') (doc_id u) (users w)
          then (Throw (MongoServerError 11000 "email"), w)
          else (Ok (Some u'), mkWorld (replace_doc u' (users w)) (console w))
      | None =>
          let u' := new_document amb d in
          if email_taken (email u') (doc_id u') (users w)
             || existsb (fun v => String.eqb (doc_id v) (doc_id u')) (users w)
          then (Throw (MongoServerError 11000 (if email_taken (email u') (doc_id u') (users w)
                                              then "email" else "_id")), w)
          else (Ok (Some u'), mkWorld (users w ++ [u']) (console w))
      end.

Definition upsertUser (amb : Ambient) (userData : UserData) : M World (option User) :=
  findOneAndUpdate_upsert amb userData.

End UserModel.

(** ** [lib/database/services/user-service.ts] *)

Module UserService.
Section Service.
Context `{Platform}.

Definition findByUid (u : string) : M World (option User) :=
  gets (fun w => UserModel.findOne (UserModel.by_uid u) (users w)).

Definition findByEmail (e : string) : M World (option User) :=
  gets (fun w => UserModel.findOne (UserModel.by_email (toLowerCase e)) (users w)).

Definition upsertUser (amb : Ambient) (userData : UserData) : M World User :=
  (let* user := UserModel.findOneAndUpdate_upsert amb userData in
   match user with
   | None => throw (Error "Failed to upsert user")
   | Some u => ret u
   end)%js.

Definition addUserSession (amb : Ambient) (u : string) (token : RawToken)
    (expires : Z) (ua ip_ : option string) : M World unit :=
  (let* user := gets (fun w => UserModel.findOne (UserModel.by_uid u) (users w)) in
   match user with
   | None => throw (Error "User not found")
   | Some user => UserModel.addSession amb user token expires ua ip_
   end)%js.

Definition removeUserSession (u : string) (token : RawToken) : M World unit :=
  (let* user := gets (fun w => UserModel.findOne (UserModel.by_uid u) (users w)) in
   match user with
   | None => throw (Error "User not found")
   | Some user => UserModel.removeSession user token
   end)%js.

Definition validateUserSession (amb : Ambient) (u : string) (token : RawToken)
  : M World bool :=
  (let* user := gets (fun w => UserModel.findOne (UserModel.by_uid u) (users w)) in
   match user with
   | None => ret false
   | Some user => ret (UserModel.validateSession amb user token)
   end)%js.

Definition cleanExpiredSessions (amb : Ambient) (u : string) : M World unit :=
  (let* user := gets (fun w => UserModel.findOne (UserModel.by_uid u) (users w)) in
   match user with
   | Some user => UserModel.save (UserModel.cleanExpiredSessions amb user)
   | None => ret tt
   end)%js.
End Service.
End UserService.

(** ** [lib/firebase/admin.ts] *)

Record FirebaseResult := mkFirebaseResult {
  fb_success : bool;
  fb_decodedToken : option DecodedIdToken;
  fb_error : option string
}.

Section FirebaseAdmin.
Context `{Platform}.

Definition verifyIdToken (idToken : string) : M World FirebaseResult :=
  match adminAuth_verifyIdToken idToken with
  | inl decodedToken => ret (mkFirebaseResult true (Some decodedToken) None)
  | inr message =>
      (console_error "Firebase ID token verification failed:" (Some (Error message)) ;;
       ret (mkFirebaseResult false None (Some message)))%js
  end.
End FirebaseAdmin.

(** ** Requests and responses *)

(** The body of a request as the handlers read it: [request.json()] throws
    on text that is not JSON; otherwise the [idToken] member is a string,
    or it is absent ([None]) and zod's [z.string()] refuses it. *)
Inductive Body : Type :=
  | BodyNotJson
  | BodyIdToken (idToken : option string).

Record Request := mkRequest {
  req_body : Body;
  req_cookie : option RawToken;          (* request.cookies.get("app_session") *)
  req_headers : gmap string string
}.

Record UserView := mkView {
  v_uid : string;
  v_email : string;
  v_name : option string;
  v_provider : Provider;
  v_photoURL : option string;
  v_lastSeen : option Z
}.

Inductive Details : Type :=
  | DetailsText (s : option string)
  | DetailsIssues (l : list ZodIssue).

Record ResponseBody := mkBody {
  b_success : bool;
  b_user : option UserView;
  b_error : option string;
  b_details : option Details;
  b_message : option string;
  b_fallback : option bool;
  b_source : option string
}.

Record SetCookie := mkSetCookie {
  ck_value : RawToken;
  ck_maxAge : Z
}.

Record Response := mkResponse {
  status : Z;
  json : ResponseBody;
  set_cookie : option SetCookie
}.

Definition json_error (st : Z) (err : string) (d : option Details) : Response :=
  mkResponse st (mkBody false None (Some err) d None None None) None.

Definition user_view (u : User) : UserView :=
  mkView (uid u) (email u) (name u) (provider u) (photoURL u) None.

Definition user_view_seen (u : User) : UserView :=
  mkView (uid u) (email u) (name u) (provider u) (photoURL u) (Some (lastSeen u)).

(** [z.object({ idToken: z.string().min(1, ...) }).parse(body)] after
    [request.json()]. *)
Definition parse_idToken (b : Body) : M World string :=
  match b with
  | BodyNotJson => throw (SyntaxError "Unexpected token")
  | BodyIdToken None => throw (ZodError [mkIssue "idToken" "Required"])
  | BodyIdToken (Some s) =>
      if String.eqb s "" then throw (ZodError [mkIssue "idToken" "ID token is required"])
      else ret s
  end.

(** ** The API routes *)

Module Routes.
Section Handlers.
Context `{Platform}.
Variable JWT_SECRET : string.

Definition session_cookie (token : RawToken) : option SetCookie :=
  Some (mkSetCookie token (7 * 24 * 60 * 60)).

Definition header_user_agent (request : Request) : option string :=
  or_else (req_headers request !! "user-agent") None.

Definition header_ip (request : Request) : option string :=
  or_else (req_headers request !! "x-forwarded-for")
    (or_else (req_headers request !! "x-real-ip") None).

(** *** [app/api/auth/logout/route.ts] *)
Definition logout_POST (amb : Ambient) (request : Request) : M World Response :=
  try_catch
    ((match req_cookie request with
      | Some sessionCookie =>
          let* payload := jwt_server.verifyJWT JWT_SECRET amb sessionCookie in
          match payload with
          | Some payload =>
              try_catch
                (UserService.removeUserSession (claim_string (payload !! "uid")) sessionCookie)
                (fun error =>
                   console_error "Failed to remove session from database:" (Some error))
          | None => ret tt
          end
      | None => ret tt
      end) ;;
     ret (mkResponse 200
            (mkBody true None None None (Some "Logged out successfully") None None)
            (Some (mkSetCookie (Malformed "") 0))))%js
    (fun error =>
       console_error "Logout error:" (Some error) ;;
       ret (json_error 500 "Logout failed" None))%js.

(** The [catch] block shared by the session routes. *)
Definition session_catch (label : string) (error : Exn) : M World Response :=
  (console_error label (Some error) ;;
   match error with
   | ZodError issues =>
       ret (json_error 400 "Invalid request data" (Some (DetailsIssues issues)))
   | _ => ret (json_error 500 "Internal server error" None)
   end)%js.

Definition success_user (u : User) (fallback : option bool) : ResponseBody :=
  mkBody true (Some (user_view u)) None None None fallback None.

(** *** [app/api/auth/refresh-session/route.ts] *)
Definition refresh_POST (amb : Ambient) (request : Request) : M World Response :=
  try_catch
    (let* idToken := parse_idToken (req_body request) in
     let* firebaseResult := verifyIdToken idToken in
     match fb_success firebaseResult, fb_decodedToken firebaseResult with
     | true, Some decodedToken =>
         (match req_cookie request with
          | Some existingSessionCookie =>
              let* oldPayload := jwt_server.verifyJWT JWT_SECRET amb existingSessionCookie in
              match oldPayload with
              | Some oldPayload =>
                  try_catch
                    (UserService.removeUserSession (claim_string (oldPayload !! "uid"))
                       existingSessionCookie)
                    (fun error => console_error "Failed to remove old session:" (Some error))
              | None => ret tt
              end
          | None => ret tt
          end) ;;
         let userAgent := header_user_agent request in
         let ip_ := header_ip request in
         let sessionId := jwt_server.generateSessionId amb in
         let expires := jwt_server.getJWTExpiration amb in
         let jwtPayload :=
           mkClaims (d_uid decodedToken) (or_default (d_email decodedToken) "")
             None None None sessionId in
         let* sessionToken := lift_result (jwt_server.signJWT JWT_SECRET amb jwtPayload) in
         UserService.addUserSession amb (d_uid decodedToken) sessionToken expires userAgent ip_ ;;
         let* user := UserService.findByUid (d_uid decodedToken) in
         match user with
         | None => ret (json_error 404 "User not found" None)
         | Some user =>
             ret (mkResponse 200 (success_user user None) (session_cookie sessionToken))
         end
     | _, _ =>
         ret (json_error 401 "Invalid ID token"
                (Some (DetailsText (fb_error firebaseResult))))
     end)%js
    (session_catch "Session refresh error:").

(** *** [app/api/auth/session/route.ts] *)
Definition handleSessionFallback (amb : Ambient) (sessionToken : RawToken)
  : M World (option Response) :=
  try_catch
    (let* payload := jwt_server.verifyJWT JWT_SECRET amb sessionToken in
     match payload with
     | None => ret None
     | Some payload =>
         let* isValidSession :=
           UserService.validateUserSession amb (claim_string (payload !! "uid")) sessionToken in
         if negb isValidSession then ret None
         else
           let* user := UserService.findByUid (claim_string (payload !! "uid")) in
           match user with
           | None => ret None
           | Some user =>
               ret (Some (mkResponse 200 (success_user user (Some true)) None))
           end
     end)%js
    (fun error => console_error "Session fallback error:" (Some error) ;; ret None)%js.

Definition getProviderFromToken (token : DecodedIdToken) : Provider :=
  match d_sign_in_provider token with
  | Some prov =>
      if String.eqb prov "google.com" then ProvGoogle
      else if String.eqb prov "github.com" then ProvGithub
      else ProvEmail
  | None => ProvEmail
  end.

(** [POST]: [reads] are the reads of the sign-in path, [amb] is the instant
    of the fallback. *)
Definition session_POST (amb : Ambient) (reads : SignInReads) (request : Request)
  : M World Response :=
  try_catch
    (let* idToken := parse_idToken (req_body request) in
     let userAgent := header_user_agent request in
     let ip_ := header_ip request in
     let* firebaseResult := verifyIdToken idToken in
     match fb_success firebaseResult, fb_decodedToken firebaseResult with
     | true, Some decodedToken =>
         let userData :=
           mkUserData (d_uid decodedToken)
             (or_default (d_email decodedToken) "")
             (Some (or_else (d_name decodedToken)
                      (or_else (split_head "@" <$> d_email decodedToken) None)))
             (getProviderFromToken decodedToken)
             (Some (or_else (d_picture decodedToken) None)) in
         let* user := UserService.upsertUser (at_upsert reads) userData in
         let sessionId := jwt_server.generateSessionId (at_sessionId reads) in
         let expires := jwt_server.getJWTExpiration (at_expiry reads) in
         let jwtPayload :=
           mkClaims (uid user) (email user) (Some (name user))
             (Some (provider_name (provider user))) (Some (photoURL user)) sessionId in
         let* sessionToken :=
           lift_result (jwt_server.signJWT JWT_SECRET (at_sign reads) jwtPayload) in
         UserService.addUserSession (at_save reads) (uid user) sessionToken expires
           userAgent ip_ ;;
         ret (mkResponse 200 (success_user user None) (session_cookie sessionToken))
     | _, _ =>
         let* fallbackResponse :=
           match req_cookie request with
           | Some existingSessionCookie => handleSessionFallback amb existingSessionCookie
           | None => ret None
           end in
         match fallbackResponse with
         | Some response => ret response
         | None =>
             ret (json_error 401 "Authentication failed"
                    (Some (DetailsText (fb_error firebaseResult))))
         end
     end)%js
    (session_catch "Session creation error:").

(** *** [app/api/user/me/route.ts] *)
Definition bearer_token (request : Request) : option string :=
  match req_headers request !! "authorization" with
  | Some authHeader =>
      if startsWith "Bearer " authHeader then Some (substring_from 7 authHeader) else None
  | None => None
  end.

(** The handler after its bearer block: the session cookie, verified and
    then confirmed in the store. *)
Definition me_session_path (amb : Ambient) (request : Request) : M World Response :=
  match req_cookie request with
  | None => ret (json_error 401 "No authentication found" None)
  | Some sessionCookie =>
      (let* payload := jwt_server.verifyJWT JWT_SECRET amb sessionCookie in
       match payload with
       | None => ret (json_error 401 "Invalid session" None)
       | Some payload =>
           let* isValidSession :=
             UserService.validateUserSession amb (claim_string (payload !! "uid"))
               sessionCookie in
           if negb isValidSession then ret (json_error 401 "Session expired or invalid" None)
           else
             let* user := UserService.findByUid (claim_string (payload !! "uid")) in
             match user with
             | None => ret (json_error 404 "User not found" None)
             | Some user =>
                 ret (mkResponse 200
                        (mkBody true (Some (user_view_seen user)) None None None None
                           (Some "database")) None)
             end
       end)%js
  end.

(** [GET]: a bearer ID token that verifies and whose user exists answers
    at once; in every other case the cookie decides. *)
Definition me_GET (amb : Ambient) (request : Request) : M World Response :=
  try_catch
    (let* early :=
       (if truthy (bearer_token request) then
          let* firebaseResult := verifyIdToken (or_default (bearer_token request) "") in
          match fb_success firebaseResult, fb_decodedToken firebaseResult with
          | true, Some decodedToken =>
              let* user := UserService.findByUid (d_uid decodedToken) in
              match user with
              | Some user =>
                  ret (Some (mkResponse 200
                               (mkBody true (Some (user_view_seen user)) None None None None
                                  (Some "firebase")) None))
              | None => ret None
              end
          | _, _ => ret None
          end
        else ret None) in
     match early with
     | Some response => ret response
     | None => me_session_path amb request
     end)%js
    (fun error =>
       console_error "Get user error:" (Some error) ;;
       ret (json_error 500 "Internal server error" None))%js.
End Handlers.
End Routes.

(** ** [lib/services/email-service.ts] and [lib/services/reset-token-service.ts] *)

Record ServiceReply := mkReply { success : bool; message : string }.

Module EmailService.
Section Email.
Context `{Platform}.

Definition sendEmail (to subject : string) : M World bool :=
  if transporter_sendMail to subject
  then (console_log "Email sent successfully:" ;; ret true)%js
  else (console_error "Failed to send email:" None ;; ret false)%js.

(** The reset link and the HTML around it do not influence the result. *)
Definition sendPasswordResetEmail (to : string) (resetToken : RawToken)
    (userName : string) : M World bool :=
  sendEmail to "Reset Your Password - Firebase Auth App".
End Email.
End EmailService.

Module ResetTokenService.
Section Reset.
Context `{Platform}.
Variable JWT_SECRET : string.

Definition TOKEN_EXPIRY : Z := 60 * 60.

(** [decoded.type === "password_reset"]. *)
Definition is_password_reset (v : option JValue) : bool :=
  match v with
  | Some (JStr s) => String.eqb s "password_reset"
  | _ => false
  end.

Definition generateResetToken (amb : Ambient) (userId email_ : string) : Result RawToken :=
  let payload : JObject :=
    <["type" := JStr "password_reset"]>
      (<["email" := JStr email_]> (<["userId" := JStr userId]> ∅)) in
  jwt.sign payload JWT_SECRET (jwt.mkSignOptions (Some TOKEN_EXPIRY) None None) (now amb).

Definition verifyResetToken (amb : Ambient) (token : RawToken) : M World (option JObject) :=
  try_catch
    (let* decoded := lift_result
         (jwt.verify token JWT_SECRET (jwt.mkVerifyOptions None None) (now amb)) in
     if negb (is_password_reset (decoded !! "type")) then ret None
     else ret (Some decoded))%js
    (fun error => console_error "Invalid reset token:" (Some error) ;; ret None)%js.


Definition createResetRequest (amb : Ambient) (email_ : string) : M World ServiceReply :=
  try_catch
    (let* user := UserService.findByEmail email_ in
     match user with
     | None => ret (mkReply false "No account found with this email address")
     | Some user =>
         let* resetToken := lift_result (generateResetToken amb (doc_id user) (email user)) in
         let* emailSent :=
           EmailService.sendPasswordResetEmail (email user) resetToken
             (or_default (name user) (email user)) in
         if negb emailSent then
           ret (mkReply false "Failed to send reset email. Please try again.")
         else ret (mkReply true "Password reset email sent successfully")
     end)%js
    (fun error =>
       console_error "Error creating reset request:" (Some error) ;;
       ret (mkReply false "An error occurred. Please try again."))%js.
End Reset.
End ResetTokenService.

(** ** [lib/env.ts] *)

Module Env.

(** [process.env] and the validated environment are objects from names to
    strings. *)
Abbreviation ProcessEnv := (gmap string string).
Abbreviation EnvVars := (gmap string string).

(** The zod schemas that occur in [envSchema]. *)
Inductive FieldSchema : Type :=
  | StringMin (n : nat) (msg : string)           (* z.string().min(n, msg) *)
  | StringOptional                               (* z.string().optional() *)
  | StringUrlDefault (msg : string) (d : string) (* z.string().url(msg).default(d) *)
  | StringOptionalDefault (d : string).          (* z.string().optional().default(d) *)

Definition envSchema : list (string * FieldSchema) :=
  [ ("NEXT_PUBLIC_FIREBASE_API_KEY", StringMin 1 "Firebase API key is required");
    ("NEXT_PUBLIC_FIREBASE_AUTH_DOMAIN", StringMin 1 "Firebase auth domain is required");
    ("NEXT_PUBLIC_FIREBASE_PROJECT_ID", StringMin 1 "Firebase project ID is required");
    ("NEXT_PUBLIC_FIREBASE_STORAGE_BUCKET", StringMin 1 "Firebase storage bucket is required");
    ("NEXT_PUBLIC_FIREBASE_MESSAGING_SENDER_ID",
       StringMin 1 "Firebase messaging sender ID is required");
    ("NEXT_PUBLIC_FIREBASE_APP_ID", StringMin 1 "Firebase app ID is required");
    ("NEXT_PUBLIC_FIREBASE_MEASUREMENT_ID", StringOptional);
    ("FIREBASE_SERVICE_ACCOUNT_KEY", StringMin 1 "Firebase service account key is required");
    ("GOOGLE_CLIENT_ID", StringMin 1 "Google client ID is required");
    ("GOOGLE_CLIENT_SECRET", StringMin 1 "Google client secret is required");
    ("GITHUB_CLIENT_ID", StringMin 1 "GitHub client ID is required");
    ("GITHUB_CLIENT_SECRET", StringMin 1 "GitHub client secret is required");
    ("MONGODB_URI", StringMin 1 "MongoDB URI is required");
    ("JWT_SECRET", StringMin 32 "JWT secret must be at least 32 characters");
    ("NEXT_PUBLIC_APP_URL",
       StringUrlDefault "App URL must be a valid URL" "http://localhost:3000");
    ("EMAIL_HOST", StringOptionalDefault "smtp.gmail.com");
    ("EMAIL_PORT", StringOptionalDefault "587");
    ("EMAIL_USER", StringMin 1 "Email user is required");
    ("EMAIL_PASS", StringMin 1 "Email password is required");
    ("EMAIL_FROM_NAME", StringOptionalDefault "Firebase Auth App") ].

Section Zod.
Context `{Platform}.

(** Parsing one member: the value to keep, or the message of the issue.
    The minimum is taken in bytes; a well-formed text has at least as many
    bytes as UTF-16 code units, so a value refused here is refused by
    zod. *)
Definition parse_field (sch : FieldSchema) (v : option string) : string + option string :=
  match sch, v with
  | StringMin n msg, Some s => if Nat.leb n (String.length s) then inr (Some s) else inl msg
  | StringMin _ _, None => inl "Required"
  | StringOptional, _ => inr v
  | StringUrlDefault msg d, Some s => if is_url s then inr (Some s) else inl msg
  | StringUrlDefault _ d, None => inr (Some d)
  | StringOptionalDefault d, Some s => inr (Some s)
  | StringOptionalDefault d, None => inr (Some d)
  end.

(** [z.object(shape).parse(input)]: every member is parsed, all issues
    are collected, unknown keys are stripped. *)
Fixpoint parse_object (shape : list (string * FieldSchema)) (input : ProcessEnv)
  : list ZodIssue * EnvVars :=
  match shape with
  | [] => ([], ∅)
  | (key, sch) :: rest =>
      let '(issues, out) := parse_object rest input in
      match parse_field sch (input !! key) with
      | inl msg => (mkIssue key msg :: issues, out)
      | inr (Some s) => (issues, <[key := s]> out)
      | inr None => (issues, out)
      end
  end.

Definition envSchema_parse (input : ProcessEnv) : Result EnvVars :=
  match parse_object envSchema input with
  | ([], out) => Ok out
  | (issues, _) => Throw (ZodError issues)
  end.
End Zod.

Record EnvState := mkEnvState {
    cachedEnv : option EnvVars;
    env_console : list LogEntry
  }.

Definition env_log (lvl : LogLevel) (text : string) : M EnvState unit :=
  modify (fun s => mkEnvState (cachedEnv s) (env_console s ++ [mkLog lvl text None])).

Definition set_cachedEnv (e : EnvVars) : M EnvState unit :=
  modify (fun s => mkEnvState (Some e) (env_console s)).

Definition isBuildTime (penv : ProcessEnv) : bool :=
  str_is (penv !! "NODE_ENV") "production"
  && negb (truthy (penv !! "VERCEL")) && negb (truthy (penv !! "RAILWAY_ENVIRONMENT")).

Definition default_entries : list (string * string) :=
  [ ("NEXT_PUBLIC_FIREBASE_API_KEY", "build-time-placeholder");
    ("NEXT_PUBLIC_FIREBASE_AUTH_DOMAIN", "build-time-placeholder");
    ("NEXT_PUBLIC_FIREBASE_PROJECT_ID", "build-time-placeholder");
    ("NEXT_PUBLIC_FIREBASE_STORAGE_BUCKET", "build-time-placeholder");
    ("NEXT_PUBLIC_FIREBASE_MESSAGING_SENDER_ID", "build-time-placeholder");
    ("NEXT_PUBLIC_FIREBASE_APP_ID", "build-time-placeholder");
    ("FIREBASE_SERVICE_ACCOUNT_KEY", "{}");
    ("GOOGLE_CLIENT_ID", "build-time-placeholder");
    ("GOOGLE_CLIENT_SECRET", "build-time-placeholder");
    ("GITHUB_CLIENT_ID", "build-time-placeholder");
    ("GITHUB_CLIENT_SECRET", "build-time-placeholder");
    ("MONGODB_URI", "mongodb://localhost:27017/firebase-auth-app");
    ("JWT_SECRET", "development-jwt-secret-at-least-32-characters-long-for-build");
    ("NEXT_PUBLIC_APP_URL", "http://localhost:3000");
    ("EMAIL_HOST", "smtp.gmail.com");
    ("EMAIL_PORT", "587");
    ("EMAIL_USER", "build-time-placeholder");
    ("EMAIL_PASS", "build-time-placeholder");
    ("EMAIL_FROM_NAME", "Firebase Auth App") ].

(** [getDefaultEnv]: [process.env.X || default] for every member;
    [NEXT_PUBLIC_FIREBASE_MEASUREMENT_ID] falls back to [undefined]. *)
Definition getDefaultEnv (penv : ProcessEnv) : EnvVars :=
  set_optional "NEXT_PUBLIC_FIREBASE_MEASUREMENT_ID"
    (or_else (penv !! "NEXT_PUBLIC_FIREBASE_MEASUREMENT_ID") None)
    (fold_right (fun '(key, d) out => <[key := or_default (penv !! key) d]> out)
       ∅ default_entries).

Definition newline : string := String (ascii_of_nat 10) EmptyString.

Definition missingVars (issues : list ZodIssue) : string :=
  String.concat newline
    (List.map (fun err => issue_path err ++ ": " ++ issue_message err) issues).

Section Validate.
Context `{Platform}.

Definition validateEnv (penv : ProcessEnv) : M EnvState EnvVars :=
  (let* cached := gets cachedEnv in
   match cached with
   | Some e => ret e
   | None =>
       if isBuildTime penv then
         env_log LogInfo "Skipping environment validation during build time" ;;
         set_cachedEnv (getDefaultEnv penv) ;;
         ret (getDefaultEnv penv)
       else
         try_catch
           (let* e := lift_result (envSchema_parse penv) in
            set_cachedEnv e ;;
            ret e)
           (fun error =>
              match error with
              | ZodError issues =>
                  if str_is (penv !! "NODE_ENV") "production" then
                    throw (Error ("Environment validation failed:" ++ newline
                                  ++ missingVars issues))
                  else
                    env_log LogWarn ("Environment validation failed:" ++ newline
                                     ++ missingVars issues) ;;
                    env_log LogWarn
                      "Please copy .env.example to .env.local and fill in the required values" ;;
                    set_cachedEnv (getDefaultEnv penv) ;;
                    ret (getDefaultEnv penv)
              | _ => throw error
              end)
   end)%js.

(** The [env] proxy: every property read validates first. *)
Definition env_get (penv : ProcessEnv) (prop : string) : M EnvState (option string) :=
  (let* envVars := validateEnv penv in
   ret (envVars !! prop))%js.
End Validate.
End Env.

(** ** Predicates used in the statements *)

(** The claims [signJWT] adds to an object signed at [amb]. *)
Definition with_injected (amb : Ambient) (o : JObject) : JObject :=
  <["iss" := JStr "firebase-auth-app"]>
    (<["aud" := JStr "firebase-auth-app-users"]>
      (<["exp" := JNum (jwt.clockTimestamp (now amb) + jwt_server.JWT_EXPIRES_IN)]>
        (<["iat" := JNum (jwt.clockTimestamp (now amb))]> o))).

(** The key constraint of the database: [_id] identifies a document. *)
Definition unique_ids (coll : list User) : Prop := List.NoDup (List.map doc_id coll).

(** The unique index the schema declares on [uid]. *)
Definition unique_uids (coll : list User) : Prop := List.NoDup (List.map uid coll).

(** The number of documents of the collection with a given [uid]. *)
Definition count_uid (k : string) (coll : list User) : nat :=
  List.length (List.filter (UserModel.by_uid k) coll).

(** The options [verifyResetToken] passes to [jwt.verify]: none. *)
Definition reset_verify_options : jwt.VerifyOptions := jwt.mkVerifyOptions None None.

(** The claims of a reset token minted at [amb]. *)
Definition reset_claims (amb : Ambient) (userId email_ : string) : JObject :=
  <["exp" := JNum (jwt.clockTimestamp (now amb) + ResetTokenService.TOKEN_EXPIRY)]>
    (<["iat" := JNum (jwt.clockTimestamp (now amb))]>
      (<["type" := JStr "password_reset"]>
        (<["email" := JStr email_]> (<["userId" := JStr userId]> ∅)))).

(** The two replies of [createResetRequest] the statements compare. *)
Definition no_account_reply : ServiceReply :=
  mkReply false "No account found with this email address".

Definition email_sent_reply : ServiceReply :=
  mkReply true "Password reset email sent successfully".

(** The response of a session request served from an existing session. *)
Definition fallback_response (user : User) : Response :=
  mkResponse 200 (mkBody true (Some (user_view user)) None None None (Some true) None) None.

(** The response of a logout. *)
Definition logged_out : Response :=
  mkResponse 200 (mkBody true None None None (Some "Logged out successfully") None None)
    (Some (mkSetCookie (Malformed "") 0)).

(** The options [verifyJWT] passes to [jwt.verify]. *)
Definition session_verify_options : jwt.VerifyOptions :=
  jwt.mkVerifyOptions (Some "firebase-auth-app") (Some "firebase-auth-app-users").

Section StorePredicates.
Context `{Platform}.

(** A stored record whose hash the token matches. *)
Definition matches (token : RawToken) (session : SessionRecord) : bool :=
  bcrypt_compareSync token (tokenHash session).

(** No record of the document matches the token. *)
Definition no_matching_record (token : RawToken) (u : User) : Prop :=
  forall session, In session (sessions u) -> matches token session = false.

(** The document [removeSession] saves. *)
Definition without_token (token : RawToken) (u : User) : User :=
  UserModel.set_sessions u
    (List.filter (fun session => negb (bcrypt_compareSync token (tokenHash session)))
       (sessions u)).

(** The document [addSession] saves. *)
Definition with_session (amb : Ambient) (token : RawToken) (expires : Z)
    (ua ip_ : option string) (u : User) : User :=
  UserModel.set_lastSeen
    (UserModel.cleanExpiredSessions amb
       (UserModel.set_sessions u
          (sessions u ++ [mkSession (bcrypt_hash (salt amb) token) (now amb) expires ua ip_])))
    (now amb).

(** The request carries a session token that verifies against the secret,
    whose [uid] claim names the stored document [user], and the sessions of
    that document hold a record that has not expired and whose hash the
    token matches. *)
Definition holds_valid_session (JWT_SECRET : string) (amb : Ambient) (request : Request)
    (w : World) (user : User) : Prop :=
  exists token claims session,
    req_cookie request = Some token
    /\ jwt.verify token JWT_SECRET session_verify_options (now amb) = Ok claims
    /\ UserModel.findOne (UserModel.by_uid (claim_string (claims !! "uid"))) (users w)
       = Some user
    /\ In session (sessions user)
    /\ now amb < expiresAt session
    /\ bcrypt_compareSync token (tokenHash session) = true.

End StorePredicates.

(** ** A concrete platform and sample data

    A small instance of [Platform] on which the model runs: the MAC joins
  secret, algorithm and the token's subject claims, bcrypt keeps the
  token's text, and the identity provider knows one ID token. *)

Definition token_text (t : RawToken) : string :=
  match t with
  | Malformed s => s
  | Compact j =>
      jws_signature j ++ "." ++ claim_string (jws_claims j !! "sessionId")
      ++ "." ++ claim_string (jws_claims j !! "iat")
  end.

Definition sample_mac (alg secret : string) (claims : JObject) : string :=
  "mac:" ++ alg ++ ":" ++ secret ++ ":" ++ claim_string (claims !! "uid")
  ++ ":" ++ claim_string (claims !! "userId").

Definition sample_decoded : DecodedIdToken :=
  mkDecoded "u1" (Some "Alice@x.com") None None (Some "google.com").

#[local] Instance sample_platform : Platform := {|
  hmac := sample_mac;
  hmac_nonempty := ltac:(intros alg secret claims; unfold sample_mac; discriminate);
  bcrypt_hash := fun salt_ t => "$2a$10$" ++ token_text t;
  bcrypt_compareSync := fun t h => String.eqb ("$2a$10$" ++ token_text t) h;
  adminAuth_verifyIdToken := fun idToken =>
    if String.eqb idToken "good-id-token" then inl sample_decoded
    else inr "Decoding Firebase ID token failed";
  transporter_sendMail := fun _ _ => true;
  is_url := startsWith "http"
|}.

Definition sample_secret : string := "0123456789abcdef0123456789abcdef".

Definition sample_amb : Ambient := mkAmbient 1700000000000 "k3x9" "salt" "id1".

Definition empty_world : World := mkWorld [] [].

(** A first login of the sample user, and the world it leaves. *)
Definition login_request : Request :=
  mkRequest (BodyIdToken (Some "good-id-token")) None ∅.

Definition logged_in_world : World :=
  snd (Routes.session_POST sample_secret sample_amb (at_once sample_amb) login_request
         empty_world).

(** The session token that login issued, and its claims. *)
Definition issued_token : RawToken :=
  match fst (Routes.session_POST sample_secret sample_amb (at_once sample_amb)
               login_request empty_world) with
  | Ok (mkResponse _ _ (Some cookie)) => ck_value cookie
  | _ => Malformed ""
  end.

Definition issued_claims : JObject :=
  match jwt.decode issued_token with
  | Some claims => claims
  | None => ∅
  end.

Definition stored_user : User :=
  match users logged_in_world with
  | u :: _ => u
  | [] => mkUser "" "" "" None ProvEmail None 0 0 []
  end.


(** Requests that present the issued token as the session cookie: a plain
    one, and two whose ID token the identity provider rejects. *)
Definition cookie_request : Request :=
  mkRequest BodyNotJson (Some issued_token) ∅.

Definition stale_assertion_request : Request :=
  mkRequest (BodyIdToken (Some "stale-id-token")) (Some issued_token) ∅.


(** A validly signed token of a uid that has no document, and a refresh
    request that presents it as the old session. *)
Definition orphan_token : RawToken :=
  match jwt_server.signJWT sample_secret sample_amb
          (mkClaims "ghost" "ghost@x.com" None None None "s0") with
  | Ok t => t
  | Throw _ => Malformed ""
  end.

Definition orphan_claims : JObject :=
  match jwt.decode orphan_token with
  | Some claims => claims
  | None => ∅
  end.

Definition refresh_request : Request :=
  mkRequest (BodyIdToken (Some "good-id-token")) (Some orphan_token)
    (<["user-agent" := "Mozilla/5.0"]> ∅).

(** Process environments: every variable set and valid except the JWT
    secret, which has five characters. *)
Definition configured (node_env : string) (platform : list (string * string))
  : gmap string string :=
  list_to_map
    ([ ("NODE_ENV", node_env);
       ("NEXT_PUBLIC_FIREBASE_API_KEY", "key");
       ("NEXT_PUBLIC_FIREBASE_AUTH_DOMAIN", "app.firebaseapp.com");
       ("NEXT_PUBLIC_FIREBASE_PROJECT_ID", "app");
       ("NEXT_PUBLIC_FIREBASE_STORAGE_BUCKET", "app.appspot.com");
       ("NEXT_PUBLIC_FIREBASE_MESSAGING_SENDER_ID", "1");
       ("NEXT_PUBLIC_FIREBASE_APP_ID", "1:1:web:1");
       ("FIREBASE_SERVICE_ACCOUNT_KEY", "{}");
       ("GOOGLE_CLIENT_ID", "g"); ("GOOGLE_CLIENT_SECRET", "gs");
       ("GITHUB_CLIENT_ID", "h"); ("GITHUB_CLIENT_SECRET", "hs");
       ("MONGODB_URI", "mongodb://db/app");
       ("JWT_SECRET", "short");
       ("EMAIL_USER", "mailer"); ("EMAIL_PASS", "pw") ] ++ platform)%list.

Definition development_env : gmap string string := configured "development" [].
Definition self_hosted_env : gmap string string := configured "production" [].
Definition vercel_env : gmap string string := configured "production" [("VERCEL", "1")].

Definition fresh_env_state : Env.EnvState := Env.mkEnvState None [].

(** * Further components *)

(** ** [components/auth/password-strength.tsx]: the strength meter *)

Module PasswordStrength.

Definition in_range (lo hi : nat) (c : ascii) : bool :=
  let n := nat_of_ascii c in (Nat.leb lo n && Nat.leb n hi)%bool.

Definition is_uppercase (c : ascii) : bool := in_range 65 90 c.    (* [A-Z] *)
Definition is_lowercase (c : ascii) : bool := in_range 97 122 c.   (* [a-z] *)
Definition is_digit (c : ascii) : bool := in_range 48 57 c.        (* \d *)

(** The class of "special" characters; the double quote is character 34. *)
Definition special_chars : list ascii :=
  ascii_of_nat 34 :: list_ascii_of_string "!@#$%^&*(),.?:{}|<>".

Definition is_special (c : ascii) : bool := existsb (Ascii.eqb c) special_chars.

(** [/[class]/.test(s)]: some character of [s] is in the class.  The
    classes hold ASCII characters, which in UTF-8 are the bytes below 128
    and occur in no other character's encoding. *)
Fixpoint test (class : ascii -> bool) (s : string) : bool :=
  match s with
  | EmptyString => false
  | String c r => class c || test class r
  end.

Record Checks := mkChecks {
  chk_length : bool;
  chk_uppercase : bool;
  chk_lowercase : bool;
  chk_number : bool;
  chk_special : bool
}.

Definition newChecks (password : string) : Checks :=
  mkChecks (Nat.leb 8 (js_length password))
    (test is_uppercase password) (test is_lowercase password)
    (test is_digit password) (test is_special password).

(** [Object.values(newChecks).filter(Boolean).length]. *)
Definition score (c : Checks) : nat :=
  List.length (List.filter (fun b : bool => b)
                 [chk_length c; chk_uppercase c; chk_lowercase c; chk_number c; chk_special c]).

Definition strength (password : string) : nat := score (newChecks password).

Definition getStrengthColor (strength : nat) : string :=
  if Nat.leb strength 2 then "bg-red-500"
  else if Nat.leb strength 3 then "bg-yellow-500"
  else if Nat.leb strength 4 then "bg-blue-500"
  else "bg-green-500".

Definition getStrengthText (strength : nat) : string :=
  if Nat.leb strength 2 then "Weak"
  else if Nat.leb strength 3 then "Fair"
  else if Nat.leb strength 4 then "Good"
  else "Strong".

End PasswordStrength.

(** Some character (byte) of the text has the property. *)
Definition has_character (P : ascii -> Prop) (s : string) : Prop :=
  exists c, In c (list_ascii_of_string s) /\ P c.

(** ** [middleware.ts]: the edge middleware *)

(** [s.split(sep)] for a one-character separator: never empty, one part
    more than there are separators. *)
Fixpoint split_on (sep : ascii) (s : string) : list string :=
  match s with
  | EmptyString => [EmptyString]
  | String c r =>
      if Ascii.eqb c sep then EmptyString :: split_on sep r
      else match split_on sep r with
           | part :: parts => String c part :: parts
           | [] => [String c EmptyString]
           end
  end.

(** The number of separators in a string. *)
Fixpoint count_sep (sep : ascii) (s : string) : nat :=
  match s with
  | EmptyString => 0
  | String c r => (if Ascii.eqb c sep then 1 else 0)%nat + count_sep sep r
  end.

(** What the middleware answers: let the request through, or redirect to a
    path with query parameters. *)
Inductive EdgeOutcome : Type :=
  | EdgeNext
  | EdgeRedirect (path : string) (query : list (string * string)).

(** [!sessionCookie?.value], then [value.split(".").length !== 3], negated:
    the cookie has a value of three dot-separated parts. *)
Definition three_part_cookie (cookie : option string) : bool :=
  match cookie with
  | Some value =>
      negb (String.eqb value "") && Nat.eqb (List.length (split_on "." value)) 3
  | None => false
  end.

Module Middleware.

Definition protectedRoutes : list string := ["/about-me"; "/dashboard"; "/profile"].

Definition isProtectedRoute (pathname : string) : bool :=
  existsb (fun route => startsWith route pathname) protectedRoutes.

Definition middleware (pathname : string) (cookie : option string) : EdgeOutcome :=
  if isProtectedRoute pathname then
    match cookie with
    | None => EdgeRedirect "/auth/login" [("redirect", pathname)]
    | Some value =>
        if String.eqb value "" then EdgeRedirect "/auth/login" [("redirect", pathname)]
        else if negb (Nat.eqb (List.length (split_on "." value)) 3)
        then EdgeRedirect "/auth/login" [("redirect", pathname)]
        else EdgeNext
    end
  else EdgeNext.

End Middleware.

(** The second middleware of the repository, which also turns signed-in
    visitors away from the guest pages and from the root. *)
Module GuestMiddleware.

Definition protectedRoutes : list string := ["/about-me"; "/dashboard"; "/profile"].
Definition guestOnlyRoutes : list string :=
  ["/auth/login"; "/auth/signup"; "/auth/reset-password"].

Definition isProtectedRoute (pathname : string) : bool :=
  existsb (fun route => startsWith route pathname) protectedRoutes.

Definition isGuestOnlyRoute (pathname : string) : bool :=
  existsb (fun route => startsWith route pathname) guestOnlyRoutes.

Definition middleware (pathname : string) (cookie : option string) : EdgeOutcome :=
  if isProtectedRoute pathname then
    match cookie with
    | None => EdgeRedirect "/auth/login" [("redirect", pathname)]
    | Some value =>
        if String.eqb value "" then EdgeRedirect "/auth/login" [("redirect", pathname)]
        else if negb (Nat.eqb (List.length (split_on "." value)) 3)
        then EdgeRedirect "/auth/login" [("redirect", pathname)]
        else EdgeNext
    end
  else if isGuestOnlyRoute pathname && three_part_cookie cookie
  then EdgeRedirect "/about-me" []
  else if String.eqb pathname "/" && three_part_cookie cookie
  then EdgeRedirect "/about-me" []
  else EdgeNext.

End GuestMiddleware.

(** ** The validating authentication helpers ([requireAuth]) *)

Module AuthMiddleware.
Section Auth.
Context `{Platform}.
Variable JWT_SECRET : string.

(** [getAuthenticatedUserWithValidation]: the cookie is verified, then
    confirmed in the store, and the stored user is returned. *)
Definition getAuthenticatedUserWithValidation (amb : Ambient) (request : Request)
  : M World (option UserView) :=
  try_catch
    (match req_cookie request with
     | None => ret None
     | Some sessionCookie =>
         let* payload := jwt_server.verifyJWT JWT_SECRET amb sessionCookie in
         match payload with
         | None => ret None
         | Some payload =>
             let* isValidSession :=
               UserService.validateUserSession amb (claim_string (payload !! "uid"))
                 sessionCookie in
             if negb isValidSession then ret None
             else
               let* user := UserService.findByUid (claim_string (payload !! "uid")) in
               match user with
               | None => ret None
               | Some user => ret (Some (user_view user))
               end
         end
     end)%js
    (fun error => console_error "Authentication middleware error:" (Some error) ;; ret None)%js.

(** [requireAuth(handler)]: the handler receives the request with the
    authenticated user attached. *)
Definition requireAuth (handler : Request -> UserView -> M World Response)
    (amb : Ambient) (request : Request) : M World Response :=
  (let* user := getAuthenticatedUserWithValidation amb request in
   match user with
   | None => ret (json_error 401 "Authentication required" None)
   | Some user => handler request user
   end)%js.

End Auth.
End AuthMiddleware.

(** ** The rest of [lib/database/services/user-service.ts] *)

Record UserStats := mkStats {
  totalUsers : nat;
  activeUsers : nat;
  usersByProvider : gmap string nat
}.

Module UserStatistics.

Definition countDocuments (filter : User -> bool) (coll : list User) : nat :=
  List.length (List.filter filter coll).

Definition provider_eqb (p q : Provider) : bool :=
  match p, q with
  | ProvEmail, ProvEmail | ProvGoogle, ProvGoogle | ProvGithub, ProvGithub => true
  | _, _ => false
  end.

(** [aggregate([{ $group: { _id: "$provider", count: { $sum: 1 } } }])]:
    one entry for every provider that some document has, with the number
    of its documents. *)
Definition providerStats (coll : list User) : list (string * nat) :=
  List.flat_map
    (fun p => let n := countDocuments (fun u => provider_eqb (provider u) p) coll in
              if Nat.eqb n 0 then [] else [(provider_name p, n)])
    [ProvEmail; ProvGoogle; ProvGithub].

Definition getUserStats (amb : Ambient) : M World UserStats :=
  gets (fun w =>
    let coll := users w in
    mkStats (countDocuments (fun _ => true) coll)
      (countDocuments (fun u => Z.leb (now amb - 30 * 24 * 60 * 60 * 1000) (lastSeen u)) coll)
      (fold_left (fun acc stat => <[fst stat := snd stat]> acc) (providerStats coll) ∅)).

End UserStatistics.

(** ** The rest of [lib/services/reset-token-service.ts], and its routes *)

(** The identity provider's side of a password reset: [updateUser] takes
    the new password or rejects it with a message. *)
Class IdentityAdmin := {
  adminAuth_updateUser : string -> string -> option string;
  (** zod's [z.string().email()] test. *)
  is_email : string -> bool
}.

(** The world of the reset flow: the application's world and the passwords
    the identity provider has been given, oldest first. *)
Record ResetWorld := mkResetWorld {
  app : World;
  passwords : list (string * string)
}.

Definition in_app {A} (m : M World A) : M ResetWorld A :=
  fun s => let '(r, w') := m (app s) in (r, mkResetWorld w' (passwords s)).

(** [email.toLowerCase()] on a claim: a method of strings only. *)
Definition claim_email (v : option JValue) : Result string :=
  match v with
  | Some (JStr s) => Ok s
  | _ => Throw (Error "TypeError: email.toLowerCase is not a function")
  end.

(** [payload.userId === currentUserId]. *)
Definition claim_is (v : option JValue) (s : string) : bool :=
  match v with
  | Some (JStr x) => String.eqb x s
  | _ => false
  end.

Record ResetReply := mkResetReply {
  rr_status : Z;
  rr_success : bool;
  rr_error : option string;
  rr_message : option string;
  rr_user : option (string * option string)     (* email and name *)
}.

(** The body of [PUT /api/auth/reset-password]; [None] is a member that is
    absent. *)
Record ConfirmBody := mkConfirmBody {
  cb_token : option RawToken;
  cb_password : option string;
  cb_confirmPassword : option string
}.

Definition token_is_empty (t : RawToken) : bool :=
  match t with
  | Malformed s => String.eqb s ""
  | Compact _ => false
  end.

Module ResetPassword.
Section Flow.
Context `{Platform} `{IdentityAdmin}.
Variable JWT_SECRET : string.

Definition findByEmail_claim (v : option JValue) : M World (option User) :=
  (let* e := lift_result (claim_email v) in UserService.findByEmail e)%js.


Definition validateTokenForUser (amb : Ambient) (token : RawToken) (currentUserId : string)
  : M World bool :=
  (let* payload := ResetTokenService.verifyResetToken JWT_SECRET amb token in
   match payload with
   | None => ret false
   | Some payload => ret (claim_is (payload !! "userId") currentUserId)
   end)%js.

Definition sendPasswordResetSuccessEmail (to userName : string) : M World bool :=
  EmailService.sendEmail to "Password Reset Successful - Firebase Auth App".

Definition updateUser (u password : string) : M ResetWorld unit :=
  match adminAuth_updateUser u password with
  | Some reason => throw (Error reason)
  | None => modify (fun s => mkResetWorld (app s) (passwords s ++ [(u, password)]))
  end.

Definition resetPasswordWithToken (amb : Ambient) (token : RawToken) (newPassword : string)
  : M ResetWorld ServiceReply :=
  try_catch
    (let* payload := in_app (ResetTokenService.verifyResetToken JWT_SECRET amb token) in
     match payload with
     | None => ret (mkReply false "Invalid or expired reset token")
     | Some payload =>
         let* user := in_app (findByEmail_claim (payload !! "email")) in
         match user with
         | None => ret (mkReply false "User not found")
         | Some user =>
             updateUser (uid user) newPassword ;;
             in_app (sendPasswordResetSuccessEmail (email user)
                       (or_default (name user) (email user))) ;;
             ret (mkReply true "Password reset successfully")
         end
     end)%js
    (fun error =>
       in_app (console_error "Error resetting password:" (Some error)) ;;
       ret (mkReply false "Failed to reset password. Please try again."))%js.


(** *** [app/api/auth/reset-password/route.ts] *)

(** [confirmResetSchema.parse(body)]: the members in order, then the
    refinement; the first issue is the one the route reports. *)
Definition confirm_first_issue (body : ConfirmBody) : option string :=
  match cb_token body with
  | None => Some "Required"
  | Some t =>
      if token_is_empty t then Some "Reset token is required"
      else
        match cb_password body with
        | None => Some "Required"
        | Some p =>
            if Nat.ltb (js_length p) 6 then Some "Password must be at least 6 characters"
            else
              match cb_confirmPassword body with
              | None => Some "Required"
              | Some c =>
                  if Nat.ltb (js_length c) 6 then Some "Confirm password is required"
                  else if negb (String.eqb p c) then Some "Passwords don't match"
                  else None
              end
        end
  end.

Definition reset_catch (label : string) (error : Exn) : M ResetWorld ResetReply :=
  (in_app (console_error label (Some error)) ;;
   match error with
   | ZodError (issue :: _) =>
       ret (mkResetReply 400 false (Some (issue_message issue)) None None)
   | _ => ret (mkResetReply 500 false
                 (Some "An unexpected error occurred. Please try again.") None None)
   end)%js.

Definition reply_of (result : ServiceReply) : ResetReply :=
  if success result then mkResetReply 200 true None (Some (message result)) None
  else mkResetReply 400 false (Some (message result)) None None.

Definition reset_POST (amb : Ambient) (body : option (option string)) : M ResetWorld ResetReply :=
  try_catch
    (match body with
     | None => throw (SyntaxError "Unexpected token")
     | Some None => throw (ZodError [mkIssue "email" "Required"])
     | Some (Some email_) =>
         if negb (is_email email_) then throw (ZodError [mkIssue "email" "Invalid email address"])
         else
           let* result := in_app (ResetTokenService.createResetRequest JWT_SECRET amb email_) in
           ret (reply_of result)
     end)%js
    (reset_catch "Reset password request error:").

Definition reset_PUT (amb : Ambient) (body : option ConfirmBody) : M ResetWorld ResetReply :=
  try_catch
    (match body with
     | None => throw (SyntaxError "Unexpected token")
     | Some body =>
         match confirm_first_issue body, cb_token body, cb_password body with
         | None, Some token, Some password =>
             let* result := resetPasswordWithToken amb token password in
             ret (reply_of result)
         | Some msg, _, _ => throw (ZodError [mkIssue "" msg])
         | None, _, _ => throw (ZodError [mkIssue "" "Required"])
         end
     end)%js
    (reset_catch "Confirm reset password error:").

End Flow.
End ResetPassword.

(** ** Predicates used in the further statements *)

Section FurtherPredicates.
Context `{Platform}.

(** The stored user whose live session the request's cookie is, computed:
    the cookie verifies, its [uid] names a document, and a record of that
    document, not yet expired, matches the cookie. *)
Definition session_owner (JWT_SECRET : string) (amb : Ambient) (request : Request)
    (w : World) : option User :=
  match req_cookie request with
  | Some token =>
      match jwt.verify token JWT_SECRET session_verify_options (now amb) with
      | Ok claims =>
          match UserModel.findOne (UserModel.by_uid (claim_string (claims !! "uid")))
                  (users w) with
          | Some user => if UserModel.validateSession amb user token then Some user else None
          | None => None
          end
      | Throw _ => None
      end
  | None => None
  end.

(** A session record is live at a clock. *)
Definition live (amb : Ambient) (session : SessionRecord) : bool :=
  Z.ltb (now amb) (expiresAt session).

(** The unique index the schema declares on [email]. *)
Definition unique_emails (coll : list User) : Prop := List.NoDup (List.map email coll).

(** bcrypt is correct: a hash matches the data it was made from. *)
Definition bcrypt_correct : Prop :=
  forall salt_ token, bcrypt_compareSync token (bcrypt_hash salt_ token) = true.

End FurtherPredicates.

(** The count that the statistics report for a provider: the entry of the
    object, or nothing. *)
Definition reported (stats : UserStats) (p : Provider) : nat :=
  match usersByProvider stats !! provider_name p with
  | Some n => n
  | None => 0%nat
  end.

Section ResetPredicates.
Context `{Platform} `{IdentityAdmin}.

(** Everything [resetPasswordWithToken] asks for before the password of
    [user] is changed: the token verifies as a reset token, its [email]
    claim is a string that names [user] in the collection, and the identity
    provider takes the new password. *)
Definition reset_accepted (JWT_SECRET : string) (amb : Ambient) (token : RawToken)
    (newPassword : string) (coll : list User) (user : User) : Prop :=
  exists claims e,
    jwt.verify token JWT_SECRET reset_verify_options (now amb) = Ok claims
    /\ claims !! "type" = Some (JStr "password_reset")
    /\ claims !! "email" = Some (JStr e)
    /\ UserModel.findOne (UserModel.by_email (toLowerCase e)) coll = Some user
    /\ adminAuth_updateUser (uid user) newPassword = None.

End ResetPredicates.

Definition reset_done : ServiceReply := mkReply true "Password reset successfully".

(** A handler that answers with the authenticated user. *)
Definition whoami (request : Request) (user : UserView) : M World Response :=
  ret (mkResponse 200 (mkBody true (Some user) None None None None None) None).

(** ** Sample data for the further components *)

#[local] Instance sample_admin : IdentityAdmin := {|
  adminAuth_updateUser := fun _ password =>
    if Nat.ltb (js_length password) 6 then Some "WEAK_PASSWORD" else None;
  is_email := fun s => negb (String.eqb (split_head "@" s) s)
|}.

(** One hour, less a second, and one hour after the sample instant. *)
Definition almost_an_hour_later : Ambient := mkAmbient 1700003599999 "r" "s" "id9".
Definition an_hour_later : Ambient := mkAmbient 1700003600000 "r" "s" "id9".
Definition a_week_later : Ambient := mkAmbient 1700604800000 "r" "s" "id9".

(** The reset token minted for the stored user at the sample instant. *)
Definition reset_token : RawToken :=
  match ResetTokenService.generateResetToken sample_secret sample_amb
          (doc_id stored_user) (email stored_user) with
  | Ok t => t
  | Throw _ => Malformed ""
  end.

Definition reset_world : ResetWorld := mkResetWorld logged_in_world [].


(** A platform like the sample one whose mail transport is down. *)
Definition offline_mail_platform : Platform := {|
  hmac := sample_mac;
  hmac_nonempty := ltac:(intros alg secret claims; unfold sample_mac; discriminate);
  bcrypt_hash := fun salt_ t => "$2a$10$" ++ token_text t;
  bcrypt_compareSync := fun t h => String.eqb ("$2a$10$" ++ token_text t) h;
  adminAuth_verifyIdToken := fun idToken =>
    if String.eqb idToken "good-id-token" then inl sample_decoded
    else inr "Decoding Firebase ID token failed";
  transporter_sendMail := fun _ _ => false;
  is_url := startsWith "http"
|}.

(** A sign-in whose reads fall on both sides of a second of the clock:
    the expiry of the record is taken in one second, the token is signed
    in the next. *)
Definition staggered_reads : SignInReads :=
  mkSignInReads (mkAmbient 1700000000990 "k3x9" "salt" "id1")
    (mkAmbient 1700000000995 "k3x9" "salt" "id1")
    (mkAmbient 1700000000999 "k3x9" "salt" "id1")
    (mkAmbient 1700000001000 "k3x9" "salt" "id1")
    (mkAmbient 1700000001004 "k3x9" "salt" "id1").

(** The world, the answer and the cookie of that sign-in. *)
Definition staggered_world : World :=
  snd (Routes.session_POST sample_secret sample_amb staggered_reads login_request
         empty_world).

Definition staggered_response : Response :=
  match fst (Routes.session_POST sample_secret sample_amb staggered_reads login_request
               empty_world) with
  | Ok response => response
  | Throw _ => json_error 500 "" None
  end.

Definition staggered_cookie : SetCookie :=
  match set_cookie staggered_response with
  | Some cookie => cookie
  | None => mkSetCookie (Malformed "") 0
  end.

(** The last millisecond at which the record of that sign-in is unexpired;
    the token's [exp] is a millisecond later. *)
Definition last_moment : Ambient := mkAmbient 1700604800998 "r" "s" "id9".

(** A platform like the sample one whose bcrypt, as bcryptjs does, reads
    only a prefix of its input: here the first 50 bytes, which the tokens
    of one user share. *)
Definition prefix_platform : Platform := {|
  hmac := sample_mac;
  hmac_nonempty := ltac:(intros alg secret claims; unfold sample_mac; discriminate);
  bcrypt_hash := fun salt_ t => "$2a$10$" ++ String.substring 0 50 (token_text t);
  bcrypt_compareSync := fun t h =>
    String.eqb ("$2a$10$" ++ String.substring 0 50 (token_text t)) h;
  adminAuth_verifyIdToken := fun idToken =>
    if String.eqb idToken "good-id-token" then inl sample_decoded
    else inr "Decoding Firebase ID token failed";
  transporter_sendMail := fun _ _ => true;
  is_url := startsWith "http"
|}.

(** The world that the sample login leaves on that platform. *)
Definition prefix_world : World :=
  snd (@Routes.session_POST prefix_platform sample_secret sample_amb (at_once sample_amb)
         login_request empty_world).

(** A second token, as the next sign-in of the sample user would sign. *)
Definition next_token : RawToken :=
  match jwt_server.signJWT sample_secret almost_an_hour_later
          (mkClaims "u1" "alice@x.com" None None None
             (jwt_server.generateSessionId almost_an_hour_later)) with
  | Ok t => t
  | Throw _ => Malformed ""
  end.

(** A process environment with every variable set and valid. *)
Definition production_env : gmap string string :=
  <["JWT_SECRET" := sample_secret]> vercel_env.

(** A second sign-in, of another uid with the stored user's email. *)
Definition same_email_data : UserData :=
  mkUserData "u2" "ALICE@x.com" None ProvEmail None.

(** * Properties *)

Section KeyedObjects.
Context {V : Type}.

Lemma lookup_set_optional_ne (k k' : string) (v : option V) (o : gmap string V) :
  k <> k' -> set_optional k v o !! k' = o !! k'.
Proof.
  intros Hne. destruct v as [x|]; cbn; [apply lookup_insert_ne; exact Hne | reflexivity].
Qed.

End KeyedObjects.

(** The keys [signJWT] receives are the six of [SessionClaims]: any other
    key is absent from the object it signs. *)
Lemma claims_object_other (c : SessionClaims) (k : string) :
  k <> "uid" -> k <> "email" -> k <> "sessionId" -> k <> "name" ->
  k <> "provider" -> k <> "photoURL" ->
  claims_object c !! k = None.
Proof.
  intros H1 H2 H3 H4 H5 H6. unfold claims_object.
  rewrite !lookup_set_optional_ne by congruence.
  rewrite !lookup_insert_ne by congruence.
  apply lookup_empty.
Qed.

Lemma claims_object_uid (c : SessionClaims) :
  claims_object c !! "uid" = Some (JStr (c_uid c)).
Proof.
  unfold claims_object.
  rewrite !lookup_set_optional_ne by discriminate.
  rewrite !lookup_insert_ne by discriminate.
  apply lookup_insert_eq.
Qed.

Lemma long_secret_nonempty (secret : string) :
  (32 <= String.length secret)%nat -> String.eqb secret "" = false.
Proof.
  intros Hlen. destruct secret; cbn in *; [lia | reflexivity].
Qed.

Section Codec.
Context `{Platform}.
Variable JWT_SECRET : string.

Lemma signJWT_ok (amb : Ambient) (c : SessionClaims) :
  String.eqb JWT_SECRET "" = false ->
  jwt_server.signJWT JWT_SECRET amb c
  = Ok (Compact (mkJws "HS256" (with_injected amb (claims_object c))
                   (hmac "HS256" JWT_SECRET (with_injected amb (claims_object c))))).
Proof.
  intros Hs. unfold jwt_server.signJWT, jwt.sign. rewrite Hs.
  rewrite !claims_object_other by discriminate. cbn.
  unfold jwt.set_claim. cbn.
  rewrite lookup_insert_ne by discriminate.
  rewrite lookup_insert_ne by discriminate.
  rewrite claims_object_other by discriminate.
  rewrite lookup_insert_ne by discriminate.
  rewrite lookup_insert_ne by discriminate.
  rewrite lookup_insert_ne by discriminate.
  rewrite claims_object_other by discriminate.
  reflexivity.
Qed.

Lemma hmac_eqb_empty alg secret claims : String.eqb (hmac alg secret claims) "" = false.
Proof. apply String.eqb_neq, hmac_nonempty. Qed.

(** C3. Verifying a token that [signJWT] produced, with the same secret of
    at least 32 characters and before the seven days have passed, returns
    the signed claims together with the injected [iss], [aud], [iat] and
    [exp]; every other key reads exactly as in the payload that was signed,
    and nothing is logged. *)
Theorem C3_verify_sign_roundtrip (amb0 amb1 : Ambient) (c : SessionClaims) (w : World) :
  (32 <= String.length JWT_SECRET)%nat ->
  jwt.clockTimestamp (now amb1) < jwt.clockTimestamp (now amb0) + 7 * 24 * 60 * 60 ->
  exists token decoded,
    jwt_server.signJWT JWT_SECRET amb0 c = Ok token
    /\ jwt_server.verifyJWT JWT_SECRET amb1 token w = (Ok (Some decoded), w)
    /\ decoded = with_injected amb0 (claims_object c)
    /\ (forall k, k <> "iss" -> k <> "aud" -> k <> "iat" -> k <> "exp" ->
                  decoded !! k = claims_object c !! k).
Proof.
  intros Hlen Hfresh.
  pose proof (long_secret_nonempty _ Hlen) as Hs.
  eexists. exists (with_injected amb0 (claims_object c)).
  split; [apply signJWT_ok; exact Hs|].
  split; [|split; [reflexivity|]].
  - unfold jwt_server.verifyJWT, try_catch, bind, lift_result, ret, jwt.verify.
    cbn [jws_signature jws_alg jws_claims].
    rewrite hmac_eqb_empty, Hs. cbn [existsb jwt.HS_ALGS negb].
    rewrite String.eqb_refl. cbn [orb negb].
    rewrite String.eqb_refl. cbn [negb].
    assert (Hnbf : with_injected amb0 (claims_object c) !! "nbf" = None).
    { unfold with_injected. rewrite !lookup_insert_ne by discriminate.
      apply claims_object_other; discriminate. }
    assert (Hexp : with_injected amb0 (claims_object c) !! "exp"
                   = Some (JNum (jwt.clockTimestamp (now amb0) + jwt_server.JWT_EXPIRES_IN))).
    { unfold with_injected. rewrite !lookup_insert_ne by discriminate.
      apply lookup_insert_eq. }
    assert (Haud : with_injected amb0 (claims_object c) !! "aud"
                   = Some (JStr "firebase-auth-app-users")).
    { unfold with_injected. rewrite lookup_insert_ne by discriminate.
      apply lookup_insert_eq. }
    assert (Hiss : with_injected amb0 (claims_object c) !! "iss"
                   = Some (JStr "firebase-auth-app")).
    { unfold with_injected. apply lookup_insert_eq. }
    rewrite Hnbf, Hexp, Haud, Hiss. cbn [jwt.check_nbf jwt.check_exp].
    unfold jwt_server.JWT_EXPIRES_IN.
    destruct (Z.leb_spec (jwt.clockTimestamp (now amb0) + 7 * 24 * 60 * 60)
                (jwt.clockTimestamp (now amb1))) as [Hle|Hlt]; [lia|].
    reflexivity.
  - intros k H1 H2 H3 H4. unfold with_injected.
    rewrite !lookup_insert_ne by congruence. reflexivity.
Qed.

End Codec.

(** A token signed and verified at the same instant. *)
Lemma C3_witness :
  exists token decoded,
    jwt_server.signJWT sample_secret sample_amb
      (mkClaims "u1" "a@x.com" (Some None) (Some "email") None "s1") = Ok token
    /\ jwt_server.verifyJWT sample_secret sample_amb token empty_world
       = (Ok (Some decoded), empty_world)
    /\ decoded = with_injected sample_amb
                   (claims_object (mkClaims "u1" "a@x.com" (Some None) (Some "email") None "s1"))
    /\ (forall k, k <> "iss" -> k <> "aud" -> k <> "iat" -> k <> "exp" ->
                  decoded !! k
                  = claims_object (mkClaims "u1" "a@x.com" (Some None) (Some "email") None "s1") !! k).
Proof.
  apply (C3_verify_sign_roundtrip sample_secret sample_amb sample_amb).
  - simpl. lia.
  - reflexivity.
Defined.

(** ** The collection: finding and writing back documents *)

Section Collection.

Lemma findOne_Some (f : User -> bool) (coll : list User) (u : User) :
  UserModel.findOne f coll = Some u -> In u coll /\ f u = true.
Proof. apply List.find_some. Qed.

Lemma findOne_None (f : User -> bool) (coll : list User) :
  UserModel.findOne f coll = None -> forall d, In d coll -> f d = false.
Proof. apply List.find_none. Qed.

Lemma replace_doc_ids (u : User) (coll : list User) :
  List.map doc_id (UserModel.replace_doc u coll) = List.map doc_id coll.
Proof.
  induction coll as [|d rest IH]; cbn; [reflexivity|].
  destruct (String.eqb_spec (doc_id d) (doc_id u)) as [Heq|Hne]; cbn.
  - now rewrite Heq.
  - now rewrite IH.
Qed.

Lemma replace_doc_unique_ids (u : User) (coll : list User) :
  unique_ids coll -> unique_ids (UserModel.replace_doc u coll).
Proof. unfold unique_ids. now rewrite replace_doc_ids. Qed.

(** Writing back a document that was found, with its [_id] and [uid]
    kept, leaves the [uid] column as it was. *)
Lemma replace_doc_uids (u u' : User) (coll : list User) :
  unique_ids coll -> In u coll -> doc_id u' = doc_id u -> uid u' = uid u ->
  List.map uid (UserModel.replace_doc u' coll) = List.map uid coll.
Proof.
  unfold unique_ids. intros Hnd Hin Hid Huid.
  induction coll as [|d rest IH]; cbn in *; [reflexivity|].
  inversion Hnd as [|? ? Hnotin Hnd']; subst.
  destruct (String.eqb_spec (doc_id d) (doc_id u')) as [Heq|Hne]; cbn.
  - destruct Hin as [->|Hin]; [now rewrite Huid|].
    exfalso. apply Hnotin. rewrite Heq, Hid. now apply in_map.
  - destruct Hin as [->|Hin]; [congruence|]. now rewrite IH.
Qed.

(** A query by [uid] finds the document just written back. *)
Lemma findOne_replace_doc (k : string) (u u' : User) (coll : list User) :
  unique_ids coll ->
  UserModel.findOne (UserModel.by_uid k) coll = Some u ->
  doc_id u' = doc_id u -> uid u' = uid u ->
  UserModel.findOne (UserModel.by_uid k) (UserModel.replace_doc u' coll) = Some u'.
Proof.
  unfold unique_ids, UserModel.findOne. intros Hnd Hfind Hid Huid.
  induction coll as [|d rest IH]; cbn in *; [discriminate|].
  inversion Hnd as [|? ? Hnotin Hnd']; subst.
  destruct (UserModel.by_uid k d) eqn:Hk.
  - injection Hfind as ->. rewrite Hid, String.eqb_refl. cbn.
    unfold UserModel.by_uid in *. now rewrite Huid, Hk.
  - destruct (String.eqb_spec (doc_id d) (doc_id u')) as [Heq|Hne].
    + exfalso. apply Hnotin. rewrite Heq, Hid.
      apply in_map. now apply (List.find_some _ _ Hfind).
    + cbn. rewrite Hk. now apply IH.
Qed.

(** A query by [uid] that finds nothing depends on the [uid] column only. *)
Lemma findOne_by_uid_None (k : string) (coll : list User) :
  UserModel.findOne (UserModel.by_uid k) coll = None <-> ~ In k (List.map uid coll).
Proof.
  unfold UserModel.findOne, UserModel.by_uid.
  induction coll as [|d rest IH]; cbn; [tauto|].
  destruct (String.eqb_spec (uid d) k) as [Heq|Hne].
  - split; [discriminate|]. intros Hn. exfalso. apply Hn. now left.
  - rewrite IH. tauto.
Qed.

(** Saving a document whose email was not touched runs no setter. *)
Lemma pre_save_same_email (coll : list User) (u u' : User) :
  unique_ids coll -> In u coll -> doc_id u' = doc_id u -> email u' = email u ->
  UserModel.pre_save coll u' = u'.
Proof.
  unfold unique_ids, UserModel.pre_save, UserModel.findOne. intros Hnd Hin Hid Hem.
  destruct (List.find _ coll) as [stored|] eqn:Hfind; [|reflexivity].
  apply List.find_some in Hfind as [Hin' Heq].
  apply String.eqb_eq in Heq.
  assert (stored = u) as ->.
  { clear Hem. induction coll as [|d rest IH]; cbn in *; [contradiction|].
    inversion Hnd as [|? ? Hnotin Hnd']; subst.
    destruct Hin as [->|Hin], Hin' as [->|Hin']; try reflexivity.
    - exfalso. apply Hnotin. rewrite <- Hid, <- Heq. now apply in_map.
    - exfalso. apply Hnotin. rewrite Heq, Hid. now apply in_map.
    - now apply IH. }
  now rewrite <- Hem, String.eqb_refl.
Qed.

(** Writing a document back unchanged changes nothing. *)
Lemma replace_doc_same (u : User) (coll : list User) :
  unique_ids coll -> In u coll -> UserModel.replace_doc u coll = coll.
Proof.
  unfold unique_ids. intros Hnd Hin.
  induction coll as [|d rest IH]; cbn in *; [reflexivity|].
  inversion Hnd as [|? ? Hnotin Hnd']; subst.
  destruct (String.eqb_spec (doc_id d) (doc_id u)) as [Heq|Hne].
  - destruct Hin as [->|Hin]; [reflexivity|].
    exfalso. apply Hnotin. rewrite Heq. now apply in_map.
  - destruct Hin as [->|Hin]; [congruence|]. now rewrite IH.
Qed.

End Collection.

(** ** Sessions in the store *)

Section SessionStore.
Context `{Platform}.
Variable JWT_SECRET : string.

Lemma world_eta (w : World) : mkWorld (users w) (console w) = w.
Proof. now destruct w. Qed.

Lemma set_sessions_same (u : User) : UserModel.set_sessions u (sessions u) = u.
Proof. now destruct u. Qed.

Lemma filter_all {A} (f : A -> bool) (l : list A) :
  (forall x, In x l -> f x = true) -> List.filter f l = l.
Proof.
  induction l as [|a l IH]; cbn; intros Hall; [reflexivity|].
  rewrite (Hall a) by now left. f_equal. apply IH. intros x Hx. apply Hall. now right.
Qed.

Lemma without_token_no_match (token : RawToken) (u : User) :
  no_matching_record token (without_token token u).
Proof.
  unfold no_matching_record, without_token, matches. cbn. intros session Hin.
  apply filter_In in Hin as [_ Hneg]. now apply negb_true_iff in Hneg.
Qed.

Lemma without_token_id (token : RawToken) (u : User) :
  no_matching_record token u -> without_token token u = u.
Proof.
  intros Hno. unfold without_token. rewrite filter_all; [apply set_sessions_same|].
  intros session Hin. apply negb_true_iff. now apply Hno.
Qed.

(** General form of the liveness rule: a document none of whose records
    matches the token does not validate it, whatever the clock. *)
Lemma validateSession_no_match (amb : Ambient) (token : RawToken) (u : User) :
  no_matching_record token u -> UserModel.validateSession amb u token = false.
Proof.
  unfold no_matching_record, matches, UserModel.validateSession. intros Hno.
  induction (sessions u) as [|s l IH]; cbn in *; [reflexivity|].
  rewrite (Hno s) by now left. rewrite andb_false_r. cbn.
  apply IH. intros x Hx. apply Hno. now right.
Qed.

(** [validateSession] is true exactly when the sessions hold a record that
    has not expired and whose hash the token matches. *)
Lemma validateSession_spec (amb : Ambient) (u : User) (token : RawToken) :
  UserModel.validateSession amb u token = true
  <-> exists session,
        In session (sessions u)
        /\ now amb < expiresAt session
        /\ bcrypt_compareSync token (tokenHash session) = true.
Proof.
  unfold UserModel.validateSession. rewrite existsb_exists.
  split; intros (session & Hin & Hs); exists session; (split; [exact Hin|]).
  - apply andb_true_iff in Hs as [Hlive Hmatch]. now apply Z.ltb_lt in Hlive.
  - destruct Hs as [Hlive Hmatch]. apply andb_true_iff. now apply Z.ltb_lt in Hlive.
Qed.

Lemma removeUserSession_missing (k : string) (token : RawToken) (w : World) :
  UserModel.findOne (UserModel.by_uid k) (users w) = None ->
  UserService.removeUserSession k token w = (Throw (Error "User not found"), w).
Proof.
  intros Hfind. unfold UserService.removeUserSession, bind, gets, throw. now rewrite Hfind.
Qed.

Lemma removeUserSession_found (k : string) (token : RawToken) (w : World) (u : User) :
  unique_ids (users w) ->
  UserModel.findOne (UserModel.by_uid k) (users w) = Some u ->
  UserService.removeUserSession k token w
  = (Ok tt, mkWorld (UserModel.replace_doc (without_token token u) (users w)) (console w)).
Proof.
  intros Hwf Hfind.
  unfold UserService.removeUserSession, bind, gets, UserModel.removeSession,
    UserModel.save, modify.
  rewrite Hfind. fold (without_token token u).
  rewrite (pre_save_same_email (users w) u); try reflexivity; try assumption.
  now apply (findOne_Some _ _ _ Hfind).
Qed.

Lemma validateUserSession_run (amb : Ambient) (k : string) (token : RawToken) (w : World) :
  UserService.validateUserSession amb k token w
  = (Ok match UserModel.findOne (UserModel.by_uid k) (users w) with
        | Some u => UserModel.validateSession amb u token
        | None => false
        end, w).
Proof.
  unfold UserService.validateUserSession, bind, gets, ret.
  now destruct (UserModel.findOne _ _).
Qed.

(** After [removeUserSession], whether it removed a record, found none or
    found no user, the store no longer validates the token. *)
Lemma validate_after_remove (amb : Ambient) (k : string) (token : RawToken) (w : World) :
  unique_ids (users w) ->
  UserService.validateUserSession amb k token
    (snd (UserService.removeUserSession k token w))
  = (Ok false, snd (UserService.removeUserSession k token w)).
Proof.
  intros Hwf. rewrite validateUserSession_run. f_equal. f_equal.
  destruct (UserModel.findOne (UserModel.by_uid k) (users w)) as [u|] eqn:Hfind.
  - rewrite (removeUserSession_found _ _ _ _ Hwf Hfind). cbn.
    rewrite (findOne_replace_doc k u) by (assumption || reflexivity).
    apply validateSession_no_match, without_token_no_match.
  - rewrite (removeUserSession_missing _ _ _ Hfind). cbn. now rewrite Hfind.
Qed.

Lemma removeUserSession_uids (k : string) (token : RawToken) (w : World) :
  unique_ids (users w) ->
  List.map uid (users (snd (UserService.removeUserSession k token w)))
  = List.map uid (users w).
Proof.
  intros Hwf.
  destruct (UserModel.findOne (UserModel.by_uid k) (users w)) as [u|] eqn:Hfind.
  - rewrite (removeUserSession_found _ _ _ _ Hwf Hfind). cbn.
    apply (replace_doc_uids u); try reflexivity; try assumption.
    now apply (findOne_Some _ _ _ Hfind).
  - now rewrite (removeUserSession_missing _ _ _ Hfind).
Qed.

Lemma verifyJWT_ok (amb : Ambient) (token : RawToken) (claims : JObject) (w : World) :
  jwt.verify token JWT_SECRET session_verify_options (now amb) = Ok claims ->
  jwt_server.verifyJWT JWT_SECRET amb token w = (Ok (Some claims), w).
Proof.
  intros Hv. unfold jwt_server.verifyJWT, try_catch, bind, lift_result, ret.
  fold session_verify_options. now rewrite Hv.
Qed.

Lemma verifyJWT_fail (amb : Ambient) (token : RawToken) (e : Exn) (w : World) :
  jwt.verify token JWT_SECRET session_verify_options (now amb) = Throw e ->
  jwt_server.verifyJWT JWT_SECRET amb token w
  = (Ok None, mkWorld (users w)
                (console w ++ [mkLog LogError "JWT verification failed:" (Some e)])).
Proof.
  intros Hv. unfold jwt_server.verifyJWT, try_catch, bind, lift_result, ret.
  fold session_verify_options. now rewrite Hv.
Qed.

(** The cookie branch of [GET /api/user/me] consults the store: a verified
    token that the store does not validate is answered 401. *)
Lemma me_session_path_unvalidated (amb : Ambient) (request : Request) (token : RawToken)
    (claims : JObject) (w : World) :
  req_cookie request = Some token ->
  jwt.verify token JWT_SECRET session_verify_options (now amb) = Ok claims ->
  fst (UserService.validateUserSession amb (claim_string (claims !! "uid")) token w)
  = Ok false ->
  Routes.me_session_path JWT_SECRET amb request w
  = (Ok (json_error 401 "Session expired or invalid" None), w).
Proof.
  intros Hc Hv Hval. unfold Routes.me_session_path. rewrite Hc.
  unfold bind at 1. rewrite (verifyJWT_ok _ _ _ _ Hv).
  unfold bind at 1. rewrite validateUserSession_run in *. cbn in Hval.
  injection Hval as ->. reflexivity.
Qed.

End SessionStore.

Section Liveness.
Context `{Platform}.
Variable JWT_SECRET : string.

Lemma or_default_truthy (v : option string) (d : string) :
  truthy v = true -> v = Some (or_default v d).
Proof.
  unfold or_default, or_else. intros Ht. rewrite Ht.
  destruct v; [reflexivity | discriminate].
Qed.

(** C1. A session token whose signature verifies and that has not expired
    is presented after its record was removed with [removeUserSession]:
    the store no longer validates it, and [GET /api/user/me], when no
    bearer assertion authenticates the request, answers 401 "Session
    expired or invalid" and leaves the collection as it is.  The signature
    alone does not keep the session alive. *)
Theorem C1_removed_session_fails_validation (amb : Ambient) (request : Request)
    (token : RawToken) (claims : JObject) (w : World) :
  unique_ids (users w) ->
  req_cookie request = Some token ->
  jwt.verify token JWT_SECRET session_verify_options (now amb) = Ok claims ->
  (forall idToken decoded,
      Routes.bearer_token request = Some idToken ->
      adminAuth_verifyIdToken idToken = inl decoded ->
      UserModel.findOne (UserModel.by_uid (d_uid decoded)) (users w) = None) ->
  let w' := snd (UserService.removeUserSession (claim_string (claims !! "uid")) token w) in
  UserService.validateUserSession amb (claim_string (claims !! "uid")) token w'
  = (Ok false, w')
  /\ fst (Routes.me_GET JWT_SECRET amb request w')
     = Ok (json_error 401 "Session expired or invalid" None)
  /\ users (snd (Routes.me_GET JWT_SECRET amb request w')) = users w'.
Proof.
  intros Hwf Hc Hv Hbearer w'.
  assert (Hval : UserService.validateUserSession amb (claim_string (claims !! "uid")) token w'
                 = (Ok false, w')) by (apply validate_after_remove; exact Hwf).
  split; [exact Hval|].
  assert (Hany : forall w0, users w0 = users w' ->
            Routes.me_session_path JWT_SECRET amb request w0
            = (Ok (json_error 401 "Session expired or invalid" None), w0)).
  { intros w0 Hu. apply (me_session_path_unvalidated JWT_SECRET amb request token claims);
      try assumption.
    rewrite validateUserSession_run. rewrite validateUserSession_run in Hval.
    rewrite Hu. cbn. now injection Hval as ->. }
  assert (Hrun : exists w'', Routes.me_GET JWT_SECRET amb request w'
                   = (Ok (json_error 401 "Session expired or invalid" None), w'')
                   /\ users w'' = users w').
  { unfold Routes.me_GET, try_catch.
    unfold bind at 1.
    destruct (truthy (Routes.bearer_token request)) eqn:Ht.
    - pose proof (or_default_truthy _ "" Ht) as Hb.
      set (idToken := or_default (Routes.bearer_token request) "") in *.
      unfold bind at 1. unfold verifyIdToken.
      destruct (adminAuth_verifyIdToken idToken) as [decoded|msg] eqn:Hfb.
      + cbn [ret fb_success fb_decodedToken].
        unfold bind at 1, UserService.findByUid, gets.
        assert (Hnone : UserModel.findOne (UserModel.by_uid (d_uid decoded)) (users w') = None).
        { apply findOne_by_uid_None. subst w'. rewrite removeUserSession_uids by exact Hwf.
          apply findOne_by_uid_None. now apply (Hbearer idToken). }
        rewrite Hnone. cbn [ret]. rewrite Hany by reflexivity. now exists w'.
      + unfold bind at 1, console_error, modify. cbn [ret fb_success fb_decodedToken].
        rewrite Hany by reflexivity. eexists. split; reflexivity.
    - cbn [ret]. rewrite Hany by reflexivity. now exists w'. }
  destruct Hrun as (w'' & -> & Hu). split; [reflexivity | exact Hu].
Qed.

End Liveness.

Section Revocation.
Context `{Platform}.
Variable JWT_SECRET : string.

Lemma removeUserSession_no_match (k : string) (token : RawToken) (w : World) (u : User) :
  unique_ids (users w) ->
  UserModel.findOne (UserModel.by_uid k) (users w) = Some u ->
  no_matching_record token u ->
  UserService.removeUserSession k token w = (Ok tt, w).
Proof.
  intros Hwf Hfind Hno.
  rewrite (removeUserSession_found _ _ _ _ Hwf Hfind), (without_token_id _ _ Hno).
  rewrite replace_doc_same; [now rewrite world_eta | exact Hwf |].
  now apply (findOne_Some _ _ _ Hfind).
Qed.

(** Removing twice is removing once: the second call returns what the
    first returned and changes nothing. *)
Lemma removeUserSession_twice (k : string) (token : RawToken) (w : World) :
  unique_ids (users w) ->
  UserService.removeUserSession k token (snd (UserService.removeUserSession k token w))
  = UserService.removeUserSession k token w.
Proof.
  intros Hwf.
  destruct (UserModel.findOne (UserModel.by_uid k) (users w)) as [u|] eqn:Hfind.
  - rewrite (removeUserSession_found _ _ _ _ Hwf Hfind). cbn [snd].
    apply (removeUserSession_no_match k token _ (without_token token u)).
    + cbn. now apply replace_doc_unique_ids.
    + cbn. apply (findOne_replace_doc k u); try assumption; reflexivity.
    + apply without_token_no_match.
  - rewrite (removeUserSession_missing _ _ _ Hfind). cbn [snd].
    now apply removeUserSession_missing.
Qed.

(** [POST /api/auth/logout] answers success on every request in every
    world: what goes wrong while the record is removed is caught. *)
Lemma logout_always_succeeds (amb : Ambient) (request : Request) (w : World) :
  fst (Routes.logout_POST JWT_SECRET amb request w) = Ok logged_out.
Proof.
  unfold Routes.logout_POST. unfold try_catch at 1. unfold bind at 1.
  destruct (req_cookie request) as [c|]; [|reflexivity].
  unfold bind at 1.
  destruct (jwt_server.verifyJWT JWT_SECRET amb c w) as [[[payload|]|e] w1] eqn:Hv.
  - unfold try_catch.
    destruct (UserService.removeUserSession _ c w1) as [[[]|e] w2]; reflexivity.
  - reflexivity.
  - exfalso. unfold jwt_server.verifyJWT, try_catch, bind, lift_result in Hv.
    destruct (jwt.verify _ _ _ _); discriminate.
Qed.

(** C9. [removeSession] is idempotent.  When no record of a stored
    document matches the token, [removeSession] leaves document and store
    as they are and returns normally, and so does [removeUserSession] for
    that user; a second removal with the same token returns what the first
    returned and leaves the store as the first left it; and the logout
    route answers success the second time as it did the first. *)
Theorem C9_removeSession_idempotent (amb1 amb2 : Ambient) (k : string) (token : RawToken)
    (request : Request) (w : World) :
  unique_ids (users w) ->
  (forall u, In u (users w) -> no_matching_record token u ->
             without_token token u = u
             /\ UserModel.removeSession u token w = (Ok tt, w)
             /\ (UserModel.findOne (UserModel.by_uid k) (users w) = Some u ->
                 UserService.removeUserSession k token w = (Ok tt, w)))
  /\ UserService.removeUserSession k token (snd (UserService.removeUserSession k token w))
     = UserService.removeUserSession k token w
  /\ fst (Routes.logout_POST JWT_SECRET amb1 request w) = Ok logged_out
  /\ fst (Routes.logout_POST JWT_SECRET amb2 request
            (snd (Routes.logout_POST JWT_SECRET amb1 request w))) = Ok logged_out.
Proof.
  intros Hwf. split; [|split; [|split]].
  - intros u Hin Hno. split; [|split].
    + now apply without_token_id.
    + unfold UserModel.removeSession, UserModel.save, modify.
      fold (without_token token u). rewrite (without_token_id _ _ Hno).
      rewrite (pre_save_same_email (users w) u u) by (assumption || reflexivity).
      rewrite replace_doc_same by assumption. now rewrite world_eta.
    + intros Hfind. now apply (removeUserSession_no_match k token w u).
  - now apply removeUserSession_twice.
  - apply logout_always_succeeds.
  - apply logout_always_succeeds.
Qed.

(** C10. For a uid without a stored document the two mutations throw
    "User not found" and leave the world untouched, no record is created;
    validation of the same uid returns [false] without throwing. *)
Theorem C10_unknown_uid (amb : Ambient) (k : string) (token : RawToken) (expires : Z)
    (ua ip_ : option string) (w : World) :
  UserModel.findOne (UserModel.by_uid k) (users w) = None ->
  UserService.addUserSession amb k token expires ua ip_ w
  = (Throw (Error "User not found"), w)
  /\ UserService.removeUserSession k token w = (Throw (Error "User not found"), w)
  /\ UserService.validateUserSession amb k token w = (Ok false, w).
Proof.
  intros Hfind. repeat split.
  - unfold UserService.addUserSession, bind, gets, throw. now rewrite Hfind.
  - now apply removeUserSession_missing.
  - rewrite validateUserSession_run. now rewrite Hfind.
Qed.

End Revocation.

Section Fallback.
Context `{Platform}.
Variable JWT_SECRET : string.

(** What [handleSessionFallback] returns, and that it only logs. *)
Lemma handleSessionFallback_run (amb : Ambient) (token : RawToken) (w : World) :
  exists w',
    Routes.handleSessionFallback JWT_SECRET amb token w
    = (Ok match jwt.verify token JWT_SECRET session_verify_options (now amb) with
          | Ok claims =>
              match UserModel.findOne (UserModel.by_uid (claim_string (claims !! "uid")))
                      (users w) with
              | Some user =>
                  if UserModel.validateSession amb user token
                  then Some (fallback_response user) else None
              | None => None
              end
          | Throw _ => None
          end, w')
    /\ users w' = users w.
Proof.
  unfold Routes.handleSessionFallback, try_catch. unfold bind at 1.
  destruct (jwt.verify token JWT_SECRET session_verify_options (now amb))
    as [claims|e] eqn:Hv.
  - rewrite (verifyJWT_ok _ _ _ _ _ Hv).
    unfold bind at 1. rewrite validateUserSession_run.
    unfold UserService.findByUid, bind, gets, ret.
    destruct (UserModel.findOne (UserModel.by_uid (claim_string (claims !! "uid")))
                (users w)) as [user|] eqn:Hfind; cbn.
    + destruct (UserModel.validateSession amb user token); cbn; rewrite ?Hfind;
        exists w; split; reflexivity.
    + exists w; split; reflexivity.
  - rewrite (verifyJWT_fail _ _ _ _ _ Hv). cbn. eexists; split; reflexivity.
Qed.


End Fallback.

Section Refresh.
Context `{Platform}.
Variable JWT_SECRET : string.

Lemma addUserSession_found (amb : Ambient) (k : string) (token : RawToken) (expires : Z)
    (ua ip_ : option string) (w : World) (u : User) :
  unique_ids (users w) ->
  UserModel.findOne (UserModel.by_uid k) (users w) = Some u ->
  UserService.addUserSession amb k token expires ua ip_ w
  = (Ok tt, mkWorld (UserModel.replace_doc (with_session amb token expires ua ip_ u) (users w))
              (console w)).
Proof.
  intros Hwf Hfind.
  unfold UserService.addUserSession, bind, gets, UserModel.addSession, UserModel.save, modify.
  rewrite Hfind. fold (with_session amb token expires ua ip_ u).
  rewrite (pre_save_same_email (users w) u); try reflexivity; try assumption.
  now apply (findOne_Some _ _ _ Hfind).
Qed.

(** A record that expires after the present survives the sweep that
    [addSession] performs. *)
Lemma with_session_has_record (amb : Ambient) (token : RawToken) (expires : Z)
    (ua ip_ : option string) (u : User) :
  now amb < expires ->
  In (mkSession (bcrypt_hash (salt amb) token) (now amb) expires ua ip_)
     (sessions (with_session amb token expires ua ip_ u)).
Proof.
  intros Hlt. unfold with_session. cbn.
  apply filter_In. split; [apply in_or_app; right; now left|].
  cbn. now apply Z.ltb_lt.
Qed.

(** The key constraints survive the two session mutations, whether they
    return or throw. *)
Lemma session_mutations_keep_keys (amb : Ambient) (k : string) (token : RawToken)
    (expires : Z) (ua ip_ : option string) (w : World) :
  unique_ids (users w) -> unique_uids (users w) ->
  (unique_ids (users (snd (UserService.addUserSession amb k token expires ua ip_ w)))
   /\ unique_uids (users (snd (UserService.addUserSession amb k token expires ua ip_ w))))
  /\ (unique_ids (users (snd (UserService.removeUserSession k token w)))
      /\ unique_uids (users (snd (UserService.removeUserSession k token w)))).
Proof.
  intros Hids Huids.
  destruct (UserModel.findOne (UserModel.by_uid k) (users w)) as [u|] eqn:Hfind.
  - pose proof (findOne_Some _ _ _ Hfind) as [Hin _].
    rewrite (addUserSession_found _ _ _ _ _ _ _ _ Hids Hfind).
    rewrite (removeUserSession_found _ _ _ _ Hids Hfind). cbn [snd users].
    repeat split; try (now apply replace_doc_unique_ids);
      unfold unique_uids; now rewrite (replace_doc_uids u).
  - rewrite (removeUserSession_missing _ _ _ Hfind).
    unfold UserService.addUserSession, bind, gets, throw. rewrite Hfind. cbn. tauto.
Qed.

(** A removal that throws found no document, and changed nothing. *)
Lemma removeUserSession_throws (k : string) (token : RawToken) (w : World) (e : Exn) :
  fst (UserService.removeUserSession k token w) = Throw e ->
  UserService.removeUserSession k token w = (Throw (Error "User not found"), w)
  /\ e = Error "User not found".
Proof.
  unfold UserService.removeUserSession, bind, gets, throw.
  destruct (UserModel.findOne _ _) as [u|]; cbn.
  - discriminate.
  - intros [= <-]. split; reflexivity.
Qed.

(** C8. [POST /api/auth/refresh-session] needs a fresh assertion: when the
    identity provider rejects the new ID token the answer is 401, whatever
    session cookie the request carries, and the collection is unchanged.
    When the assertion verifies and removing the old token's record throws,
    the exception is logged and goes no further: the new token is signed,
    its record is saved in the user's document and the answer is 200 with
    the new cookie. *)
Theorem C8_refresh_requires_assertion_and_swallows_removal_failure
    (amb : Ambient) (request : Request) (idToken : string) (w : World) :
  req_body request = BodyIdToken (Some idToken) ->
  idToken <> "" ->
  (forall msg, adminAuth_verifyIdToken idToken = inr msg ->
     fst (Routes.refresh_POST JWT_SECRET amb request w)
     = Ok (json_error 401 "Invalid ID token" (Some (DetailsText (Some msg))))
     /\ users (snd (Routes.refresh_POST JWT_SECRET amb request w)) = users w)
  /\ (forall decoded old oldClaims e user,
        adminAuth_verifyIdToken idToken = inl decoded ->
        req_cookie request = Some old ->
        jwt.verify old JWT_SECRET session_verify_options (now amb) = Ok oldClaims ->
        fst (UserService.removeUserSession (claim_string (oldClaims !! "uid")) old w)
        = Throw e ->
        unique_ids (users w) ->
        UserModel.findOne (UserModel.by_uid (d_uid decoded)) (users w) = Some user ->
        JWT_SECRET <> "" ->
        exists newToken,
          let expires := now amb + 7 * 24 * 60 * 60 * 1000 in
          let user' := with_session amb newToken expires (Routes.header_user_agent request)
                         (Routes.header_ip request) user in
          jwt_server.signJWT JWT_SECRET amb
            (mkClaims (d_uid decoded) (or_default (d_email decoded) "") None None None
               (jwt_server.generateSessionId amb)) = Ok newToken
          /\ Routes.refresh_POST JWT_SECRET amb request w
             = (Ok (mkResponse 200 (Routes.success_user user' None)
                      (Routes.session_cookie newToken)),
                mkWorld (UserModel.replace_doc user' (users w))
                  (console w ++ [mkLog LogError "Failed to remove old session:" (Some e)]))
          /\ UserModel.findOne (UserModel.by_uid (d_uid decoded))
               (UserModel.replace_doc user' (users w)) = Some user'
          /\ In (mkSession (bcrypt_hash (salt amb) newToken) (now amb) expires
                   (Routes.header_user_agent request) (Routes.header_ip request))
                (sessions user')).
Proof.
  intros Hbody Hne. apply String.eqb_neq in Hne. split.
  - intros msg Hfb.
    assert (Hrun : Routes.refresh_POST JWT_SECRET amb request w
                   = (Ok (json_error 401 "Invalid ID token" (Some (DetailsText (Some msg)))),
                      mkWorld (users w)
                        (console w ++ [mkLog LogError "Firebase ID token verification failed:"
                                         (Some (Error msg))]))).
    { unfold Routes.refresh_POST, try_catch. unfold bind at 1.
      rewrite Hbody. unfold parse_idToken. rewrite Hne. cbn [ret].
      unfold bind at 1. unfold verifyIdToken. rewrite Hfb.
      unfold bind at 1, console_error, modify. reflexivity. }
    rewrite Hrun. split; reflexivity.
  - intros decoded old oldClaims e user Hfb Hc Hv Hrm Hwf Hfind Hsec.
    apply String.eqb_neq in Hsec.
    apply removeUserSession_throws in Hrm as [Hrm ->].
    eexists. cbn zeta. split; [apply signJWT_ok; exact Hsec|].
    set (newToken := Compact _).
    set (user' := with_session amb newToken _ _ _ user).
    assert (Hfind' : UserModel.findOne (UserModel.by_uid (d_uid decoded))
                       (UserModel.replace_doc user' (users w)) = Some user').
    { apply (findOne_replace_doc _ user); try assumption; reflexivity. }
    split; [|split; [exact Hfind'|]].
    + unfold Routes.refresh_POST, try_catch. unfold bind at 1.
      rewrite Hbody. unfold parse_idToken. rewrite Hne. cbn [ret].
      unfold bind at 1. unfold verifyIdToken. rewrite Hfb. cbn [ret fb_success fb_decodedToken].
      unfold bind at 1. rewrite Hc.
      unfold bind at 1. rewrite (verifyJWT_ok _ _ _ _ _ Hv).
      rewrite Hrm. unfold console_error at 1, modify.
      unfold bind at 1, lift_result. rewrite (signJWT_ok _ _ _ Hsec). fold newToken.
      unfold bind at 1.
      rewrite (addUserSession_found amb _ _ _ _ _ _ user) by assumption.
      unfold jwt_server.getJWTExpiration. fold user'.
      unfold bind at 1, UserService.findByUid, gets. cbn [users console].
      rewrite Hfind'. reflexivity.
    + apply with_session_has_record. lia.
Qed.

End Refresh.

(** ** Upserting users *)

Section Upsert.
Context `{Platform}.

Lemma lower_ascii_idem (c : ascii) : lower_ascii (lower_ascii c) = lower_ascii c.
Proof. destruct c as [[] [] [] [] [] [] [] []]; reflexivity. Qed.

Lemma toLowerCase_idem (s : string) : toLowerCase (toLowerCase s) = toLowerCase s.
Proof.
  induction s as [|c r IH]; cbn; [reflexivity|]. now rewrite lower_ascii_idem, IH.
Qed.

Lemma NoDup_snoc {A} (l : list A) (x : A) :
  List.NoDup l -> ~ In x l -> List.NoDup (l ++ [x]).
Proof.
  induction l as [|a l IH]; cbn; intros Hnd Hnotin.
  - constructor; [intros []|constructor].
  - inversion Hnd as [|? ? Ha Hl]; subst. constructor.
    + intros Hin. apply in_app_or in Hin as [Hin|[<-|[]]]; [now apply Ha|].
      apply Hnotin. now left.
    + apply IH; [exact Hl|]. intros Hin. apply Hnotin. now right.
Qed.

Lemma findOne_snoc (f : User -> bool) (coll : list User) (u : User) :
  UserModel.findOne f coll = None -> f u = true ->
  UserModel.findOne f (coll ++ [u]) = Some u.
Proof.
  unfold UserModel.findOne. induction coll as [|d rest IH]; cbn; intros Hnone Hu.
  - now rewrite Hu.
  - destruct (f d); [discriminate|]. now apply IH.
Qed.

Lemma existsb_doc_id_false (i : string) (coll : list User) :
  existsb (fun v => String.eqb (doc_id v) i) coll = false ->
  ~ In i (List.map doc_id coll).
Proof.
  induction coll as [|d rest IH]; cbn; [tauto|].
  intros Hex [Heq|Hin]; apply orb_false_elim in Hex as [Hd Hrest].
  - rewrite Heq, String.eqb_refl in Hd. discriminate.
  - now apply IH.
Qed.

(** The two ways an upsert succeeds: the document with the [uid] is
    updated in place, or there was none and one is appended. *)
Lemma upsertUser_ok (amb : Ambient) (d : UserData) (w w' : World) (u' : User) :
  UserService.upsertUser amb d w = (Ok u', w') ->
  console w' = console w
  /\ ((exists u, UserModel.findOne (UserModel.by_uid (ud_uid d)) (users w) = Some u
                 /\ u' = UserModel.apply_update amb d u
                 /\ users w' = UserModel.replace_doc u' (users w))
      \/ (UserModel.findOne (UserModel.by_uid (ud_uid d)) (users w) = None
          /\ u' = UserModel.new_document amb d
          /\ users w' = (users w ++ [u'])%list
          /\ ~ In (doc_id u') (List.map doc_id (users w)))).
Proof.
  unfold UserService.upsertUser, bind, UserModel.findOneAndUpdate_upsert.
  destruct (String.eqb (ud_uid d) ""); [discriminate|].
  destruct (String.eqb (toLowerCase (ud_email d)) ""); [discriminate|].
  destruct (UserModel.findOne _ _) as [u|] eqn:Hfind.
  - destruct (UserModel.email_taken _ _ _); [discriminate|].
    cbn. intros [= <- <-]. split; [reflexivity|]. left. now exists u.
  - destruct (UserModel.email_taken _ _ _); [discriminate|]. cbn [orb].
    destruct (existsb _ _) eqn:Hex; [discriminate|].
    cbn. intros [= <- <-]. split; [reflexivity|]. right.
    repeat split; try reflexivity. now apply existsb_doc_id_false.
Qed.

Lemma by_uid_true (k : string) (u : User) : UserModel.by_uid k u = true <-> uid u = k.
Proof. unfold UserModel.by_uid. apply String.eqb_eq. Qed.

(** A successful upsert keeps the key constraints and leaves its document
    as the one a query by that [uid] finds. *)
Lemma upsertUser_invariant (amb : Ambient) (d : UserData) (w w' : World) (u' : User) :
  unique_ids (users w) -> unique_uids (users w) ->
  UserService.upsertUser amb d w = (Ok u', w') ->
  unique_ids (users w') /\ unique_uids (users w')
  /\ UserModel.findOne (UserModel.by_uid (ud_uid d)) (users w') = Some u'.
Proof.
  intros Hids Huids Hup.
  apply upsertUser_ok in Hup as [_ [(u & Hfind & -> & ->)|(Hfind & -> & -> & Hfresh)]].
  - pose proof (findOne_Some _ _ _ Hfind) as [Hin Hk]. apply by_uid_true in Hk.
    repeat split.
    + now apply replace_doc_unique_ids.
    + unfold unique_uids. rewrite (replace_doc_uids u); try assumption; try reflexivity.
      cbn. now rewrite Hk.
    + apply (findOne_replace_doc _ u); try assumption; try reflexivity.
      cbn. now rewrite Hk.
  - repeat split.
    + unfold unique_ids. rewrite List.map_app. cbn [List.map]. now apply NoDup_snoc.
    + unfold unique_uids. rewrite List.map_app. cbn [List.map]. apply NoDup_snoc; [assumption|].
      now apply findOne_by_uid_None.
    + apply findOne_snoc; [assumption|]. now apply by_uid_true.
Qed.

Lemma count_uid_unique (k : string) (coll : list User) (u : User) :
  unique_uids coll ->
  UserModel.findOne (UserModel.by_uid k) coll = Some u ->
  count_uid k coll = 1%nat.
Proof.
  unfold unique_uids, count_uid, UserModel.findOne. intros Hnd Hfind.
  induction coll as [|d rest IH]; cbn in *; [discriminate|].
  inversion Hnd as [|? ? Hnotin Hnd']; subst.
  destruct (UserModel.by_uid k d) eqn:Hk.
  - cbn. f_equal. apply by_uid_true in Hk.
    assert (Hnone : List.filter (UserModel.by_uid k) rest = []).
    { clear IH Hfind Hnd' Hnd. induction rest as [|v rest IH]; cbn in *; [reflexivity|].
      destruct (UserModel.by_uid k v) eqn:Hv.
      - apply by_uid_true in Hv. exfalso. apply Hnotin. left. congruence.
      - apply IH. intros Hin. apply Hnotin. now right. }
    now rewrite Hnone.
  - now apply IH.
Qed.

(** Documents with another [uid] are not touched by a write-back. *)
Lemma replace_doc_others (u u' v : User) (coll : list User) :
  unique_ids coll -> In u coll -> doc_id u' = doc_id u ->
  In v coll -> v <> u -> In v (UserModel.replace_doc u' coll).
Proof.
  unfold unique_ids. intros Hnd Hu Hid Hv Hne.
  induction coll as [|d rest IH]; cbn in *; [contradiction|].
  inversion Hnd as [|? ? Hnotin Hnd']; subst.
  destruct (String.eqb_spec (doc_id d) (doc_id u')) as [Heq|Hdiff].
  - destruct Hu as [->|Hu].
    + destruct Hv as [->|Hv]; [congruence | now right].
    + exfalso. apply Hnotin. rewrite Heq, Hid. now apply in_map.
  - destruct Hu as [->|Hu]; [congruence|].
    destruct Hv as [->|Hv]; [now left|]. right. now apply IH.
Qed.

(** C7. Two successful [upsertUser] calls with the same [uid]: afterwards
    the collection holds exactly one document with that [uid], no document
    was added by the second call, and the document carries the latest
    email (in lower case, as the model stores it).  The second call, an
    upsert on an existing [uid], sets [email], [name], [provider],
    [photoURL] and [lastSeen] only: [_id], [uid], [sessions] and
    [createdAt] are those of the document before, and every other document
    of the collection is still there. *)
Theorem C7_upsert_same_uid (amb1 amb2 : Ambient) (d1 d2 : UserData) (w w1 w2 : World)
    (u1 u2 : User) :
  unique_ids (users w) -> unique_uids (users w) ->
  ud_uid d2 = ud_uid d1 ->
  UserService.upsertUser amb1 d1 w = (Ok u1, w1) ->
  UserService.upsertUser amb2 d2 w1 = (Ok u2, w2) ->
  count_uid (ud_uid d1) (users w2) = 1%nat
  /\ List.length (users w2) = List.length (users w1)
  /\ UserModel.findOne (UserModel.by_uid (ud_uid d1)) (users w2) = Some u2
  /\ email u2 = toLowerCase (ud_email d2)
  /\ u2 = mkUser (doc_id u1) (uid u1) (toLowerCase (ud_email d2))
            (match ud_name d2 with Some n => n | None => name u1 end)
            (ud_provider d2)
            (match ud_photoURL d2 with Some p => p | None => photoURL u1 end)
            (createdAt u1) (now amb2) (sessions u1)
  /\ (forall v, In v (users w1) -> uid v <> ud_uid d1 -> In v (users w2)).
Proof.
  intros Hids Huids Hsame Hup1 Hup2.
  destruct (upsertUser_invariant _ _ _ _ _ Hids Huids Hup1) as (Hids1 & Huids1 & Hfind1).
  destruct (upsertUser_invariant _ _ _ _ _ Hids1 Huids1 Hup2) as (Hids2 & Huids2 & Hfind2).
  rewrite Hsame in Hfind2.
  pose proof (findOne_Some _ _ _ Hfind1) as [Hin1 Hk1]. apply by_uid_true in Hk1.
  apply upsertUser_ok in Hup2 as [_ [(u & Hfind & Hu2 & Hw2)|(Hfind & _)]];
    rewrite Hsame in Hfind; [|congruence].
  assert (u = u1) as -> by congruence.
  assert (Hshape : u2 = mkUser (doc_id u1) (uid u1) (toLowerCase (ud_email d2))
            (match ud_name d2 with Some n => n | None => name u1 end)
            (ud_provider d2)
            (match ud_photoURL d2 with Some p => p | None => photoURL u1 end)
            (createdAt u1) (now amb2) (sessions u1)).
  { rewrite Hu2. unfold UserModel.apply_update. now rewrite toLowerCase_idem, Hsame, Hk1. }
  repeat split.
  - now apply (count_uid_unique _ _ u2).
  - rewrite Hw2. rewrite <- (List.length_map doc_id), replace_doc_ids.
    apply List.length_map.
  - exact Hfind2.
  - now rewrite Hshape.
  - exact Hshape.
  - intros v Hv Hne. rewrite Hw2.
    apply (replace_doc_others u1); try assumption.
    + now rewrite Hshape.
    + intros ->. congruence.
Qed.

End Upsert.

(** ** Reset tokens *)

Section ResetTokens.
Context `{Platform}.
Variable JWT_SECRET : string.

Lemma is_password_reset_spec (v : option JValue) :
  ResetTokenService.is_password_reset v = true <-> v = Some (JStr "password_reset").
Proof.
  unfold ResetTokenService.is_password_reset.
  destruct v as [[| | |s]|]; try (split; [discriminate | intros [=]]).
  rewrite String.eqb_eq. split; [now intros -> | now intros [= ->]].
Qed.

(** A token that [jwt.verify] accepts is a compact token, and what is
    returned is its claims object. *)
Lemma verify_ok_claims (token : RawToken) (secret : string) (o : jwt.VerifyOptions)
    (now_ms : Z) (claims : JObject) :
  jwt.verify token secret o now_ms = Ok claims ->
  exists t, token = Compact t /\ claims = jws_claims t.
Proof.
  unfold jwt.verify. destruct token as [s|t]; [discriminate|].
  repeat match goal with
         | |- context [if ?b then _ else _] => destruct b; try discriminate
         | |- context [match ?r with Ok _ => _ | Throw _ => _ end] =>
             destruct r; try discriminate
         end.
  intros [= <-]. now exists t.
Qed.

Lemma verifyResetToken_run (amb : Ambient) (token : RawToken) (w : World) :
  fst (ResetTokenService.verifyResetToken JWT_SECRET amb token w)
  = Ok match jwt.verify token JWT_SECRET reset_verify_options (now amb) with
       | Ok claims =>
           if ResetTokenService.is_password_reset (claims !! "type") then Some claims else None
       | Throw _ => None
       end.
Proof.
  unfold ResetTokenService.verifyResetToken, try_catch, bind, lift_result.
  fold reset_verify_options.
  destruct (jwt.verify _ _ _ _) as [claims|e]; [|reflexivity].
  now destruct (ResetTokenService.is_password_reset _).
Qed.

(** C4. [verifyResetToken] returns [null] for every token whose [type]
    claim is not exactly "password_reset", whether or not its signature
    verifies and its expiry has passed; it returns claims only when the
    signature check, the expiry check and the purpose check all pass, and
    then the claims of the token itself. *)
Theorem C4_reset_token_purpose_checked (amb : Ambient) (token : RawToken) (w : World) :
  ((forall t, token = Compact t ->
              jws_claims t !! "type" <> Some (JStr "password_reset")) ->
   fst (ResetTokenService.verifyResetToken JWT_SECRET amb token w) = Ok None)
  /\ (forall claims,
        fst (ResetTokenService.verifyResetToken JWT_SECRET amb token w) = Ok (Some claims)
        <-> jwt.verify token JWT_SECRET reset_verify_options (now amb) = Ok claims
            /\ claims !! "type" = Some (JStr "password_reset")).
Proof.
  rewrite verifyResetToken_run. split.
  - intros Hpurpose.
    destruct (jwt.verify _ _ _ _) as [claims|e] eqn:Hv; [|reflexivity].
    destruct (verify_ok_claims _ _ _ _ _ Hv) as (t & -> & ->).
    destruct (ResetTokenService.is_password_reset _) eqn:Hp; [|reflexivity].
    apply is_password_reset_spec in Hp. now destruct (Hpurpose t eq_refl).
  - intros claims. destruct (jwt.verify _ _ _ _) as [c|e]; [|split; [discriminate|intros [[=] _]]].
    destruct (ResetTokenService.is_password_reset (c !! "type")) eqn:Hp.
    + apply is_password_reset_spec in Hp. split.
      * intros [= <-]. now split.
      * now intros [[= <-] _].
    + split; [discriminate|]. intros [[= <-] Hty].
      apply is_password_reset_spec in Hty. congruence.
Qed.

Lemma generateResetToken_ok (amb : Ambient) (userId email_ : string) :
  String.eqb JWT_SECRET "" = false ->
  ResetTokenService.generateResetToken JWT_SECRET amb userId email_
  = Ok (Compact (mkJws "HS256" (reset_claims amb userId email_)
                   (hmac "HS256" JWT_SECRET (reset_claims amb userId email_)))).
Proof.
  intros Hs. unfold ResetTokenService.generateResetToken, jwt.sign. rewrite Hs.
  rewrite !lookup_insert_ne by discriminate. rewrite lookup_empty. cbn.
  reflexivity.
Qed.

(** The other direction of the purpose isolation: a reset token carries
    neither issuer nor audience, so the session verifier rejects it. *)
Lemma reset_token_rejected_by_verifyJWT (amb amb' : Ambient) (userId email_ : string)
    (token : RawToken) (w : World) :
  ResetTokenService.generateResetToken JWT_SECRET amb userId email_ = Ok token ->
  fst (jwt_server.verifyJWT JWT_SECRET amb' token w) = Ok None.
Proof.
  destruct (String.eqb JWT_SECRET "") eqn:Hs.
  { unfold ResetTokenService.generateResetToken, jwt.sign. rewrite Hs. discriminate. }
  rewrite (generateResetToken_ok _ _ _ Hs). intros [= <-].
  unfold jwt_server.verifyJWT, try_catch, bind, lift_result, jwt.verify.
  cbn [jws_signature jws_alg jws_claims].
  rewrite hmac_eqb_empty, Hs. cbn [existsb jwt.HS_ALGS negb].
  rewrite String.eqb_refl. cbn [orb negb]. rewrite String.eqb_refl. cbn [negb].
  assert (Haud : reset_claims amb userId email_ !! "aud" = None).
  { unfold reset_claims. rewrite !lookup_insert_ne by discriminate. apply lookup_empty. }
  rewrite Haud.
  destruct (jwt.check_nbf _ _); [|reflexivity].
  destruct (jwt.check_exp _ _); [|reflexivity].
  reflexivity.
Qed.

(** C6, as the code has it. For an email address without a user document
    [createResetRequest] replies [success: false] with "No account found
    with this email address" and does nothing else; for the address of a
    stored user whose mail is delivered it replies [success: true] with
    "Password reset email sent successfully".  The two replies differ in
    both fields. *)
Theorem C6_reset_request_replies (amb : Ambient) (email_ : string) (w : World) :
  (UserModel.findOne (UserModel.by_email (toLowerCase email_)) (users w) = None ->
   ResetTokenService.createResetRequest JWT_SECRET amb email_ w = (Ok no_account_reply, w))
  /\ (forall user,
        UserModel.findOne (UserModel.by_email (toLowerCase email_)) (users w) = Some user ->
        JWT_SECRET <> "" ->
        transporter_sendMail (email user) "Reset Your Password - Firebase Auth App" = true ->
        fst (ResetTokenService.createResetRequest JWT_SECRET amb email_ w)
        = Ok email_sent_reply
        /\ users (snd (ResetTokenService.createResetRequest JWT_SECRET amb email_ w))
           = users w)
  /\ success no_account_reply <> success email_sent_reply
  /\ message no_account_reply <> message email_sent_reply.
Proof.
  split; [|split; [|split; discriminate]].
  - intros Hfind.
    unfold ResetTokenService.createResetRequest, try_catch, bind, UserService.findByEmail, gets.
    now rewrite Hfind.
  - intros user Hfind Hsec Hmail. apply String.eqb_neq in Hsec.
    assert (Hrun : ResetTokenService.createResetRequest JWT_SECRET amb email_ w
                   = (Ok email_sent_reply,
                      mkWorld (users w)
                        (console w ++ [mkLog LogInfo "Email sent successfully:" None]))).
    { unfold ResetTokenService.createResetRequest, try_catch.
      unfold bind at 1, UserService.findByEmail, gets. rewrite Hfind.
      unfold bind at 1, lift_result. rewrite (generateResetToken_ok _ _ _ Hsec).
      unfold bind, EmailService.sendPasswordResetEmail, EmailService.sendEmail.
      now rewrite Hmail. }
    rewrite Hrun. split; reflexivity.
Qed.

End ResetTokens.

(** ** Environment validation *)

Section Environment.
Context `{Platform}.

Lemma parse_object_issue (shape : list (string * Env.FieldSchema)) (input : gmap string string)
    (key msg : string) (sch : Env.FieldSchema) :
  In (key, sch) shape ->
  Env.parse_field sch (input !! key) = inl msg ->
  In (mkIssue key msg) (fst (Env.parse_object shape input)).
Proof.
  induction shape as [|[key' sch'] rest IH]; cbn; [contradiction|].
  intros [[= -> ->]|Hin] Hfield.
  - destruct (Env.parse_object rest input) as [issues out]. rewrite Hfield. now left.
  - specialize (IH Hin Hfield).
    destruct (Env.parse_object rest input) as [issues out].
    destruct (Env.parse_field sch' (input !! key')) as [m|[s|]]; cbn in *; auto.
Qed.

Lemma short_secret_refused (penv : gmap string string) (secret : string) :
  penv !! "JWT_SECRET" = Some secret ->
  (String.length secret < 32)%nat ->
  exists issues,
    Env.envSchema_parse penv = Throw (ZodError issues)
    /\ In (mkIssue "JWT_SECRET" "JWT secret must be at least 32 characters") issues.
Proof.
  intros Hget Hlen.
  assert (Hin : In (mkIssue "JWT_SECRET" "JWT secret must be at least 32 characters")
                  (fst (Env.parse_object Env.envSchema penv))).
  { apply (parse_object_issue _ _ _ _
             (Env.StringMin 32 "JWT secret must be at least 32 characters")).
    - unfold Env.envSchema. cbn. tauto.
    - unfold Env.parse_field. rewrite Hget.
      destruct (Nat.leb_spec 32 (String.length secret)); [lia | reflexivity]. }
  unfold Env.envSchema_parse.
  destruct (Env.parse_object Env.envSchema penv) as [[|i issues] out]; [destruct Hin|].
  now exists (i :: issues).
Qed.

(** What [validateEnv] does outside the fail-fast mode: at build time, and
    whenever [NODE_ENV] is not "production", it returns an environment. *)
Lemma validateEnv_lenient (penv : gmap string string) (st : Env.EnvState) :
  Env.isBuildTime penv = true \/ str_is (penv !! "NODE_ENV") "production" = false ->
  exists e st', Env.validateEnv penv st = (Ok e, st').
Proof.
  intros Hmode. unfold Env.validateEnv, bind, gets.
  destruct (Env.cachedEnv st) as [e|]; [now exists e, st|].
  destruct (Env.isBuildTime penv) eqn:Hbuild.
  - cbn. eexists. eexists. reflexivity.
  - destruct Hmode as [Hb|Hdev]; [discriminate|].
    unfold try_catch, lift_result.
    destruct (Env.envSchema_parse penv) as [e|err] eqn:Hparse.
    + cbn. eexists. eexists. reflexivity.
    + assert (exists issues, err = ZodError issues) as [issues ->].
      { unfold Env.envSchema_parse in Hparse.
        destruct (Env.parse_object Env.envSchema penv) as [[|i issues] out];
          [discriminate|]. injection Hparse as <-. now eexists. }
      rewrite Hdev. cbn. eexists. eexists. reflexivity.
Qed.

(** C5, as the code has it. With [NODE_ENV] "production" on a deployment
    platform ([VERCEL] or [RAILWAY_ENVIRONMENT] set) and nothing cached, a
    JWT secret shorter than 32 characters makes [validateEnv] throw; no
    environment is cached, and every read through the [env] proxy throws
    the same error.  The refusal is limited to that mode: at build time
    (production without either platform variable) and whenever [NODE_ENV]
    is not "production", [validateEnv] returns an environment instead of
    throwing. *)
Theorem C5_production_refuses_short_secret (penv : gmap string string) (secret : string)
    (st : Env.EnvState) :
  Env.cachedEnv st = None ->
  (penv !! "JWT_SECRET" = Some secret ->
   (String.length secret < 32)%nat ->
   str_is (penv !! "NODE_ENV") "production" = true ->
   truthy (penv !! "VERCEL") || truthy (penv !! "RAILWAY_ENVIRONMENT") = true ->
   exists msg,
     Env.validateEnv penv st = (Throw (Error msg), st)
     /\ forall prop, Env.env_get penv prop st = (Throw (Error msg), st))
  /\ (Env.isBuildTime penv = true \/ str_is (penv !! "NODE_ENV") "production" = false ->
      exists e st', Env.validateEnv penv st = (Ok e, st')).
Proof.
  intros Hcache. split; [|apply validateEnv_lenient].
  intros Hget Hlen Hprod Hplat.
  destruct (short_secret_refused penv secret Hget Hlen) as (issues & Hparse & _).
  assert (Hbuild : Env.isBuildTime penv = false).
  { unfold Env.isBuildTime. rewrite Hprod. cbn.
    destruct (truthy (penv !! "VERCEL")); [reflexivity|].
    cbn in *. now rewrite Hplat. }
  eexists.
  assert (Hrun : Env.validateEnv penv st
                 = (Throw (Error ("Environment validation failed:" ++ Env.newline
                                  ++ Env.missingVars issues)), st)).
  { unfold Env.validateEnv, bind, gets. rewrite Hcache, Hbuild.
    unfold try_catch, lift_result. rewrite Hparse, Hprod. reflexivity. }
  split; [exact Hrun|].
  intros prop. unfold Env.env_get, bind. now rewrite Hrun.
Qed.

End Environment.

(** ** The statements at concrete inputs

    The sample user logs in once ([logged_in_world]); the scenarios below
    run on that world with the sample platform. *)

Lemma logged_in_unique_ids : unique_ids (users logged_in_world).
Proof. vm_compute. constructor; [intros [] | constructor]. Qed.

(** The store scenario of the specification: upsert, add a session,
    validate, remove, validate again. *)
Example store_scenario :
  let d := mkUserData "u1" "a@x.com" None ProvEmail None in
  let w1 := snd (UserService.upsertUser sample_amb d empty_world) in
  let w2 := snd (UserService.addUserSession sample_amb "u1" (Malformed "tok1")
                   (now sample_amb + 7 * 24 * 60 * 60 * 1000) None None w1) in
  let w3 := snd (UserService.removeUserSession "u1" (Malformed "tok1") w2) in
  fst (UserService.validateUserSession sample_amb "u1" (Malformed "tok1") w2) = Ok true
  /\ fst (UserService.validateUserSession sample_amb "u1" (Malformed "tok1") w3) = Ok false.
Proof. split; vm_compute; reflexivity. Qed.

Lemma C1_witness :
  let w' := snd (UserService.removeUserSession (claim_string (issued_claims !! "uid"))
                   issued_token logged_in_world) in
  UserService.validateUserSession sample_amb (claim_string (issued_claims !! "uid"))
    issued_token w' = (Ok false, w')
  /\ fst (Routes.me_GET sample_secret sample_amb cookie_request w')
     = Ok (json_error 401 "Session expired or invalid" None)
  /\ users (snd (Routes.me_GET sample_secret sample_amb cookie_request w')) = users w'.
Proof.
  apply (C1_removed_session_fails_validation sample_secret sample_amb cookie_request
           issued_token issued_claims logged_in_world).
  - vm_compute. constructor; [intros [] | constructor].
  - reflexivity.
  - vm_compute. reflexivity.
  - intros idToken decoded Hbearer. vm_compute in Hbearer. discriminate Hbearer.
Defined.


(** A session token, validly signed and unexpired, is no reset token. *)
Lemma C4_witness :
  jwt.verify issued_token sample_secret reset_verify_options (now sample_amb)
  = Ok issued_claims
  /\ fst (ResetTokenService.verifyResetToken sample_secret sample_amb issued_token
            empty_world) = Ok None.
Proof.
  split; [vm_compute; reflexivity|].
  apply (proj1 (C4_reset_token_purpose_checked sample_secret sample_amb issued_token
                  empty_world)).
  intros t Ht. vm_compute in Ht. injection Ht as <-. vm_compute. discriminate.
Defined.

Lemma C5_witness :
  (exists msg,
     Env.validateEnv vercel_env fresh_env_state = (Throw (Error msg), fresh_env_state)
     /\ forall prop, Env.env_get vercel_env prop fresh_env_state
                     = (Throw (Error msg), fresh_env_state))
  /\ (exists e st', Env.validateEnv development_env fresh_env_state = (Ok e, st')).
Proof.
  split.
  - apply (proj1 (C5_production_refuses_short_secret vercel_env "short" fresh_env_state
                    eq_refl)).
    + vm_compute. reflexivity.
    + simpl. lia.
    + vm_compute. reflexivity.
    + vm_compute. reflexivity.
  - apply (proj2 (C5_production_refuses_short_secret development_env "short"
                    fresh_env_state eq_refl)).
    right. vm_compute. reflexivity.
Defined.

(** C5 as the specification words it does not hold: in development, and in
    production outside Vercel and Railway, validation does not throw and
    the five-character secret becomes the signing key. *)
Lemma C5_counterexample :
  development_env !! "JWT_SECRET" = Some "short"
  /\ self_hosted_env !! "JWT_SECRET" = Some "short"
  /\ (String.length "short" < 32)%nat
  /\ fst (Env.env_get development_env "JWT_SECRET" fresh_env_state) = Ok (Some "short")
  /\ fst (Env.env_get self_hosted_env "JWT_SECRET" fresh_env_state) = Ok (Some "short").
Proof.
  repeat split; try (vm_compute; reflexivity). simpl. lia.
Qed.

Lemma C6_witness :
  ResetTokenService.createResetRequest sample_secret sample_amb "ghost@x.com" logged_in_world
  = (Ok no_account_reply, logged_in_world)
  /\ fst (ResetTokenService.createResetRequest sample_secret sample_amb "Alice@x.com"
            logged_in_world)
     = Ok email_sent_reply.
Proof.
  split.
  - apply (proj1 (C6_reset_request_replies sample_secret sample_amb "ghost@x.com"
                    logged_in_world)).
    vm_compute. reflexivity.
  - refine (proj1 (proj1 (proj2 (C6_reset_request_replies sample_secret sample_amb
                                   "Alice@x.com" logged_in_world)) stored_user _ _ _)).
    + vm_compute. reflexivity.
    + discriminate.
    + reflexivity.
Defined.

(** C6 as the specification words it does not hold: the reply for an
    address without account is not the reply for a registered one. *)
Lemma C6_counterexample :
  UserModel.findOne (UserModel.by_email (toLowerCase "ghost@x.com")) (users logged_in_world)
  = None
  /\ fst (ResetTokenService.createResetRequest sample_secret sample_amb "ghost@x.com"
            logged_in_world)
     <> fst (ResetTokenService.createResetRequest sample_secret sample_amb "Alice@x.com"
               logged_in_world).
Proof.
  split; [vm_compute; reflexivity|]. vm_compute. discriminate.
Qed.

Lemma C7_witness :
  let d1 := mkUserData "u1" "First@x.com" (Some (Some "Alice")) ProvEmail (Some None) in
  let d2 := mkUserData "u1" "second@x.com" None ProvGoogle None in
  let later := mkAmbient 1700000100000 "r" "s" "id2" in
  let r1 := UserService.upsertUser sample_amb d1 logged_in_world in
  let r2 := UserService.upsertUser later d2 (snd r1) in
  count_uid "u1" (users (snd r2)) = 1%nat
  /\ List.length (users (snd r2)) = List.length (users (snd r1))
  /\ email stored_user = "alice@x.com"
  /\ (exists u2, fst r2 = Ok u2
                 /\ email u2 = "second@x.com"
                 /\ name u2 = Some "Alice"
                 /\ sessions u2 = sessions stored_user
                 /\ createdAt u2 = createdAt stored_user).
Proof.
  intros d1 d2 later r1 r2.
  destruct (C7_upsert_same_uid sample_amb later d1 d2 logged_in_world (snd r1) (snd r2)
              (UserModel.apply_update sample_amb d1 stored_user)
              (UserModel.apply_update later d2
                 (UserModel.apply_update sample_amb d1 stored_user)))
    as (Hcount & Hlen & Hfind & Hemail & Hshape & Hothers).
  - vm_compute. constructor; [intros [] | constructor].
  - vm_compute. constructor; [intros [] | constructor].
  - reflexivity.
  - vm_compute. reflexivity.
  - vm_compute. reflexivity.
  - split; [exact Hcount|]. split; [exact Hlen|]. split; [reflexivity|].
    eexists. split; [vm_compute; reflexivity|]. repeat split.
Defined.

Lemma C8_witness :
  fst (Routes.refresh_POST sample_secret sample_amb stale_assertion_request logged_in_world)
  = Ok (json_error 401 "Invalid ID token"
          (Some (DetailsText (Some "Decoding Firebase ID token failed"))))
  /\ (exists newToken response w',
        Routes.refresh_POST sample_secret sample_amb refresh_request logged_in_world
        = (Ok response, w')
        /\ status response = 200
        /\ set_cookie response = Routes.session_cookie newToken
        /\ In (mkLog LogError "Failed to remove old session:" (Some (Error "User not found")))
              (console w')
        /\ (exists user', UserModel.findOne (UserModel.by_uid "u1") (users w') = Some user'
                          /\ In (mkSession (bcrypt_hash (salt sample_amb) newToken)
                                   (now sample_amb) (now sample_amb + 7 * 24 * 60 * 60 * 1000)
                                   (Some "Mozilla/5.0") None)
                                (sessions user'))).
Proof.
  split.
  - refine (proj1 (proj1 (C8_refresh_requires_assertion_and_swallows_removal_failure
                            sample_secret sample_amb stale_assertion_request "stale-id-token"
                            logged_in_world _ _)
                     "Decoding Firebase ID token failed" _)).
    + reflexivity.
    + discriminate.
    + reflexivity.
  - destruct (proj2 (C8_refresh_requires_assertion_and_swallows_removal_failure
                       sample_secret sample_amb refresh_request "good-id-token"
                       logged_in_world eq_refl ltac:(discriminate))
                sample_decoded orphan_token orphan_claims (Error "User not found") stored_user)
      as (newToken & Hsign & Hrun & Hfind & Hrecord).
    + reflexivity.
    + reflexivity.
    + vm_compute. reflexivity.
    + vm_compute. reflexivity.
    + vm_compute. constructor; [intros [] | constructor].
    + vm_compute. reflexivity.
    + discriminate.
    + exists newToken. eexists. eexists. split; [exact Hrun|].
      split; [reflexivity|]. split; [reflexivity|].
      split; [apply in_or_app; right; now left|].
      eexists. split; [exact Hfind | exact Hrecord].
Defined.

Lemma C9_witness :
  UserModel.removeSession stored_user orphan_token logged_in_world = (Ok tt, logged_in_world)
  /\ UserService.removeUserSession "u1" orphan_token logged_in_world
     = (Ok tt, logged_in_world)
  /\ UserService.removeUserSession "u1" issued_token
       (snd (UserService.removeUserSession "u1" issued_token logged_in_world))
     = UserService.removeUserSession "u1" issued_token logged_in_world
  /\ fst (Routes.logout_POST sample_secret sample_amb cookie_request
            (snd (Routes.logout_POST sample_secret sample_amb cookie_request logged_in_world)))
     = Ok logged_out.
Proof.
  destruct (C9_removeSession_idempotent sample_secret sample_amb sample_amb "u1" orphan_token
              cookie_request logged_in_world logged_in_unique_ids) as (Hnoop & _).
  destruct (C9_removeSession_idempotent sample_secret sample_amb sample_amb "u1" issued_token
              cookie_request logged_in_world logged_in_unique_ids) as (_ & Htwice & _ & Hlogout).
  assert (Hno : no_matching_record orphan_token stored_user).
  { intros session Hin. vm_compute in Hin. destruct Hin as [<-|[]]. vm_compute. reflexivity. }
  destruct (Hnoop stored_user) as (_ & Hmethod & Hservice).
  - vm_compute. now left.
  - exact Hno.
  - split; [exact Hmethod|]. split; [|split; [exact Htwice | exact Hlogout]].
    apply Hservice. vm_compute. reflexivity.
Defined.

Lemma C10_witness :
  UserService.addUserSession sample_amb "nobody" issued_token 1700604800000 None None
    logged_in_world = (Throw (Error "User not found"), logged_in_world)
  /\ UserService.removeUserSession "nobody" issued_token logged_in_world
     = (Throw (Error "User not found"), logged_in_world)
  /\ UserService.validateUserSession sample_amb "nobody" issued_token logged_in_world
     = (Ok false, logged_in_world).
Proof.
  apply (C10_unknown_uid sample_amb "nobody" issued_token 1700604800000 None None
           logged_in_world).
  vm_compute. reflexivity.
Defined.

(** * Further properties *)

(** ** The password strength meter *)

Section StrengthMeter.
Import PasswordStrength.

Lemma test_app (class : ascii -> bool) (p q : string) :
  test class (p ++ q) = test class p || test class q.
Proof.
  induction p as [|c r IH]; [reflexivity|].
  change (class c || test class (r ++ q) = class c || test class r || test class q).
  now rewrite IH, orb_assoc.
Qed.

Lemma js_length_append (p q : string) :
  js_length (p ++ q) = (js_length p + js_length q)%nat.
Proof.
  induction p as [|c r IH]; [reflexivity|].
  change ((utf16_units c + js_length (r ++ q))%nat
          = (utf16_units c + js_length r + js_length q)%nat).
  rewrite IH. lia.
Qed.

Lemma test_spec (class : ascii -> bool) (s : string) :
  test class s = true <-> has_character (fun c => class c = true) s.
Proof.
  unfold has_character. induction s as [|c r IH]; cbn.
  - split; [discriminate | intros (c & [] & _)].
  - rewrite orb_true_iff, IH. split.
    + intros [Hc|(x & Hin & Hx)]; [exists c; auto | exists x; auto].
    + intros (x & [<-|Hin] & Hx); [now left | right; now exists x].
Qed.

Lemma in_range_spec (lo hi : nat) (c : ascii) :
  in_range lo hi c = true <-> (lo <= nat_of_ascii c <= hi)%nat.
Proof.
  unfold in_range. cbn zeta. rewrite andb_true_iff, !Nat.leb_le. reflexivity.
Qed.

Lemma is_special_spec (c : ascii) : is_special c = true <-> In c special_chars.
Proof.
  unfold is_special. rewrite existsb_exists. split.
  - intros (x & Hin & Heq). apply Ascii.eqb_eq in Heq. now subst.
  - intros Hin. exists c. split; [exact Hin | apply Ascii.eqb_refl].
Qed.

Lemma has_character_iff (P Q : ascii -> Prop) (s : string) :
  (forall c, P c <-> Q c) -> has_character P s <-> has_character Q s.
Proof.
  intros Hpq. unfold has_character.
  split; intros (c & Hin & Hc); exists c; (split; [exact Hin | now apply Hpq]).
Qed.

Lemma score_le_5 (c : Checks) : (score c <= 5)%nat.
Proof. destruct c as [[] [] [] [] []]; cbn; lia. Qed.

Lemma score_monotone (c d : Checks) :
  (chk_length c = true -> chk_length d = true) ->
  (chk_uppercase c = true -> chk_uppercase d = true) ->
  (chk_lowercase c = true -> chk_lowercase d = true) ->
  (chk_number c = true -> chk_number d = true) ->
  (chk_special c = true -> chk_special d = true) ->
  (score c <= score d)%nat.
Proof.
  destruct c as [[] [] [] [] []], d as [[] [] [] [] []]; cbn;
    intros H1 H2 H3 H4 H5;
    try lia;
    try (specialize (H1 eq_refl); discriminate);
    try (specialize (H2 eq_refl); discriminate);
    try (specialize (H3 eq_refl); discriminate);
    try (specialize (H4 eq_refl); discriminate);
    try (specialize (H5 eq_refl); discriminate).
Qed.

(** X1. The meter never shows more than five points, and it says "Strong"
    exactly for a password of at least eight UTF-16 code units that has a
    character from A to Z, one from a to z, a digit from 0 to 9 and one of
    the listed special characters; a shorter password is at most "Good". *)
Theorem strength_strong_iff (password : string) :
  (strength password <= 5)%nat
  /\ (getStrengthText (strength password) = "Strong"
      <-> (8 <= js_length password)%nat
          /\ has_character (fun c => 65 <= nat_of_ascii c <= 90)%nat password
          /\ has_character (fun c => 97 <= nat_of_ascii c <= 122)%nat password
          /\ has_character (fun c => 48 <= nat_of_ascii c <= 57)%nat password
          /\ has_character (fun c => In c special_chars) password).
Proof.
  split; [apply score_le_5|].
  transitivity (Nat.leb 8 (js_length password) = true
                /\ test is_uppercase password = true
                /\ test is_lowercase password = true
                /\ test is_digit password = true
                /\ test is_special password = true).
  - unfold strength, newChecks.
    destruct (Nat.leb 8 (js_length password)), (test is_uppercase password),
      (test is_lowercase password), (test is_digit password),
      (test is_special password); cbn;
      (split; [try discriminate; intros _; repeat split
              | intros (Hl & Hu & Hw & Hd & Hs); try discriminate; reflexivity]).
  - rewrite Nat.leb_le, !test_spec.
    rewrite (has_character_iff _ _ password (in_range_spec 65 90)).
    rewrite (has_character_iff _ _ password (in_range_spec 97 122)).
    rewrite (has_character_iff _ _ password (in_range_spec 48 57)).
    rewrite (has_character_iff _ _ password is_special_spec).
    reflexivity.
Qed.

(** X2. Typing more never lowers the rating: the score of a password is
    at most the score of any password it is a prefix of. *)
Theorem strength_grows_with_input (password more : string) :
  (strength password <= strength (password ++ more))%nat.
Proof.
  unfold strength, newChecks.
  apply score_monotone; cbn [chk_length chk_uppercase chk_lowercase chk_number chk_special].
  - intros Hlen. apply Nat.leb_le. apply Nat.leb_le in Hlen.
    rewrite js_length_append. lia.
  - rewrite test_app. now intros ->.
  - rewrite test_app. now intros ->.
  - rewrite test_app. now intros ->.
  - rewrite test_app. now intros ->.
Qed.

End StrengthMeter.

(** ** The edge middleware *)

Section Edge.

Lemma split_on_nonempty (sep : ascii) (s : string) : split_on sep s <> [].
Proof.
  destruct s as [|c r]; cbn; [discriminate|].
  destruct (Ascii.eqb c sep); [discriminate|].
  destruct (split_on sep r); discriminate.
Qed.

Lemma split_on_length (sep : ascii) (s : string) :
  List.length (split_on sep s) = S (count_sep sep s).
Proof.
  induction s as [|c r IH]; cbn; [reflexivity|].
  destruct (Ascii.eqb c sep); cbn; [now rewrite IH|].
  destruct (split_on sep r) as [|part parts] eqn:Hs; [now destruct (split_on_nonempty sep r)|].
  cbn in *. exact IH.
Qed.

Lemma three_part_cookie_spec (cookie : option string) :
  three_part_cookie cookie = true
  <-> exists value, cookie = Some value /\ count_sep "." value = 2%nat.
Proof.
  unfold three_part_cookie. destruct cookie as [value|].
  - rewrite split_on_length. split.
    + intros Hb. apply andb_true_iff in Hb as [_ Hn]. apply Nat.eqb_eq in Hn.
      exists value. split; [reflexivity | lia].
    + intros (v & [= <-] & Hn). rewrite Hn. cbn.
      destruct value; [discriminate | reflexivity].
  - split; [discriminate | intros (v & Hv & _); discriminate].
Qed.

(** X3. The middleware lets a protected path through exactly when the
    session cookie has a value with two dots, that is three parts; nothing
    else about the cookie is looked at.  Otherwise it redirects to the
    login page with the path as [redirect] parameter.  Every other path is
    let through. *)
Theorem middleware_protected_iff_three_parts (pathname : string) (cookie : option string) :
  (Middleware.isProtectedRoute pathname = false ->
   Middleware.middleware pathname cookie = EdgeNext)
  /\ (Middleware.isProtectedRoute pathname = true ->
      (Middleware.middleware pathname cookie = EdgeNext
       <-> exists value, cookie = Some value /\ count_sep "." value = 2%nat)
      /\ (Middleware.middleware pathname cookie <> EdgeNext ->
          Middleware.middleware pathname cookie
          = EdgeRedirect "/auth/login" [("redirect", pathname)])).
Proof.
  unfold Middleware.middleware. split; intros Hp; rewrite Hp; [reflexivity|].
  rewrite <- three_part_cookie_spec. unfold three_part_cookie.
  destruct cookie as [value|]; [|split; [split; discriminate | reflexivity]].
  destruct (String.eqb value ""); cbn; [split; [split; discriminate | reflexivity]|].
  destruct (Nat.eqb (List.length (split_on "." value)) 3); cbn.
  - split; [split; reflexivity | intros Hne; now destruct Hne].
  - split; [split; discriminate | reflexivity].
Qed.

(** X4. No redirect loop: whenever the second middleware redirects, the
    page it redirects to is let through for the same cookie. *)
Theorem guest_middleware_redirect_lands (pathname : string) (cookie : option string)
    (target : string) (query : list (string * string)) :
  GuestMiddleware.middleware pathname cookie = EdgeRedirect target query ->
  GuestMiddleware.middleware target cookie = EdgeNext.
Proof.
  unfold GuestMiddleware.middleware at 1.
  destruct (GuestMiddleware.isProtectedRoute pathname).
  - assert (Hlogin : three_part_cookie cookie = false ->
                     GuestMiddleware.middleware "/auth/login" cookie = EdgeNext).
    { intros Hc. unfold GuestMiddleware.middleware. cbn. now rewrite Hc. }
    unfold three_part_cookie in Hlogin.
    destruct cookie as [value|]; [|intros [= <- _]; now apply Hlogin].
    destruct (String.eqb value "") eqn:He; [intros [= <- _]; now apply Hlogin|].
    destruct (Nat.eqb (List.length (split_on "." value)) 3) eqn:Hn; cbn; [discriminate|].
    intros [= <- _]. now apply Hlogin.
  - assert (Hhome : three_part_cookie cookie = true ->
                    GuestMiddleware.middleware "/about-me" cookie = EdgeNext).
    { intros Hc. unfold GuestMiddleware.middleware. cbn.
      unfold three_part_cookie in Hc. destruct cookie as [value|]; [|discriminate].
      apply andb_true_iff in Hc as [He Hn]. apply negb_true_iff in He.
      now rewrite He, Hn. }
    destruct (three_part_cookie cookie); rewrite ?andb_false_r, ?andb_true_r.
    + destruct (GuestMiddleware.isGuestOnlyRoute pathname);
        [intros [= <- _]; now apply Hhome|].
      destruct (String.eqb pathname "/"); [intros [= <- _]; now apply Hhome | discriminate].
    + discriminate.
Qed.

End Edge.

Lemma guest_middleware_redirect_lands_witness :
  GuestMiddleware.middleware "/auth/login" (Some "a.b.c") = EdgeRedirect "/about-me" []
  /\ GuestMiddleware.middleware "/about-me" (Some "a.b.c") = EdgeNext.
Proof.
  split; [reflexivity|].
  apply (guest_middleware_redirect_lands "/auth/login" (Some "a.b.c") "/about-me" []).
  reflexivity.
Defined.

(** ** Guarded handlers *)

Section Guard.
Context `{Platform}.
Variable JWT_SECRET : string.

Lemma session_owner_spec (amb : Ambient) (request : Request) (w : World) (user : User) :
  session_owner JWT_SECRET amb request w = Some user
  <-> holds_valid_session JWT_SECRET amb request w user.
Proof.
  unfold session_owner, holds_valid_session. split.
  - destruct (req_cookie request) as [token|]; [|discriminate].
    destruct (jwt.verify _ _ _ _) as [claims|e] eqn:Hv; [|discriminate].
    destruct (UserModel.findOne _ _) as [u|] eqn:Hfind; [|discriminate].
    destruct (UserModel.validateSession amb u token) eqn:Hval; [|discriminate].
    intros [= <-].
    apply validateSession_spec in Hval as (session & Hin & Hlive & Hmatch).
    now exists token, claims, session.
  - intros (token & claims & session & -> & -> & -> & Hrecord).
    assert (Hval : UserModel.validateSession amb user token = true)
      by (apply validateSession_spec; now exists session).
    now rewrite Hval.
Qed.

(** What [getAuthenticatedUserWithValidation] returns; it writes to the
    console only when the cookie does not verify. *)
Lemma getAuthenticatedUserWithValidation_run (amb : Ambient) (request : Request) (w : World) :
  exists w',
    AuthMiddleware.getAuthenticatedUserWithValidation JWT_SECRET amb request w
    = (Ok (user_view <$> session_owner JWT_SECRET amb request w), w')
    /\ users w' = users w
    /\ (session_owner JWT_SECRET amb request w <> None -> w' = w).
Proof.
  unfold AuthMiddleware.getAuthenticatedUserWithValidation, session_owner, try_catch.
  destruct (req_cookie request) as [token|]; [|exists w; repeat split; reflexivity].
  unfold bind at 1.
  destruct (jwt.verify token JWT_SECRET session_verify_options (now amb))
    as [claims|e] eqn:Hv.
  - rewrite (verifyJWT_ok _ _ _ _ _ Hv).
    unfold bind at 1. rewrite validateUserSession_run.
    unfold UserService.findByUid, bind, gets, ret.
    destruct (UserModel.findOne (UserModel.by_uid (claim_string (claims !! "uid")))
                (users w)) as [user|] eqn:Hfind; cbn.
    + destruct (UserModel.validateSession amb user token); cbn; rewrite ?Hfind;
        exists w; repeat split; reflexivity.
    + exists w; repeat split; reflexivity.
  - rewrite (verifyJWT_fail _ _ _ _ _ Hv). cbn. eexists. repeat split.
    intros Hne. now destruct Hne.
Qed.

(** Without a session owner the guard answers 401 and does not run the
    handler. *)
Lemma requireAuth_unauthenticated (handler : Request -> UserView -> M World Response)
    (amb : Ambient) (request : Request) (w : World) :
  session_owner JWT_SECRET amb request w = None ->
  fst (AuthMiddleware.requireAuth JWT_SECRET handler amb request w)
  = Ok (json_error 401 "Authentication required" None)
  /\ users (snd (AuthMiddleware.requireAuth JWT_SECRET handler amb request w)) = users w.
Proof.
  intros Howner.
  destruct (getAuthenticatedUserWithValidation_run amb request w) as (w' & Hrun & Hu & _).
  unfold AuthMiddleware.requireAuth, bind. rewrite Hrun, Howner. cbn.
  split; [reflexivity | exact Hu].
Qed.


Lemma logout_users (amb : Ambient) (request : Request) (token : RawToken) (claims : JObject)
    (w : World) :
  req_cookie request = Some token ->
  jwt.verify token JWT_SECRET session_verify_options (now amb) = Ok claims ->
  users (snd (Routes.logout_POST JWT_SECRET amb request w))
  = users (snd (UserService.removeUserSession (claim_string (claims !! "uid")) token w)).
Proof.
  intros Hc Hv. unfold Routes.logout_POST. unfold try_catch at 1. unfold bind at 1.
  rewrite Hc. unfold bind at 1. rewrite (verifyJWT_ok _ _ _ _ _ Hv).
  unfold try_catch.
  destruct (UserService.removeUserSession _ token w) as [[[]|e] w1]; reflexivity.
Qed.

(** X6. Logging out takes effect at once for guarded handlers: in the
    store as [POST /api/auth/logout] with a cookie that verifies leaves it,
    a request with the same cookie is answered 401 by every [requireAuth]
    handler and the store does not validate the token, whatever the clock
    reads.  Nothing is said of the store after a later write. *)
Theorem logout_revokes_guarded_access (handler : Request -> UserView -> M World Response)
    (amb1 amb2 : Ambient) (request : Request) (token : RawToken) (claims : JObject)
    (w : World) :
  unique_ids (users w) ->
  req_cookie request = Some token ->
  jwt.verify token JWT_SECRET session_verify_options (now amb1) = Ok claims ->
  let w1 := snd (Routes.logout_POST JWT_SECRET amb1 request w) in
  fst (AuthMiddleware.requireAuth JWT_SECRET handler amb2 request w1)
  = Ok (json_error 401 "Authentication required" None)
  /\ fst (UserService.validateUserSession amb2 (claim_string (claims !! "uid")) token w1)
     = Ok false.
Proof.
  intros Hwf Hc Hv w1.
  pose proof (logout_users amb1 request token claims w Hc Hv) as Hu. fold w1 in Hu.
  pose proof (validate_after_remove amb2 (claim_string (claims !! "uid")) token w Hwf) as Hval.
  rewrite validateUserSession_run in Hval. rewrite <- Hu in Hval.
  injection Hval as Hval.
  assert (Hval1 : fst (UserService.validateUserSession amb2 (claim_string (claims !! "uid"))
                         token w1) = Ok false).
  { rewrite validateUserSession_run. cbn. now rewrite Hval. }
  split; [|exact Hval1].
  apply requireAuth_unauthenticated.
  destruct (session_owner JWT_SECRET amb2 request w1) as [user|] eqn:Howner; [|reflexivity].
  apply session_owner_spec in Howner
    as (token' & claims' & session & Hc' & Hv' & Hfind & Hrecord).
  assert (Hvalid : UserModel.validateSession amb2 user token' = true)
    by (apply validateSession_spec; now exists session).
  rewrite Hc in Hc'. injection Hc' as <-.
  destruct (verify_ok_claims _ _ _ _ _ Hv) as (t & -> & ->).
  destruct (verify_ok_claims _ _ _ _ _ Hv') as (t' & [= <-] & ->).
  rewrite Hfind in Hval. congruence.
Qed.

End Guard.


Lemma logout_revokes_guarded_access_witness :
  let w1 := snd (Routes.logout_POST sample_secret sample_amb cookie_request logged_in_world) in
  fst (AuthMiddleware.requireAuth sample_secret whoami sample_amb cookie_request w1)
  = Ok (json_error 401 "Authentication required" None)
  /\ fst (UserService.validateUserSession sample_amb (claim_string (issued_claims !! "uid"))
            issued_token w1)
     = Ok false.
Proof.
  apply (logout_revokes_guarded_access sample_secret whoami sample_amb sample_amb
           cookie_request issued_token issued_claims logged_in_world).
  - exact logged_in_unique_ids.
  - reflexivity.
  - vm_compute. reflexivity.
Defined.

(** ** Lifetimes of the two kinds of token *)

Section Lifetimes.
Context `{Platform}.
Variable JWT_SECRET : string.

Lemma reset_claims_lookup (amb : Ambient) (userId email_ : string) :
  reset_claims amb userId email_ !! "userId" = Some (JStr userId)
  /\ reset_claims amb userId email_ !! "email" = Some (JStr email_)
  /\ reset_claims amb userId email_ !! "type" = Some (JStr "password_reset")
  /\ reset_claims amb userId email_ !! "exp"
     = Some (JNum (jwt.clockTimestamp (now amb) + 60 * 60))
  /\ reset_claims amb userId email_ !! "nbf" = None.
Proof.
  unfold reset_claims, ResetTokenService.TOKEN_EXPIRY. repeat apply conj.
  - rewrite !lookup_insert_ne by discriminate. apply lookup_insert_eq.
  - rewrite !lookup_insert_ne by discriminate. apply lookup_insert_eq.
  - rewrite !lookup_insert_ne by discriminate. apply lookup_insert_eq.
  - apply lookup_insert_eq.
  - rewrite !lookup_insert_ne by discriminate. apply lookup_empty.
Qed.

(** [jwt.verify] on a token that carries this secret's MAC: only the time
    claims and the expected issuer and audience decide. *)
Lemma verify_own_mac (claims : JObject) (o : jwt.VerifyOptions) (now_ms : Z) :
  String.eqb JWT_SECRET "" = false ->
  jwt.verify (Compact (mkJws "HS256" claims (hmac "HS256" JWT_SECRET claims))) JWT_SECRET o now_ms
  = match jwt.check_nbf (jwt.clockTimestamp now_ms) (claims !! "nbf") with
    | Throw e => Throw e
    | Ok _ =>
        match jwt.check_exp (jwt.clockTimestamp now_ms) (claims !! "exp") with
        | Throw e => Throw e
        | Ok _ =>
            if negb (jwt.claim_matches (jwt.audience o) (claims !! "aud"))
            then Throw (JsonWebTokenError "jwt audience invalid")
            else if negb (jwt.claim_matches (jwt.issuer o) (claims !! "iss"))
            then Throw (JsonWebTokenError "jwt issuer invalid")
            else Ok claims
        end
    end.
Proof.
  intros Hs. unfold jwt.verify. cbn [jws_signature jws_alg jws_claims].
  rewrite hmac_eqb_empty, Hs. cbn [existsb jwt.HS_ALGS negb].
  rewrite String.eqb_refl. cbn [orb negb]. rewrite String.eqb_refl. reflexivity.
Qed.

(** X7. A reset token is good for one hour and no longer: the token that
    [generateResetToken] mints is returned by [verifyResetToken], with its
    [userId], [email] and [type] claims, as long as the clock in seconds is
    below the minting second plus 3600, and is refused from then on. *)
Theorem reset_token_valid_for_one_hour (amb0 amb1 : Ambient) (userId email_ : string)
    (w : World) :
  JWT_SECRET <> "" ->
  exists token,
    ResetTokenService.generateResetToken JWT_SECRET amb0 userId email_ = Ok token
    /\ fst (ResetTokenService.verifyResetToken JWT_SECRET amb1 token w)
       = Ok (if Z.ltb (jwt.clockTimestamp (now amb1)) (jwt.clockTimestamp (now amb0) + 60 * 60)
             then Some (reset_claims amb0 userId email_) else None)
    /\ reset_claims amb0 userId email_ !! "userId" = Some (JStr userId)
    /\ reset_claims amb0 userId email_ !! "email" = Some (JStr email_)
    /\ reset_claims amb0 userId email_ !! "type" = Some (JStr "password_reset").
Proof.
  intros Hsec. apply String.eqb_neq in Hsec.
  destruct (reset_claims_lookup amb0 userId email_) as (Hid & Hem & Hty & Hexp & Hnbf).
  eexists. split; [apply generateResetToken_ok; exact Hsec|].
  split; [|now repeat split].
  rewrite verifyResetToken_run, (verify_own_mac _ _ _ Hsec), Hnbf, Hexp.
  cbn [jwt.check_nbf jwt.check_exp].
  destruct (Z.ltb_spec (jwt.clockTimestamp (now amb1)) (jwt.clockTimestamp (now amb0) + 60 * 60))
    as [Hlt|Hge].
  - destruct (Z.leb_spec (jwt.clockTimestamp (now amb0) + 60 * 60)
                (jwt.clockTimestamp (now amb1))); [lia|].
    cbn. rewrite Hty. reflexivity.
  - destruct (Z.leb_spec (jwt.clockTimestamp (now amb0) + 60 * 60)
                (jwt.clockTimestamp (now amb1))); [reflexivity | lia].
Qed.

(** X8. A session token is good for seven days and no longer: what
    [signJWT] produces is returned by [verifyJWT] while the clock in seconds
    is below the signing second plus 604800, and is refused from then on. *)
Theorem session_token_valid_for_seven_days (amb0 amb1 : Ambient) (c : SessionClaims)
    (w : World) :
  JWT_SECRET <> "" ->
  exists token,
    jwt_server.signJWT JWT_SECRET amb0 c = Ok token
    /\ fst (jwt_server.verifyJWT JWT_SECRET amb1 token w)
       = Ok (if Z.ltb (jwt.clockTimestamp (now amb1))
                  (jwt.clockTimestamp (now amb0) + 7 * 24 * 60 * 60)
             then Some (with_injected amb0 (claims_object c)) else None).
Proof.
  intros Hsec. apply String.eqb_neq in Hsec.
  eexists. split; [apply signJWT_ok; exact Hsec|].
  assert (Hnbf : with_injected amb0 (claims_object c) !! "nbf" = None).
  { unfold with_injected. rewrite !lookup_insert_ne by discriminate.
    apply claims_object_other; discriminate. }
  assert (Hexp : with_injected amb0 (claims_object c) !! "exp"
                 = Some (JNum (jwt.clockTimestamp (now amb0) + jwt_server.JWT_EXPIRES_IN))).
  { unfold with_injected. rewrite !lookup_insert_ne by discriminate.
    apply lookup_insert_eq. }
  assert (Haud : with_injected amb0 (claims_object c) !! "aud"
                 = Some (JStr "firebase-auth-app-users")).
  { unfold with_injected. rewrite lookup_insert_ne by discriminate.
    apply lookup_insert_eq. }
  assert (Hiss : with_injected amb0 (claims_object c) !! "iss"
                 = Some (JStr "firebase-auth-app")).
  { unfold with_injected. apply lookup_insert_eq. }
  unfold jwt_server.verifyJWT, try_catch, bind, lift_result.
  rewrite (verify_own_mac _ _ _ Hsec), Hnbf, Hexp. cbn [jwt.check_nbf jwt.check_exp].
  unfold jwt_server.JWT_EXPIRES_IN.
  destruct (Z.ltb_spec (jwt.clockTimestamp (now amb1))
              (jwt.clockTimestamp (now amb0) + 7 * 24 * 60 * 60)) as [Hlt|Hge].
  - destruct (Z.leb_spec (jwt.clockTimestamp (now amb0) + 7 * 24 * 60 * 60)
                (jwt.clockTimestamp (now amb1))); [lia|].
    cbn [jwt.audience jwt.issuer]. rewrite Haud, Hiss. reflexivity.
  - destruct (Z.leb_spec (jwt.clockTimestamp (now amb0) + 7 * 24 * 60 * 60)
                (jwt.clockTimestamp (now amb1))); [reflexivity | lia].
Qed.

(** X9. The record and the token do not expire together: with the clock
    read for the record's [expiresAt] ([getJWTExpiration]) no later than
    the one [jwt.sign] takes for the [exp] claim, the record expires less
    than a second after the token's [exp]; it expires at or after the
    [exp] exactly when the first read is not before the clock second of
    the second read, and before the token otherwise. *)
Theorem record_expiry_against_token_exp (amb_expiry amb_sign : Ambient)
    (c : SessionClaims) :
  JWT_SECRET <> "" ->
  now amb_expiry <= now amb_sign ->
  exists token claims e,
    jwt_server.signJWT JWT_SECRET amb_sign c = Ok token
    /\ jwt.decode token = Some claims
    /\ claims !! "exp" = Some (JNum e)
    /\ jwt_server.getJWTExpiration amb_expiry < e * 1000 + 1000
    /\ (e * 1000 <= jwt_server.getJWTExpiration amb_expiry
        <-> jwt.clockTimestamp (now amb_sign) * 1000 <= now amb_expiry).
Proof.
  intros Hsec Hle. apply String.eqb_neq in Hsec.
  eexists _, (with_injected amb_sign (claims_object c)),
    (jwt.clockTimestamp (now amb_sign) + jwt_server.JWT_EXPIRES_IN).
  split; [apply signJWT_ok; exact Hsec|]. split; [reflexivity|].
  split.
  { unfold with_injected. rewrite !lookup_insert_ne by discriminate.
    apply lookup_insert_eq. }
  unfold jwt_server.getJWTExpiration, jwt_server.JWT_EXPIRES_IN, jwt.clockTimestamp.
  pose proof (Z.div_mod (now amb_sign) 1000 ltac:(lia)) as Hdm.
  pose proof (Z.mod_pos_bound (now amb_sign) 1000 ltac:(lia)) as Hb.
  split; [lia | split; lia].
Qed.

End Lifetimes.

Lemma reset_token_valid_for_one_hour_witness :
  fst (ResetTokenService.verifyResetToken sample_secret almost_an_hour_later reset_token
         empty_world)
  = Ok (Some (reset_claims sample_amb (doc_id stored_user) (email stored_user)))
  /\ fst (ResetTokenService.verifyResetToken sample_secret an_hour_later reset_token
            empty_world) = Ok None.
Proof.
  split.
  - destruct (reset_token_valid_for_one_hour sample_secret sample_amb almost_an_hour_later
                (doc_id stored_user) (email stored_user) empty_world ltac:(discriminate))
      as (token & Hgen & Hver & _).
    assert (token = reset_token) as -> by (vm_compute in Hgen; injection Hgen as <-; reflexivity).
    exact Hver.
  - destruct (reset_token_valid_for_one_hour sample_secret sample_amb an_hour_later
                (doc_id stored_user) (email stored_user) empty_world ltac:(discriminate))
      as (token & Hgen & Hver & _).
    assert (token = reset_token) as -> by (vm_compute in Hgen; injection Hgen as <-; reflexivity).
    exact Hver.
Defined.

Lemma session_token_valid_for_seven_days_witness :
  exists token,
    jwt_server.signJWT sample_secret sample_amb
      (mkClaims "u1" "a@x.com" None None None "s1") = Ok token
    /\ fst (jwt_server.verifyJWT sample_secret a_week_later token empty_world) = Ok None.
Proof.
  destruct (session_token_valid_for_seven_days sample_secret sample_amb a_week_later
              (mkClaims "u1" "a@x.com" None None None "s1") empty_world ltac:(discriminate))
    as (token & Hsign & Hver).
  exists token. split; [exact Hsign | exact Hver].
Defined.

Lemma record_expiry_against_token_exp_witness :
  exists token claims e,
    jwt_server.signJWT sample_secret (at_sign staggered_reads)
      (mkClaims "u1" "a@x.com" None None None "s1") = Ok token
    /\ jwt.decode token = Some claims
    /\ claims !! "exp" = Some (JNum e)
    /\ jwt_server.getJWTExpiration (at_expiry staggered_reads) < e * 1000.
Proof.
  destruct (record_expiry_against_token_exp sample_secret (at_expiry staggered_reads)
              (at_sign staggered_reads) (mkClaims "u1" "a@x.com" None None None "s1"))
    as (token & claims & e & Hsign & Hdecode & Hexp & _ & Hiff).
  - discriminate.
  - vm_compute. discriminate.
  - exists token, claims, e. repeat apply conj; try assumption.
    destruct (Z.lt_ge_cases (jwt_server.getJWTExpiration (at_expiry staggered_reads))
                (e * 1000)) as [Hlt|Hge]; [exact Hlt|].
    apply Hiff in Hge. vm_compute in Hge. now destruct Hge.
Defined.

(** ** The password reset flow *)

Section ResetFlow.
Context `{Platform} `{IdentityAdmin}.
Variable JWT_SECRET : string.

(** [verifyResetToken] with the world it leaves: it writes to the console
    only when [jwt.verify] throws. *)
Lemma verifyResetToken_state (amb : Ambient) (token : RawToken) (w : World) :
  exists w',
    ResetTokenService.verifyResetToken JWT_SECRET amb token w
    = (Ok match jwt.verify token JWT_SECRET reset_verify_options (now amb) with
          | Ok claims =>
              if ResetTokenService.is_password_reset (claims !! "type")
              then Some claims else None
          | Throw _ => None
          end, w')
    /\ users w' = users w
    /\ (forall claims,
          jwt.verify token JWT_SECRET reset_verify_options (now amb) = Ok claims -> w' = w).
Proof.
  unfold ResetTokenService.verifyResetToken, try_catch, bind, lift_result.
  fold reset_verify_options.
  destruct (jwt.verify _ _ _ _) as [claims|e].
  - exists w. destruct (ResetTokenService.is_password_reset _); repeat split; reflexivity.
  - eexists. cbn. repeat split. discriminate.
Qed.

Lemma is_password_reset_true :
  ResetTokenService.is_password_reset (Some (JStr "password_reset")) = true.
Proof. reflexivity. Qed.



(** What [resetPasswordWithToken] does when everything it asks for
    holds. *)
Lemma resetPasswordWithToken_accepted (amb : Ambient) (token : RawToken) (newPassword : string)
    (s : ResetWorld) (user : User) :
  reset_accepted JWT_SECRET amb token newPassword (users (app s)) user ->
  exists s',
    ResetPassword.resetPasswordWithToken JWT_SECRET amb token newPassword s
    = (Ok reset_done, s')
    /\ passwords s' = (passwords s ++ [(uid user, newPassword)])%list
    /\ users (app s') = users (app s).
Proof.
  intros (claims & e & Hv & Hty & Hem & Hfind & Hidp).
  unfold ResetPassword.resetPasswordWithToken, try_catch.
  unfold bind at 1, in_app.
  destruct (verifyResetToken_state amb token (app s)) as (w1 & Hrun & Hu1 & Hsame1).
  rewrite Hrun, Hv, Hty, is_password_reset_true. rewrite (Hsame1 _ Hv).
  unfold bind at 1. cbn [app passwords].
  unfold ResetPassword.findByEmail_claim. rewrite Hem. cbn [claim_email].
  unfold bind at 1, lift_result, UserService.findByEmail, gets. rewrite Hfind.
  unfold bind at 1, ResetPassword.updateUser. rewrite Hidp. unfold modify.
  unfold bind at 1. cbn [app passwords].
  unfold ResetPassword.sendPasswordResetSuccessEmail, EmailService.sendEmail.
  destruct (transporter_sendMail _ _); cbn; eexists; repeat split.
Qed.

(** X11. [resetPasswordWithToken] changes a password exactly when the
    token verifies as a reset token, its email names a stored user and the
    identity provider takes the new password: then it replies success and
    the provider holds the new password for that user's uid, whether or
    not the confirmation mail could be sent.  In every other case it
    replies a failure and no password is changed.  It never throws. *)
Theorem resetPasswordWithToken_changes_password_iff_accepted (amb : Ambient)
    (token : RawToken) (newPassword : string) (s : ResetWorld) :
  (forall user,
     reset_accepted JWT_SECRET amb token newPassword (users (app s)) user ->
     fst (ResetPassword.resetPasswordWithToken JWT_SECRET amb token newPassword s)
     = Ok reset_done
     /\ passwords (snd (ResetPassword.resetPasswordWithToken JWT_SECRET amb token
                          newPassword s))
        = (passwords s ++ [(uid user, newPassword)])%list)
  /\ ((forall user,
         ~ reset_accepted JWT_SECRET amb token newPassword (users (app s)) user) ->
      exists reply,
        fst (ResetPassword.resetPasswordWithToken JWT_SECRET amb token newPassword s)
        = Ok reply
        /\ success reply = false
        /\ passwords (snd (ResetPassword.resetPasswordWithToken JWT_SECRET amb token
                             newPassword s))
           = passwords s).
Proof.
  split.
  - intros user Hacc.
    destruct (resetPasswordWithToken_accepted amb token newPassword s user Hacc)
      as (s' & -> & Hp & _).
    split; [reflexivity | exact Hp].
  - intros Hnone.
    assert (Hrun : exists reply s',
              ResetPassword.resetPasswordWithToken JWT_SECRET amb token newPassword s
              = (Ok reply, s')
              /\ success reply = false /\ passwords s' = passwords s).
    { unfold ResetPassword.resetPasswordWithToken, try_catch.
      unfold bind at 1, in_app.
      destruct (verifyResetToken_state amb token (app s)) as (w1 & Hrun & Hu1 & Hsame1).
      rewrite Hrun.
      destruct (jwt.verify token JWT_SECRET reset_verify_options (now amb))
        as [claims|err] eqn:Hv; [|cbn; eexists; eexists; repeat split].
      rewrite (Hsame1 _ eq_refl).
      destruct (ResetTokenService.is_password_reset (claims !! "type")) eqn:Hty;
        [|cbn; eexists; eexists; repeat split].
      apply is_password_reset_spec in Hty.
      unfold bind at 1. cbn [app passwords].
      unfold ResetPassword.findByEmail_claim.
      destruct (claims !! "email") as [[|b|n|e]|] eqn:Hem;
        try (unfold bind, lift_result, in_app, console_error, modify, ret; cbn;
             eexists; eexists; repeat split; fail).
      cbn [claim_email]. unfold bind at 1, lift_result, UserService.findByEmail, gets.
      destruct (UserModel.findOne (UserModel.by_email (toLowerCase e)) (users (app s)))
        as [user|] eqn:Hfind; [|cbn; eexists; eexists; repeat split].
      unfold bind at 1, ResetPassword.updateUser.
      destruct (adminAuth_updateUser (uid user) newPassword) as [reason|] eqn:Hidp;
        [cbn; eexists; eexists; repeat split|].
      exfalso. apply (Hnone user). now exists claims, e. }
    destruct Hrun as (reply & s' & -> & Hfail & Hp).
    exists reply. repeat split; assumption.
Qed.

(** X12. A reset token is not used up: with one token, two resets in a
    row that each meet the conditions both reply success, and the identity
    provider is given the first password and then the second. *)
Theorem reset_token_can_be_replayed (amb1 amb2 : Ambient) (token : RawToken)
    (password1 password2 : string) (s : ResetWorld) (user : User) :
  reset_accepted JWT_SECRET amb1 token password1 (users (app s)) user ->
  reset_accepted JWT_SECRET amb2 token password2 (users (app s)) user ->
  let r1 := ResetPassword.resetPasswordWithToken JWT_SECRET amb1 token password1 s in
  let r2 := ResetPassword.resetPasswordWithToken JWT_SECRET amb2 token password2 (snd r1) in
  fst r1 = Ok reset_done
  /\ fst r2 = Ok reset_done
  /\ passwords (snd r2)
     = (passwords s ++ [(uid user, password1); (uid user, password2)])%list.
Proof.
  intros Hacc1 Hacc2 r1 r2.
  destruct (resetPasswordWithToken_accepted amb1 token password1 s user Hacc1)
    as (s1 & Hr1 & Hp1 & Hu1).
  subst r2 r1. rewrite Hr1. cbn [fst snd].
  rewrite <- Hu1 in Hacc2.
  destruct (resetPasswordWithToken_accepted amb2 token password2 s1 user Hacc2)
    as (s2 & Hr2 & Hp2 & _).
  rewrite Hr2. cbn [fst snd]. repeat split.
  now rewrite Hp2, Hp1, <- List.app_assoc.
Qed.

(** X13. [PUT /api/auth/reset-password] changes no password unless the
    body carries a token, a password of at least six UTF-16 code units and
    a confirmation equal to it; for any other body the answer is 400 with
    the first validation message. *)
Theorem reset_PUT_validates_body (amb : Ambient) (body : ConfirmBody) (s : ResetWorld) :
  (forall msg, ResetPassword.confirm_first_issue body = Some msg ->
     fst (ResetPassword.reset_PUT JWT_SECRET amb (Some body) s)
     = Ok (mkResetReply 400 false (Some msg) None None)
     /\ passwords (snd (ResetPassword.reset_PUT JWT_SECRET amb (Some body) s)) = passwords s)
  /\ (ResetPassword.confirm_first_issue body = None ->
      exists token password,
        cb_token body = Some token /\ token_is_empty token = false
        /\ cb_password body = Some password /\ cb_confirmPassword body = Some password
        /\ (6 <= js_length password)%nat).
Proof.
  split.
  - intros msg Hissue.
    assert (Hrun : exists s',
              ResetPassword.reset_PUT JWT_SECRET amb (Some body) s
              = (Ok (mkResetReply 400 false (Some msg) None None), s')
              /\ passwords s' = passwords s).
    { unfold ResetPassword.reset_PUT, try_catch. rewrite Hissue.
      cbn. eexists. split; reflexivity. }
    destruct Hrun as (s' & -> & Hp). split; [reflexivity | exact Hp].
  - unfold ResetPassword.confirm_first_issue.
    destruct (cb_token body) as [token|]; [|discriminate].
    destruct (token_is_empty token) eqn:Hempty; [discriminate|].
    destruct (cb_password body) as [p|]; [|discriminate].
    destruct (Nat.ltb_spec (js_length p) 6); [discriminate|].
    destruct (cb_confirmPassword body) as [c|]; [|discriminate].
    destruct (Nat.ltb_spec (js_length c) 6); [discriminate|].
    destruct (String.eqb_spec p c) as [<-|]; [|discriminate].
    intros _. exists token, p. repeat split; assumption.
Qed.

End ResetFlow.

(** ** The session list of a document *)

Section SessionList.
Context `{Platform}.

Lemma existsb_filter_implied {A} (f g : A -> bool) (l : list A) :
  (forall x, g x = true -> f x = true) ->
  existsb g (List.filter f l) = existsb g l.
Proof.
  intros Himp. induction l as [|a l IH]; cbn; [reflexivity|].
  destruct (f a) eqn:Hf; cbn; rewrite IH; [reflexivity|].
  destruct (g a) eqn:Hg; [|reflexivity]. rewrite (Himp a Hg) in Hf. discriminate.
Qed.

(** Sweeping at one instant does not change what validates at that
    instant or later. *)
Lemma validateSession_after_sweep (amb amb' : Ambient) (u : User) (token : RawToken) :
  now amb <= now amb' ->
  UserModel.validateSession amb' (UserModel.cleanExpiredSessions amb u) token
  = UserModel.validateSession amb' u token.
Proof.
  intros Hle. unfold UserModel.validateSession, UserModel.cleanExpiredSessions. cbn.
  apply existsb_filter_implied. intros session Hs.
  apply andb_true_iff in Hs as [Hlive _]. apply Z.ltb_lt in Hlive. apply Z.ltb_lt. lia.
Qed.

Lemma sweep_all_live (amb : Ambient) (u : User) (session : SessionRecord) :
  In session (sessions (UserModel.cleanExpiredSessions amb u)) -> live amb session = true.
Proof.
  unfold UserModel.cleanExpiredSessions. cbn. intros Hin.
  now apply filter_In in Hin as [_ Hlive].
Qed.

Lemma unique_ids_inj (coll : list User) (a b : User) :
  unique_ids coll -> In a coll -> In b coll -> doc_id a = doc_id b -> a = b.
Proof.
  unfold unique_ids. intros Hwf Ha Hb Heq.
  induction coll as [|x l IH]; cbn in *; [contradiction|].
  inversion Hwf as [|? ? Hnotin Hnd]; subst.
  destruct Ha as [->|Ha], Hb as [->|Hb]; try reflexivity.
  - exfalso. apply Hnotin. rewrite Heq. now apply in_map.
  - exfalso. apply Hnotin. rewrite <- Heq. now apply in_map.
  - now apply IH.
Qed.

(** A query by [uid] after a write-back: the document found is the one
    written when it has its [_id], and the one that was there otherwise. *)
Lemma findOne_after_replace (k : string) (u u' : User) (coll : list User) :
  unique_ids coll -> In u coll -> doc_id u' = doc_id u -> uid u' = uid u ->
  UserModel.findOne (UserModel.by_uid k) (UserModel.replace_doc u' coll)
  = match UserModel.findOne (UserModel.by_uid k) coll with
    | Some d => if String.eqb (doc_id d) (doc_id u') then Some u' else Some d
    | None => None
    end.
Proof.
  unfold unique_ids, UserModel.findOne. intros Hnd Hin Hid Huid.
  induction coll as [|d rest IH]; cbn in *; [reflexivity|].
  inversion Hnd as [|? ? Hnotin Hnd']; subst.
  destruct (String.eqb_spec (doc_id d) (doc_id u')) as [Heq|Hne].
  - assert (d = u) as ->.
    { destruct Hin as [Hd|Hin]; [exact Hd|].
      exfalso. apply Hnotin. rewrite Heq, Hid. now apply in_map. }
    cbn. unfold UserModel.by_uid at 1 3. rewrite Huid.
    destruct (String.eqb (uid u) k) eqn:Hk.
    + now rewrite Hid, String.eqb_refl.
    + destruct (List.find (UserModel.by_uid k) rest) as [x|] eqn:Hfind; [|reflexivity].
      apply List.find_some in Hfind as [Hx _].
      destruct (String.eqb_spec (doc_id x) (doc_id u')) as [Hxe|]; [|reflexivity].
      exfalso. apply Hnotin. rewrite Heq, <- Hxe. now apply in_map.
  - cbn. destruct (UserModel.by_uid k d) eqn:Hk.
    + apply String.eqb_neq in Hne. now rewrite Hne.
    + destruct Hin as [->|Hin]; [congruence|]. now apply IH.
Qed.

(** X14. Sweeping expired sessions is safe and complete: after
    [UserService.cleanExpiredSessions] for a uid, every token and every user
    validate exactly as before, at that instant and at any later one, and
    every record left in that user's document is unexpired. *)
Theorem cleanExpiredSessions_keeps_validation (amb amb' : Ambient) (k : string) (w : World) :
  unique_ids (users w) ->
  now amb <= now amb' ->
  let w' := snd (UserService.cleanExpiredSessions amb k w) in
  (forall k' token,
     fst (UserService.validateUserSession amb' k' token w')
     = fst (UserService.validateUserSession amb' k' token w))
  /\ (forall u session,
        UserModel.findOne (UserModel.by_uid k) (users w') = Some u ->
        In session (sessions u) -> live amb session = true).
Proof.
  intros Hwf Hle w'.
  destruct (UserModel.findOne (UserModel.by_uid k) (users w)) as [u|] eqn:Hfind.
  - pose proof (findOne_Some _ _ _ Hfind) as [Hin Hk].
    assert (Hw' : users w' = UserModel.replace_doc (UserModel.cleanExpiredSessions amb u)
                               (users w)).
    { subst w'. unfold UserService.cleanExpiredSessions, bind, gets. rewrite Hfind.
      unfold UserModel.save, modify. cbn [snd users].
      now rewrite (pre_save_same_email (users w) u). }
    split.
    + intros k' token. rewrite !validateUserSession_run. cbn [fst]. rewrite Hw'.
      rewrite (findOne_after_replace k' u) by (assumption || reflexivity).
      destruct (UserModel.findOne (UserModel.by_uid k') (users w)) as [d|] eqn:Hfind';
        [|reflexivity].
      cbn [doc_id UserModel.cleanExpiredSessions UserModel.set_sessions].
      destruct (String.eqb_spec (doc_id d) (doc_id u)) as [Heq|]; [|reflexivity].
      assert (d = u) as ->.
      { pose proof (findOne_Some _ _ _ Hfind') as [Hd _].
        now apply (unique_ids_inj (users w)). }
      f_equal. now apply validateSession_after_sweep.
    + intros u1 session Hfind1 Hs. rewrite Hw' in Hfind1.
      rewrite (findOne_replace_doc k u) in Hfind1 by (assumption || reflexivity).
      injection Hfind1 as <-. now apply (sweep_all_live amb u).
  - assert (Hw' : w' = w).
    { subst w'. unfold UserService.cleanExpiredSessions, bind, gets. now rewrite Hfind. }
    rewrite Hw'. split; [reflexivity|]. intros u1 session Hfind1. congruence.
Qed.

(** X15. Adding a session keeps the other devices signed in and the list
    swept: after [addUserSession] with an expiry in the future, every token
    that validated before still validates, the new token validates when
    bcrypt is correct, and every record in the document is unexpired, the
    new one being the last. *)
Theorem addUserSession_keeps_live_sessions (amb : Ambient) (k : string) (token : RawToken)
    (expires : Z) (ua ip_ : option string) (w : World) (u : User) :
  unique_ids (users w) ->
  UserModel.findOne (UserModel.by_uid k) (users w) = Some u ->
  now amb < expires ->
  exists u',
    UserModel.findOne (UserModel.by_uid k)
      (users (snd (UserService.addUserSession amb k token expires ua ip_ w))) = Some u'
    /\ sessions u'
       = (List.filter (live amb) (sessions u)
          ++ [mkSession (bcrypt_hash (salt amb) token) (now amb) expires ua ip_])%list
    /\ lastSeen u' = now amb
    /\ (forall other, UserModel.validateSession amb u other = true ->
                      UserModel.validateSession amb u' other = true)
    /\ (bcrypt_correct -> UserModel.validateSession amb u' token = true)
    /\ (forall session, In session (sessions u') -> live amb session = true).
Proof.
  intros Hwf Hfind Hlt.
  rewrite (addUserSession_found _ _ _ _ _ _ _ _ Hwf Hfind). cbn [snd users].
  exists (with_session amb token expires ua ip_ u).
  assert (Hsessions : sessions (with_session amb token expires ua ip_ u)
                      = (List.filter (live amb) (sessions u)
                         ++ [mkSession (bcrypt_hash (salt amb) token) (now amb) expires
                               ua ip_])%list).
  { unfold with_session, UserModel.cleanExpiredSessions. cbn.
    rewrite List.filter_app. cbn. fold (live amb).
    apply Z.ltb_lt in Hlt. now rewrite Hlt. }
  split; [apply (findOne_replace_doc k u); try assumption; reflexivity|].
  split; [exact Hsessions|]. split; [reflexivity|].
  unfold UserModel.validateSession. rewrite Hsessions. repeat split.
  - intros other Hv. rewrite existsb_app. apply orb_true_iff. left.
    rewrite existsb_filter_implied; [exact Hv|].
    intros session Hs. now apply andb_true_iff in Hs as [Hl _].
  - intros Hb. rewrite existsb_app. apply orb_true_iff. right. cbn.
    apply Z.ltb_lt in Hlt. now rewrite Hlt, Hb.
  - intros session Hin. apply in_app_or in Hin as [Hin|[<-|[]]].
    + now apply filter_In in Hin as [_ Hl].
    + unfold live. cbn. now apply Z.ltb_lt.
Qed.

End SessionList.

(** ** Upserting, continued *)

Section UpsertMore.
Context `{Platform}.

Lemma email_taken_false (e self : string) (coll : list User) (d : User) :
  UserModel.email_taken e self coll = false -> In d coll -> email d = e ->
  doc_id d = self.
Proof.
  unfold UserModel.email_taken. intros Hex Hin He.
  induction coll as [|x l IH]; cbn in *; [contradiction|].
  apply orb_false_elim in Hex as [Hx Hl].
  destruct Hin as [->|Hin]; [|now apply IH].
  rewrite He, String.eqb_refl in Hx. cbn in Hx.
  apply negb_false_iff in Hx. now apply String.eqb_eq.
Qed.

Lemma in_replace_doc (u' d : User) (coll : list User) :
  In d (UserModel.replace_doc u' coll) -> d = u' \/ In d coll.
Proof.
  induction coll as [|x l IH]; cbn; [tauto|].
  destruct (String.eqb (doc_id x) (doc_id u')); cbn; intros [<-|Hin]; auto.
  destruct (IH Hin); auto.
Qed.

Lemma replace_doc_unique_emails (u' : User) (coll : list User) :
  unique_ids coll -> unique_emails coll ->
  UserModel.email_taken (email u') (doc_id u') coll = false ->
  unique_emails (UserModel.replace_doc u' coll).
Proof.
  unfold unique_ids, unique_emails. intros Hids Hem Htaken.
  induction coll as [|d rest IH]; cbn in *; [constructor|].
  inversion Hids as [|? ? Hidn Hids']; subst.
  inversion Hem as [|? ? Hemn Hem']; subst.
  apply orb_false_elim in Htaken as [Hd Hrest].
  destruct (String.eqb_spec (doc_id d) (doc_id u')) as [Heq|Hne]; cbn.
  - constructor; [|exact Hem'].
    intros Hin. apply in_map_iff in Hin as (x & Hxe & Hx).
    apply Hidn. rewrite Heq, <- (email_taken_false _ _ _ x Hrest Hx Hxe). now apply in_map.
  - constructor; [|now apply IH].
    intros Hin. apply in_map_iff in Hin as (x & Hxe & Hx).
    apply in_replace_doc in Hx as [->|Hx].
    + rewrite Hxe, String.eqb_refl in Hd. cbn in Hd. discriminate.
    + apply Hemn. rewrite <- Hxe. now apply in_map.
Qed.

(** X16. A refused upsert leaves no trace, and the refusals are those of
    the schema: when [upsertUser] throws, the world is as before; an empty
    [uid] is a validation error; and an email that another user's document
    holds is a duplicate-key error (E11000). *)
Theorem upsertUser_refusals (amb : Ambient) (d : UserData) (w : World) :
  (forall e, fst (UserService.upsertUser amb d w) = Throw e ->
             snd (UserService.upsertUser amb d w) = w)
  /\ (ud_uid d = "" ->
      fst (UserService.upsertUser amb d w) = Throw (ValidationError "uid"))
  /\ (forall other,
        ud_uid d <> "" -> toLowerCase (ud_email d) <> "" ->
        unique_ids (users w) ->
        In other (users w) -> email other = toLowerCase (ud_email d) ->
        uid other <> ud_uid d -> doc_id other <> fresh_id amb ->
        fst (UserService.upsertUser amb d w) = Throw (MongoServerError 11000 "email")).
Proof.
  unfold UserService.upsertUser, bind, UserModel.findOneAndUpdate_upsert.
  split; [|split].
  - intros e.
    destruct (String.eqb (ud_uid d) ""); [reflexivity|].
    destruct (String.eqb (toLowerCase (ud_email d)) ""); [reflexivity|].
    destruct (UserModel.findOne _ _) as [u|].
    + destruct (UserModel.email_taken _ _ _); [reflexivity | discriminate].
    + destruct (_ || _); [reflexivity | discriminate].
  - intros ->. reflexivity.
  - intros other Huid Hemail Hids Hin Hoe Hou Hfresh.
    apply String.eqb_neq in Huid, Hemail. rewrite Huid, Hemail.
    assert (Htaken : forall self, doc_id other <> self ->
              UserModel.email_taken (toLowerCase (toLowerCase (ud_email d))) self (users w)
              = true).
    { intros self Hself. unfold UserModel.email_taken. apply existsb_exists.
      exists other. split; [exact Hin|].
      rewrite toLowerCase_idem, Hoe, String.eqb_refl. cbn.
      apply negb_true_iff. now apply String.eqb_neq. }
    destruct (UserModel.findOne _ _) as [u|] eqn:Hfind.
    + cbn [UserModel.apply_update email]. rewrite Htaken; [reflexivity|].
      pose proof (findOne_Some _ _ _ Hfind) as [Hu Hk]. apply by_uid_true in Hk.
      intros Hsame. apply Hou. rewrite <- Hk.
      now rewrite (unique_ids_inj (users w) other u Hids Hin Hu Hsame).
    + cbn [UserModel.new_document email doc_id]. now rewrite (Htaken _ Hfresh).
Qed.

(** X17. What is upserted can be looked up: after a successful
    [upsertUser], [findByUid] with the uid and [findByEmail] with the email
    in any letter case both return the document that was written, and the
    three key constraints ([_id], [uid], [email]) still hold. *)
Theorem upsertUser_then_lookup (amb : Ambient) (d : UserData) (w w' : World) (u : User)
    (query : string) :
  unique_ids (users w) -> unique_uids (users w) -> unique_emails (users w) ->
  UserService.upsertUser amb d w = (Ok u, w') ->
  toLowerCase query = toLowerCase (ud_email d) ->
  UserService.findByUid (ud_uid d) w' = (Ok (Some u), w')
  /\ UserService.findByEmail query w' = (Ok (Some u), w')
  /\ unique_ids (users w') /\ unique_uids (users w') /\ unique_emails (users w').
Proof.
  intros Hids Huids Hems Hup Hq.
  destruct (upsertUser_invariant _ _ _ _ _ Hids Huids Hup) as (Hids' & Huids' & Hfind').
  assert (Hemail : email u = toLowerCase (ud_email d)).
  { apply upsertUser_ok in Hup as [_ [(u0 & _ & -> & _)|(_ & -> & _)]]; cbn;
      apply toLowerCase_idem. }
  assert (Hems' : unique_emails (users w')).
  { unfold UserService.upsertUser, bind, UserModel.findOneAndUpdate_upsert in Hup.
    destruct (String.eqb (ud_uid d) ""); [discriminate|].
    destruct (String.eqb (toLowerCase (ud_email d)) ""); [discriminate|].
    destruct (UserModel.findOne _ _) as [u0|] eqn:Hfind.
    - destruct (UserModel.email_taken _ _ _) eqn:Htaken; [discriminate|].
      injection Hup as <- <-. cbn [users].
      apply replace_doc_unique_emails; assumption.
    - destruct (UserModel.email_taken _ _ _) eqn:Htaken; [discriminate|]. cbn [orb] in Hup.
      destruct (existsb _ _) eqn:Hex; [discriminate|].
      injection Hup as <- <-. cbn [users]. unfold unique_emails.
      rewrite List.map_app. cbn [List.map]. apply NoDup_snoc; [exact Hems|].
      intros Hin. apply in_map_iff in Hin as (x & Hxe & Hx).
      apply (existsb_doc_id_false _ _ Hex).
      rewrite <- (email_taken_false _ _ _ x Htaken Hx Hxe). now apply in_map. }
  split; [|split; [|now repeat split]].
  - unfold UserService.findByUid, gets. now rewrite Hfind'.
  - unfold UserService.findByEmail, gets. rewrite Hq, <- Hemail. f_equal. f_equal.
    pose proof (findOne_Some _ _ _ Hfind') as [Hin _].
    clear - Hems' Hin. unfold unique_emails in Hems'. unfold UserModel.findOne.
    induction (users w') as [|x l IH]; cbn in *; [contradiction|].
    inversion Hems' as [|? ? Hnotin Hnd]; subst.
    unfold UserModel.by_email at 1.
    destruct Hin as [->|Hin]; [now rewrite String.eqb_refl|].
    destruct (String.eqb_spec (email x) (email u)) as [Heq|]; [|now apply IH].
    exfalso. apply Hnotin. rewrite Heq. now apply in_map.
Qed.

End UpsertMore.

(** ** Statistics *)

Section Statistics.
Import UserStatistics.

Lemma count_by_provider (coll : list User) :
  (countDocuments (fun u => provider_eqb (provider u) ProvEmail) coll
   + countDocuments (fun u => provider_eqb (provider u) ProvGoogle) coll
   + countDocuments (fun u => provider_eqb (provider u) ProvGithub) coll
   = List.length coll)%nat.
Proof.
  unfold countDocuments. induction coll as [|u l IH]; cbn; [reflexivity|].
  destruct (provider u); cbn; lia.
Qed.

Lemma countDocuments_le (f : User -> bool) (coll : list User) :
  (countDocuments f coll <= List.length coll)%nat.
Proof. unfold countDocuments. apply List.filter_length_le. Qed.

(** X18. The statistics add up: in what [getUserStats] returns, the counts
    by provider sum to [totalUsers], [activeUsers] is at most [totalUsers],
    a provider without users has no entry, and the collection is not
    changed. *)
Theorem getUserStats_adds_up (amb : Ambient) (w : World) :
  exists stats,
    getUserStats amb w = (Ok stats, w)
    /\ totalUsers stats = List.length (users w)
    /\ (reported stats ProvEmail + reported stats ProvGoogle + reported stats ProvGithub
        = totalUsers stats)%nat
    /\ (activeUsers stats <= totalUsers stats)%nat
    /\ (forall p, usersByProvider stats !! provider_name p = None
                  <-> forall u, In u (users w) -> provider u <> p).
Proof.
  eexists. split; [reflexivity|]. cbn [totalUsers activeUsers usersByProvider].
  set (ne := countDocuments (fun u => provider_eqb (provider u) ProvEmail) (users w)).
  set (ng := countDocuments (fun u => provider_eqb (provider u) ProvGoogle) (users w)).
  set (nh := countDocuments (fun u => provider_eqb (provider u) ProvGithub) (users w)).
  assert (Hlookup : forall p,
            fold_left (fun acc stat => <[fst stat := snd stat]> acc) (providerStats (users w))
              (∅ : gmap string nat) !! provider_name p
            = let n := countDocuments (fun u => provider_eqb (provider u) p) (users w) in
              if Nat.eqb n 0 then None else Some n).
  { intros p. unfold providerStats. cbn [List.flat_map]. fold ne ng nh.
    destruct (Nat.eqb ne 0) eqn:He, (Nat.eqb ng 0) eqn:Hg, (Nat.eqb nh 0) eqn:Hh;
      destruct p; cbn [app fold_left fst snd provider_name]; fold ne ng nh;
      rewrite ?He, ?Hg, ?Hh;
      repeat (rewrite lookup_insert_ne by discriminate);
      rewrite ?lookup_insert_eq, ?lookup_empty; reflexivity. }
  split; [unfold countDocuments; now rewrite filter_all|].
  split; [|split].
  - unfold reported. cbn [usersByProvider]. rewrite !Hlookup. cbn zeta. fold ne ng nh.
    pose proof (count_by_provider (users w)) as Hsum. fold ne ng nh in Hsum.
    assert (Htot : countDocuments (fun _ => true) (users w) = List.length (users w))
      by (unfold countDocuments; now rewrite filter_all).
    rewrite Htot.
    destruct (Nat.eqb_spec ne 0), (Nat.eqb_spec ng 0), (Nat.eqb_spec nh 0); lia.
  - assert (Htot : countDocuments (fun _ => true) (users w) = List.length (users w))
      by (unfold countDocuments; now rewrite filter_all).
    rewrite Htot. apply countDocuments_le.
  - intros p. rewrite Hlookup. cbn zeta.
    destruct (Nat.eqb_spec (countDocuments (fun u => provider_eqb (provider u) p) (users w)) 0)
      as [Hz|Hnz].
    + split; [intros _|reflexivity]. intros u Hin Hp.
      unfold countDocuments in Hz. apply List.length_zero_iff_nil in Hz.
      assert (Hf : In u (List.filter (fun u => provider_eqb (provider u) p) (users w))).
      { apply filter_In. split; [exact Hin|]. rewrite Hp. now destruct p. }
      rewrite Hz in Hf. destruct Hf.
    + split; [discriminate|]. intros Hnone. exfalso. apply Hnz.
      unfold countDocuments. apply List.length_zero_iff_nil.
      destruct (List.filter _ _) as [|x l] eqn:Hf; [reflexivity|].
      assert (Hx : In x (List.filter (fun u => provider_eqb (provider u) p) (users w)))
        by (rewrite Hf; now left).
      apply filter_In in Hx as [Hx Hp]. exfalso. apply (Hnone x Hx).
      destruct (provider x), p; try discriminate; reflexivity.
Qed.

End Statistics.

(** ** Signing in, then using the session *)

Section SignIn.
Context `{Platform}.
Variable JWT_SECRET : string.

Lemma with_session_sessions (amb : Ambient) (token : RawToken) (expires : Z)
    (ua ip_ : option string) (u : User) :
  now amb < expires ->
  sessions (with_session amb token expires ua ip_ u)
  = (List.filter (live amb) (sessions u)
     ++ [mkSession (bcrypt_hash (salt amb) token) (now amb) expires ua ip_])%list.
Proof.
  intros Hlt. unfold with_session, UserModel.cleanExpiredSessions. cbn.
  rewrite List.filter_app. cbn. fold (live amb).
  apply Z.ltb_lt in Hlt. now rewrite Hlt.
Qed.

(** A token of [signJWT] verifies, with the claims it was given, until its
    [exp]. *)
Lemma verify_session_token (amb0 amb1 : Ambient) (c : SessionClaims) :
  String.eqb JWT_SECRET "" = false ->
  jwt.clockTimestamp (now amb1) < jwt.clockTimestamp (now amb0) + 7 * 24 * 60 * 60 ->
  jwt.verify
    (Compact (mkJws "HS256" (with_injected amb0 (claims_object c))
                (hmac "HS256" JWT_SECRET (with_injected amb0 (claims_object c)))))
    JWT_SECRET session_verify_options (now amb1)
  = Ok (with_injected amb0 (claims_object c)).
Proof.
  intros Hsec Hlt.
  assert (Hnbf : with_injected amb0 (claims_object c) !! "nbf" = None).
  { unfold with_injected. rewrite !lookup_insert_ne by discriminate.
    apply claims_object_other; discriminate. }
  assert (Hexp : with_injected amb0 (claims_object c) !! "exp"
                 = Some (JNum (jwt.clockTimestamp (now amb0) + jwt_server.JWT_EXPIRES_IN))).
  { unfold with_injected. rewrite !lookup_insert_ne by discriminate.
    apply lookup_insert_eq. }
  assert (Haud : with_injected amb0 (claims_object c) !! "aud"
                 = Some (JStr "firebase-auth-app-users")).
  { unfold with_injected. rewrite lookup_insert_ne by discriminate.
    apply lookup_insert_eq. }
  assert (Hiss : with_injected amb0 (claims_object c) !! "iss"
                 = Some (JStr "firebase-auth-app")).
  { unfold with_injected. apply lookup_insert_eq. }
  rewrite (verify_own_mac JWT_SECRET _ _ _ Hsec), Hnbf, Hexp.
  cbn [jwt.check_nbf jwt.check_exp]. unfold jwt_server.JWT_EXPIRES_IN.
  destruct (Z.leb_spec (jwt.clockTimestamp (now amb0) + 7 * 24 * 60 * 60)
              (jwt.clockTimestamp (now amb1))); [lia|].
  unfold session_verify_options. cbn [jwt.audience jwt.issuer]. rewrite Haud, Hiss. reflexivity.
Qed.

Lemma session_claims_uid (amb : Ambient) (c : SessionClaims) :
  claim_string (with_injected amb (claims_object c) !! "uid") = c_uid c.
Proof.
  unfold with_injected. rewrite !lookup_insert_ne by discriminate.
  now rewrite claims_object_uid.
Qed.

(** What [POST /api/auth/session] did when it answered with a cookie: the
    ID token was verified, the user upserted, and the session added to the
    upserted document. *)
Lemma session_POST_cookie (amb : Ambient) (reads : SignInReads) (request : Request)
    (w w' : World) (response : Response) (cookie : SetCookie) :
  JWT_SECRET <> "" -> unique_ids (users w) -> unique_uids (users w) ->
  Routes.session_POST JWT_SECRET amb reads request w = (Ok response, w') ->
  set_cookie response = Some cookie ->
  exists user w1 c,
    let token :=
      Compact (mkJws "HS256" (with_injected (at_sign reads) (claims_object c))
                 (hmac "HS256" JWT_SECRET (with_injected (at_sign reads) (claims_object c)))) in
    c_uid c = uid user
    /\ unique_ids (users w1)
    /\ UserModel.findOne (UserModel.by_uid (uid user)) (users w1) = Some user
    /\ response = mkResponse 200 (Routes.success_user user None) (Routes.session_cookie token)
    /\ users w' = UserModel.replace_doc
                    (with_session (at_save reads) token
                       (jwt_server.getJWTExpiration (at_expiry reads))
                       (Routes.header_user_agent request) (Routes.header_ip request) user)
                    (users w1).
Proof.
  intros Hsec Hids Huids Hrun Hcookie. apply String.eqb_neq in Hsec.
  unfold Routes.session_POST, try_catch in Hrun. unfold bind at 1 in Hrun.
  destruct (req_body request) as [|[idToken|]]; cbn [parse_idToken] in Hrun;
    [cbn in Hrun; injection Hrun as <- <-; discriminate| |
     cbn in Hrun; injection Hrun as <- <-; discriminate].
  destruct (String.eqb idToken "");
    [cbn in Hrun; injection Hrun as <- <-; discriminate|].
  unfold ret at 1 in Hrun. unfold bind at 1 in Hrun. unfold verifyIdToken in Hrun.
  destruct (adminAuth_verifyIdToken idToken) as [decoded|msg].
  - unfold ret at 1 in Hrun. cbn [fb_success fb_decodedToken] in Hrun.
    unfold bind at 1 in Hrun.
    match type of Hrun with
    | context [UserService.upsertUser (at_upsert reads) ?d w] => set (userData := d) in *
    end.
    destruct (UserService.upsertUser (at_upsert reads) userData w) as [[user|e] w1] eqn:Hup.
    + destruct (upsertUser_invariant _ _ _ _ _ Hids Huids Hup) as (Hids1 & _ & Hfind1).
      assert (Huid : uid user = ud_uid userData).
      { apply upsertUser_ok in Hup as [_ [(u0 & _ & -> & _)|(_ & -> & _)]]; reflexivity. }
      rewrite <- Huid in Hfind1.
      unfold bind at 1 in Hrun. unfold lift_result in Hrun.
      rewrite (signJWT_ok JWT_SECRET _ _ Hsec) in Hrun.
      unfold bind at 1 in Hrun.
      rewrite (addUserSession_found _ _ _ _ _ _ _ _ Hids1 Hfind1) in Hrun.
      unfold ret in Hrun. injection Hrun as <- <-.
      exists user, w1,
        (mkClaims (uid user) (email user) (Some (name user))
           (Some (provider_name (provider user))) (Some (photoURL user))
           (jwt_server.generateSessionId (at_sessionId reads))).
      cbn zeta. repeat apply conj; try reflexivity; assumption.
    + destruct e; cbn in Hrun; injection Hrun as <- <-; discriminate.
  - unfold bind at 1 in Hrun. unfold console_error in Hrun. cbn [fst snd] in Hrun.
    unfold modify at 1 in Hrun. unfold ret at 1 in Hrun.
    cbn [fb_success fb_decodedToken] in Hrun. unfold bind at 1 in Hrun.
    destruct (req_cookie request) as [old|].
    + destruct (handleSessionFallback_run JWT_SECRET amb old
                  (mkWorld (users w)
                     (console w ++ [mkLog LogError "Firebase ID token verification failed:"
                                      (Some (Error msg))]))) as (w2 & Hfb & _).
      rewrite Hfb in Hrun.
      destruct (jwt.verify old JWT_SECRET session_verify_options (now amb)) as [claims|];
        [|cbn in Hrun; injection Hrun as <- <-; discriminate].
      destruct (UserModel.findOne _ _) as [u|];
        [|cbn in Hrun; injection Hrun as <- <-; discriminate].
      destruct (UserModel.validateSession amb u old);
        cbn in Hrun; injection Hrun as <- <-; discriminate.
    + cbn in Hrun. injection Hrun as <- <-. discriminate.
Qed.

(** X19. Signing in opens a session that the API then accepts: when
    [POST /api/auth/session] answers with a cookie, the answer is a 200 with
    the upserted user and the cookie lasts seven days.  While the clock is
    below both the token's [exp], counted from the read of [jwt.sign], and
    the record's [expiresAt], counted from the read of [getJWTExpiration],
    a [GET /api/user/me] that carries the cookie and no bearer token
    answers 200 from the database with that same user, last seen when the
    session was saved.  The reads of the sign-in need not coincide; the
    record must not have expired when it is saved. *)
Theorem sign_in_then_me (amb amb' : Ambient) (reads : SignInReads)
    (request request' : Request) (w w' : World) (response : Response)
    (cookie : SetCookie) :
  bcrypt_correct ->
  JWT_SECRET <> "" -> unique_ids (users w) -> unique_uids (users w) ->
  Routes.session_POST JWT_SECRET amb reads request w = (Ok response, w') ->
  set_cookie response = Some cookie ->
  now (at_save reads) < jwt_server.getJWTExpiration (at_expiry reads) ->
  req_cookie request' = Some (ck_value cookie) ->
  Routes.bearer_token request' = None ->
  jwt.clockTimestamp (now amb') < jwt.clockTimestamp (now (at_sign reads)) + 7 * 24 * 60 * 60 ->
  now amb' < jwt_server.getJWTExpiration (at_expiry reads) ->
  exists view,
    status response = 200
    /\ b_user (json response) = Some view
    /\ ck_maxAge cookie = 604800
    /\ Routes.me_GET JWT_SECRET amb' request' w'
       = (Ok (mkResponse 200
                (mkBody true
                   (Some (mkView (v_uid view) (v_email view) (v_name view) (v_provider view)
                            (v_photoURL view) (Some (now (at_save reads)))))
                   None None None None (Some "database")) None), w').
Proof.
  intros Hbcrypt Hsec Hids Huids Hrun Hcookie Hsaved Hreq Hbearer Htoken Hrecord.
  destruct (session_POST_cookie _ _ _ _ _ _ _ Hsec Hids Huids Hrun Hcookie)
    as (user & w1 & c & Hcuid & Hids1 & Hfind1 & -> & Hw').
  cbn zeta in *. cbn [set_cookie Routes.session_cookie] in Hcookie.
  injection Hcookie as <-. cbn [ck_value] in Hreq.
  exists (user_view user). repeat apply conj; try reflexivity.
  apply String.eqb_neq in Hsec.
  pose proof (verify_session_token (at_sign reads) amb' c Hsec Htoken) as Hverify.
  set (token := Compact _) in *.
  set (user' := with_session (at_save reads) token
                  (jwt_server.getJWTExpiration (at_expiry reads))
                  (Routes.header_user_agent request) (Routes.header_ip request) user) in *.
  assert (Hfind' : UserModel.findOne (UserModel.by_uid (uid user)) (users w') = Some user').
  { rewrite Hw'. now apply (findOne_replace_doc _ user). }
  assert (Hvalid : UserModel.validateSession amb' user' token = true).
  { unfold UserModel.validateSession. subst user'.
    rewrite (with_session_sessions _ _ _ _ _ _ Hsaved), existsb_app.
    apply orb_true_iff. right. cbn. apply Z.ltb_lt in Hrecord.
    now rewrite Hrecord, Hbcrypt. }
  unfold Routes.me_GET, try_catch. rewrite Hbearer. cbn [truthy].
  unfold bind at 1. unfold ret at 1. unfold Routes.me_session_path. rewrite Hreq.
  unfold bind at 1. rewrite (verifyJWT_ok JWT_SECRET _ _ _ _ Hverify).
  rewrite session_claims_uid, Hcuid.
  unfold bind at 1. rewrite validateUserSession_run, Hfind', Hvalid. cbn [negb].
  unfold bind at 1, UserService.findByUid, gets. now rewrite Hfind'.
Qed.

(** X20. Replacing a session rotates it only as far as bcrypt tells the
    two tokens apart: after [removeUserSession] of the old token and
    [addUserSession] of a new one for the same stored user, both of which
    return, the store validates the old token, while the new record is
    unexpired, exactly when bcrypt matches the old token against the hash
    of the new one; no other record matches it any more. *)
Theorem replaced_session_validates_iff_bcrypt_matches (amb amb' : Ambient) (k : string)
    (old new : RawToken) (expires : Z) (ua ip_ : option string) (w : World) (user : User) :
  unique_ids (users w) ->
  UserModel.findOne (UserModel.by_uid k) (users w) = Some user ->
  now amb < expires -> now amb' < expires ->
  let r1 := UserService.removeUserSession k old w in
  let r2 := UserService.addUserSession amb k new expires ua ip_ (snd r1) in
  fst r1 = Ok tt /\ fst r2 = Ok tt
  /\ fst (UserService.validateUserSession amb' k old (snd r2))
     = Ok (bcrypt_compareSync old (bcrypt_hash (salt amb) new))
  /\ (forall u session,
        UserModel.findOne (UserModel.by_uid k) (users (snd r2)) = Some u ->
        In session (sessions u) ->
        bcrypt_compareSync old (tokenHash session) = true ->
        session = mkSession (bcrypt_hash (salt amb) new) (now amb) expires ua ip_).
Proof.
  intros Hids Hfind Hsaved Hlive r1 r2. subst r2 r1.
  rewrite (removeUserSession_found _ _ _ _ Hids Hfind). cbn [fst snd].
  set (user1 := without_token old user).
  assert (Hids1 : unique_ids (UserModel.replace_doc user1 (users w)))
    by now apply replace_doc_unique_ids.
  assert (Hfind1 : UserModel.findOne (UserModel.by_uid k)
                     (UserModel.replace_doc user1 (users w)) = Some user1)
    by (apply (findOne_replace_doc k user); try assumption; reflexivity).
  rewrite (addUserSession_found amb k new expires ua ip_
             (mkWorld (UserModel.replace_doc user1 (users w)) (console w)) user1 Hids1 Hfind1).
  cbn [fst snd users].
  set (user2 := with_session amb new expires ua ip_ user1).
  assert (Hfind2 : UserModel.findOne (UserModel.by_uid k)
                     (UserModel.replace_doc user2 (UserModel.replace_doc user1 (users w)))
                   = Some user2)
    by (apply (findOne_replace_doc k user1); try assumption; reflexivity).
  assert (Hsessions : sessions user2
                      = (List.filter (live amb) (sessions user1)
                         ++ [mkSession (bcrypt_hash (salt amb) new) (now amb) expires
                               ua ip_])%list)
    by now apply with_session_sessions.
  pose proof (without_token_no_match old user) as Hnone. fold user1 in Hnone.
  repeat apply conj; try reflexivity.
  - rewrite validateUserSession_run. cbn [fst users]. rewrite Hfind2. f_equal.
    unfold UserModel.validateSession. rewrite Hsessions, existsb_app.
    replace (existsb _ (List.filter (live amb) (sessions user1))) with false.
    + cbn. apply Z.ltb_lt in Hlive. now rewrite Hlive, orb_false_r.
    + symmetry. apply not_true_is_false. intros Hex.
      apply existsb_exists in Hex as (session & Hin & Hs).
      apply filter_In in Hin as [Hin _]. apply andb_true_iff in Hs as [_ Hmatch].
      specialize (Hnone session Hin). unfold matches in Hnone. congruence.
  - intros u session Hu Hin Hmatch. rewrite Hfind2 in Hu. injection Hu as <-.
    rewrite Hsessions in Hin. apply in_app_or in Hin as [Hin|[<-|[]]]; [|reflexivity].
    apply filter_In in Hin as [Hin _].
    specialize (Hnone session Hin). unfold matches in Hnone. congruence.
Qed.

End SignIn.

(** ** The validated environment *)

Section Environment.
Context `{Platform}.

(** [z.object] strips the keys its shape does not name. *)
Lemma parse_object_strips (shape : list (string * Env.FieldSchema))
    (input : gmap string string) (key : string) :
  ~ In key (List.map fst shape) ->
  snd (Env.parse_object shape input) !! key = None.
Proof.
  induction shape as [|[key' sch'] rest IH]; cbn; [intros _; apply lookup_empty|].
  intros Hnot.
  assert (Hne : key' <> key) by tauto.
  assert (Hrest : ~ In key (List.map fst rest)) by tauto.
  specialize (IH Hrest).
  destruct (Env.parse_object rest input) as [issues out].
  destruct (Env.parse_field sch' (input !! key')) as [m|[s|]]; cbn in *; try assumption.
  now rewrite lookup_insert_ne.
Qed.

(** Without issues, every member of the result is what its schema makes of
    the input's member. *)
Lemma parse_object_sound (shape : list (string * Env.FieldSchema))
    (input out : gmap string string) (key : string) (sch : Env.FieldSchema) :
  List.NoDup (List.map fst shape) ->
  Env.parse_object shape input = ([], out) ->
  In (key, sch) shape ->
  Env.parse_field sch (input !! key) = inr (out !! key).
Proof.
  revert out. induction shape as [|[key' sch'] rest IH]; cbn; [contradiction|].
  intros out Hnd Hparse Hin. inversion Hnd as [|? ? Hnotin Hnd']; subst.
  pose proof (parse_object_strips rest input key' Hnotin) as Hstrip.
  destruct (Env.parse_object rest input) as [issues out'] eqn:Hrest. cbn in Hstrip.
  assert (Hne : forall s0, In (key, s0) rest -> key' <> key).
  { intros s0 Hin0 ->. apply Hnotin. now apply (in_map fst _ (key, s0)). }
  destruct (Env.parse_field sch' (input !! key')) as [m|[s|]] eqn:Hfield;
    [discriminate| |]; injection Hparse as -> <-.
  - destruct Hin as [[= -> ->]|Hin].
    + now rewrite lookup_insert_eq.
    + rewrite lookup_insert_ne by now apply (Hne sch). now apply IH.
  - destruct Hin as [[= -> ->]|Hin].
    + now rewrite Hstrip.
    + now apply IH.
Qed.

Lemma envSchema_keys_NoDup : List.NoDup (List.map fst Env.envSchema).
Proof.
  unfold Env.envSchema. cbn [List.map fst].
  repeat (constructor; [intros Hin; cbn in Hin; intuition discriminate|]).
  constructor.
Qed.

(** X21. What comes out of the schema can be relied on: when
    [envSchema.parse] succeeds on [process.env], every member of the result
    is what its schema makes of the member of [process.env], keys outside
    the schema are gone, and [JWT_SECRET] is the one of [process.env] and at
    least 32 characters long. *)
Theorem envSchema_parse_sound (penv e : gmap string string) :
  Env.envSchema_parse penv = Ok e ->
  (forall key sch, In (key, sch) Env.envSchema ->
                   Env.parse_field sch (penv !! key) = inr (e !! key))
  /\ (forall key, ~ In key (List.map fst Env.envSchema) -> e !! key = None)
  /\ exists secret,
       e !! "JWT_SECRET" = Some secret /\ penv !! "JWT_SECRET" = Some secret
       /\ (32 <= String.length secret)%nat.
Proof.
  unfold Env.envSchema_parse. intros Hparse.
  destruct (Env.parse_object Env.envSchema penv) as [[|i issues] out] eqn:Hobj;
    [|discriminate].
  injection Hparse as ->.
  assert (Hsound : forall key sch, In (key, sch) Env.envSchema ->
                     Env.parse_field sch (penv !! key) = inr (e !! key)).
  { intros key sch. apply parse_object_sound; [apply envSchema_keys_NoDup | exact Hobj]. }
  split; [exact Hsound|]. split.
  - intros key Hnot. pose proof (parse_object_strips Env.envSchema penv key Hnot) as Hs.
    now rewrite Hobj in Hs.
  - specialize (Hsound "JWT_SECRET"
                  (Env.StringMin 32 "JWT secret must be at least 32 characters")).
    assert (Hin : In ("JWT_SECRET",
                      Env.StringMin 32 "JWT secret must be at least 32 characters")
                     Env.envSchema) by (unfold Env.envSchema; cbn; tauto).
    specialize (Hsound Hin). unfold Env.parse_field in Hsound.
    destruct (penv !! "JWT_SECRET") as [secret|]; [|discriminate].
    destruct (Nat.leb_spec 32 (String.length secret)) as [Hlen|]; [|discriminate].
    injection Hsound as Hsome. now exists secret.
Qed.

(** X22. The environment is validated once: after a [validateEnv] that
    returned, every later [validateEnv] and every read through the [env]
    proxy answers from the cached environment, whatever [process.env] has
    become; a [validateEnv] that threw found no cache and left none, so the
    next call validates again. *)
Theorem validateEnv_caches (penv : gmap string string) (st st' : Env.EnvState) :
  (forall e, Env.validateEnv penv st = (Ok e, st') ->
     Env.cachedEnv st' = Some e
     /\ forall penv' prop,
          Env.validateEnv penv' st' = (Ok e, st')
          /\ Env.env_get penv' prop st' = (Ok (e !! prop), st'))
  /\ (forall err, Env.validateEnv penv st = (Throw err, st') ->
        st' = st /\ Env.cachedEnv st = None).
Proof.
  assert (Hcached : forall e, Env.cachedEnv st' = Some e ->
            forall penv' prop,
              Env.validateEnv penv' st' = (Ok e, st')
              /\ Env.env_get penv' prop st' = (Ok (e !! prop), st')).
  { intros e Hc penv' prop.
    assert (Hrun : Env.validateEnv penv' st' = (Ok e, st'))
      by (unfold Env.validateEnv, bind, gets; now rewrite Hc).
    split; [exact Hrun|]. unfold Env.env_get, bind. now rewrite Hrun. }
  split.
  - intros e Hrun.
    assert (Hc : Env.cachedEnv st' = Some e).
    { unfold Env.validateEnv, bind, gets in Hrun.
      destruct (Env.cachedEnv st) as [e0|] eqn:Hc0.
      - unfold ret in Hrun. injection Hrun as <- <-. exact Hc0.
      - destruct (Env.isBuildTime penv).
        + unfold Env.env_log, Env.set_cachedEnv, modify, ret in Hrun. cbn [fst snd] in Hrun.
          injection Hrun as <- <-. reflexivity.
        + unfold try_catch, lift_result in Hrun.
          destruct (Env.envSchema_parse penv) as [e1|err].
          * unfold Env.set_cachedEnv, modify, ret in Hrun. cbn [fst snd] in Hrun.
            injection Hrun as <- <-. reflexivity.
          * destruct err; try discriminate.
            destruct (str_is (penv !! "NODE_ENV") "production"); [discriminate|].
            unfold bind, Env.env_log, Env.set_cachedEnv, modify, ret in Hrun.
            cbn [fst snd] in Hrun. injection Hrun as <- <-. reflexivity. }
    split; [exact Hc | now apply Hcached].
  - intros err Hrun. unfold Env.validateEnv, bind, gets in Hrun.
    destruct (Env.cachedEnv st) as [e0|] eqn:Hc0; [discriminate|].
    destruct (Env.isBuildTime penv); [discriminate|].
    unfold try_catch, lift_result in Hrun.
    destruct (Env.envSchema_parse penv) as [e1|err1]; [discriminate|].
    destruct err1; try (injection Hrun as _ <-; now split).
    destruct (str_is (penv !! "NODE_ENV") "production"); [|discriminate].
    injection Hrun as _ <-. now split.
Qed.

End Environment.

(** ** The further properties on the sample data *)

Lemma sample_bcrypt_correct : bcrypt_correct.
Proof. intros salt_ token. apply String.eqb_refl. Qed.

Lemma reset_accepted_sample (amb : Ambient) (password : string) :
  jwt.clockTimestamp (now amb) < 1700003600 ->
  (6 <= js_length password)%nat ->
  reset_accepted sample_secret amb reset_token password (users logged_in_world) stored_user.
Proof.
  intros Htime Hlen.
  exists (reset_claims sample_amb (doc_id stored_user) (email stored_user)), (email stored_user).
  repeat apply conj; try (vm_compute; reflexivity).
  - unfold reset_token.
    rewrite (generateResetToken_ok sample_secret sample_amb _ _ eq_refl).
    rewrite (verify_own_mac sample_secret _ _ _ eq_refl).
    replace (reset_claims sample_amb (doc_id stored_user) (email stored_user) !! "nbf")
      with (@None JValue) by (vm_compute; reflexivity).
    replace (reset_claims sample_amb (doc_id stored_user) (email stored_user) !! "exp")
      with (Some (JNum 1700003600)) by (vm_compute; reflexivity).
    cbn [jwt.check_nbf jwt.check_exp].
    destruct (Z.leb_spec 1700003600 (jwt.clockTimestamp (now amb))); [lia|].
    vm_compute. reflexivity.
  - cbn. destruct (Nat.leb (js_length password) 5) eqn:Hle; [|reflexivity].
    apply Nat.leb_le in Hle. lia.
Qed.

Lemma strength_strong_iff_witness :
  PasswordStrength.getStrengthText (PasswordStrength.strength "Abcdef1!") = "Strong"
  /\ PasswordStrength.getStrengthText (PasswordStrength.strength "Aa1!éé") <> "Strong".
Proof.
  split.
  - apply (proj2 (strength_strong_iff "Abcdef1!")).
    repeat apply conj.
    + vm_compute. lia.
    + exists "A"%char. split; [vm_compute; tauto | vm_compute; lia].
    + exists "b"%char. split; [vm_compute; tauto | vm_compute; lia].
    + exists "1"%char. split; [vm_compute; tauto | vm_compute; lia].
    + exists "!"%char. split; vm_compute; tauto.
  - intros Hstrong.
    apply (proj2 (strength_strong_iff "Aa1!éé")) in Hstrong as [Hlen _].
    vm_compute in Hlen. lia.
Defined.

Lemma middleware_protected_iff_three_parts_witness :
  Middleware.middleware "/blog" None = EdgeNext
  /\ Middleware.middleware "/profile/settings" (Some "a.b.c") = EdgeNext
  /\ Middleware.middleware "/profile/settings" (Some "a.b")
     = EdgeRedirect "/auth/login" [("redirect", "/profile/settings")].
Proof.
  repeat apply conj.
  - apply (proj1 (middleware_protected_iff_three_parts "/blog" None)). reflexivity.
  - apply (proj1 (proj2 (middleware_protected_iff_three_parts "/profile/settings"
                           (Some "a.b.c")) eq_refl)).
    exists "a.b.c". split; reflexivity.
  - apply (proj2 (proj2 (middleware_protected_iff_three_parts "/profile/settings"
                           (Some "a.b")) eq_refl)).
    vm_compute. discriminate.
Defined.


Lemma resetPasswordWithToken_changes_password_iff_accepted_witness :
  (fst (ResetPassword.resetPasswordWithToken sample_secret sample_amb reset_token "newpass1"
          reset_world) = Ok reset_done
   /\ passwords (snd (ResetPassword.resetPasswordWithToken sample_secret sample_amb
                        reset_token "newpass1" reset_world))
      = [(uid stored_user, "newpass1")])
  /\ exists reply,
       fst (ResetPassword.resetPasswordWithToken sample_secret sample_amb reset_token "abc"
              reset_world) = Ok reply
       /\ success reply = false
       /\ passwords (snd (ResetPassword.resetPasswordWithToken sample_secret sample_amb
                            reset_token "abc" reset_world)) = [].
Proof.
  split.
  - apply (proj1 (resetPasswordWithToken_changes_password_iff_accepted sample_secret
                    sample_amb reset_token "newpass1" reset_world) stored_user).
    apply reset_accepted_sample; [reflexivity | simpl; lia].
  - apply (proj2 (resetPasswordWithToken_changes_password_iff_accepted sample_secret
                    sample_amb reset_token "abc" reset_world)).
    intros user (claims & e & _ & _ & _ & _ & Hidp). vm_compute in Hidp. discriminate Hidp.
Defined.

Lemma reset_token_can_be_replayed_witness :
  let r1 := ResetPassword.resetPasswordWithToken sample_secret sample_amb reset_token
              "newpass1" reset_world in
  let r2 := ResetPassword.resetPasswordWithToken sample_secret almost_an_hour_later
              reset_token "newpass2" (snd r1) in
  fst r1 = Ok reset_done
  /\ fst r2 = Ok reset_done
  /\ passwords (snd r2)
     = (passwords reset_world
        ++ [(uid stored_user, "newpass1"); (uid stored_user, "newpass2")])%list.
Proof.
  apply (reset_token_can_be_replayed sample_secret sample_amb almost_an_hour_later
           reset_token "newpass1" "newpass2" reset_world stored_user).
  - apply reset_accepted_sample; [reflexivity | simpl; lia].
  - apply reset_accepted_sample; [reflexivity | simpl; lia].
Defined.

Lemma reset_PUT_validates_body_witness :
  (fst (ResetPassword.reset_PUT sample_secret sample_amb
          (Some (mkConfirmBody (Some reset_token) (Some "newpass1") (Some "newpass2")))
          reset_world)
   = Ok (mkResetReply 400 false (Some "Passwords don't match") None None)
   /\ passwords (snd (ResetPassword.reset_PUT sample_secret sample_amb
                        (Some (mkConfirmBody (Some reset_token) (Some "newpass1")
                                 (Some "newpass2")))
                        reset_world)) = passwords reset_world)
  /\ fst (ResetPassword.reset_PUT sample_secret sample_amb
            (Some (mkConfirmBody (Some reset_token) (Some "ééé") (Some "ééé")))
            reset_world)
     = Ok (mkResetReply 400 false (Some "Password must be at least 6 characters") None None).
Proof.
  split.
  - apply (proj1 (reset_PUT_validates_body sample_secret sample_amb
                    (mkConfirmBody (Some reset_token) (Some "newpass1") (Some "newpass2"))
                    reset_world)).
    vm_compute. reflexivity.
  - apply (proj1 (reset_PUT_validates_body sample_secret sample_amb
                    (mkConfirmBody (Some reset_token) (Some "ééé") (Some "ééé"))
                    reset_world)).
    vm_compute. reflexivity.
Defined.

Lemma cleanExpiredSessions_keeps_validation_witness :
  let w' := snd (UserService.cleanExpiredSessions a_week_later "u1" logged_in_world) in
  (forall k' token,
     fst (UserService.validateUserSession a_week_later k' token w')
     = fst (UserService.validateUserSession a_week_later k' token logged_in_world))
  /\ (forall u session,
        UserModel.findOne (UserModel.by_uid "u1") (users w') = Some u ->
        In session (sessions u) -> live a_week_later session = true).
Proof.
  apply (cleanExpiredSessions_keeps_validation a_week_later a_week_later "u1"
           logged_in_world).
  - exact logged_in_unique_ids.
  - simpl. lia.
Defined.

Lemma addUserSession_keeps_live_sessions_witness :
  exists u',
    UserModel.findOne (UserModel.by_uid "u1")
      (users (snd (UserService.addUserSession almost_an_hour_later "u1" orphan_token
                     1700604800000 None None logged_in_world))) = Some u'
    /\ UserModel.validateSession almost_an_hour_later u' issued_token = true
    /\ UserModel.validateSession almost_an_hour_later u' orphan_token = true.
Proof.
  destruct (addUserSession_keeps_live_sessions almost_an_hour_later "u1" orphan_token
              1700604800000 None None logged_in_world stored_user)
    as (u' & Hfind & _ & _ & Hkept & Hnew & _).
  - exact logged_in_unique_ids.
  - vm_compute. reflexivity.
  - reflexivity.
  - exists u'. repeat apply conj.
    + exact Hfind.
    + apply Hkept. vm_compute. reflexivity.
    + apply Hnew. exact sample_bcrypt_correct.
Defined.

Lemma upsertUser_refusals_witness :
  fst (UserService.upsertUser almost_an_hour_later same_email_data logged_in_world)
  = Throw (MongoServerError 11000 "email")
  /\ fst (UserService.upsertUser sample_amb (mkUserData "" "a@x.com" None ProvEmail None)
            logged_in_world)
     = Throw (ValidationError "uid").
Proof.
  split.
  - apply (proj2 (proj2 (upsertUser_refusals almost_an_hour_later same_email_data
                           logged_in_world)) stored_user).
    + discriminate.
    + intros Heq. vm_compute in Heq. discriminate Heq.
    + exact logged_in_unique_ids.
    + vm_compute. left. reflexivity.
    + vm_compute. reflexivity.
    + intros Heq. vm_compute in Heq. discriminate Heq.
    + intros Heq. vm_compute in Heq. discriminate Heq.
  - apply (proj1 (proj2 (upsertUser_refusals sample_amb
                           (mkUserData "" "a@x.com" None ProvEmail None) logged_in_world))).
    reflexivity.
Defined.

Lemma upsertUser_then_lookup_witness :
  exists u w',
    UserService.upsertUser sample_amb (mkUserData "u1" "Alice@x.com" None ProvGoogle None)
      empty_world = (Ok u, w')
    /\ UserService.findByUid "u1" w' = (Ok (Some u), w')
    /\ UserService.findByEmail "ALICE@X.COM" w' = (Ok (Some u), w').
Proof.
  destruct (UserService.upsertUser sample_amb
              (mkUserData "u1" "Alice@x.com" None ProvGoogle None) empty_world)
    as [[u|e] w'] eqn:Hup; [|vm_compute in Hup; discriminate Hup].
  exists u, w'. split; [reflexivity|].
  destruct (upsertUser_then_lookup sample_amb
              (mkUserData "u1" "Alice@x.com" None ProvGoogle None) empty_world w' u
              "ALICE@X.COM") as (Huid & Hemail & _).
  - constructor.
  - constructor.
  - constructor.
  - exact Hup.
  - vm_compute. reflexivity.
  - split; [exact Huid | exact Hemail].
Defined.

Lemma getUserStats_adds_up_witness :
  exists stats,
    UserStatistics.getUserStats sample_amb logged_in_world = (Ok stats, logged_in_world)
    /\ totalUsers stats = List.length (users logged_in_world)
    /\ (reported stats ProvEmail + reported stats ProvGoogle + reported stats ProvGithub
        = totalUsers stats)%nat.
Proof.
  destruct (getUserStats_adds_up sample_amb logged_in_world)
    as (stats & Hrun & Htotal & Hsum & _).
  exists stats. split; [exact Hrun|]. split; [exact Htotal | exact Hsum].
Defined.

Lemma sign_in_then_me_witness :
  exists view,
    b_user (json staggered_response) = Some view
    /\ Routes.me_GET sample_secret last_moment
         (mkRequest BodyNotJson (Some (ck_value staggered_cookie)) ∅) staggered_world
       = (Ok (mkResponse 200
                (mkBody true
                   (Some (mkView (v_uid view) (v_email view) (v_name view) (v_provider view)
                            (v_photoURL view) (Some 1700000001004)))
                   None None None None (Some "database")) None), staggered_world).
Proof.
  destruct (sign_in_then_me sample_secret sample_amb last_moment staggered_reads
              login_request (mkRequest BodyNotJson (Some (ck_value staggered_cookie)) ∅)
              empty_world staggered_world staggered_response staggered_cookie)
    as (view & _ & Hview & _ & Hme).
  - exact sample_bcrypt_correct.
  - discriminate.
  - constructor.
  - constructor.
  - vm_compute. reflexivity.
  - vm_compute. reflexivity.
  - reflexivity.
  - reflexivity.
  - reflexivity.
  - reflexivity.
  - reflexivity.
  - exists view. split; [exact Hview | exact Hme].
Defined.

Lemma replaced_session_validates_iff_bcrypt_matches_witness :
  (let r1 := UserService.removeUserSession "u1" issued_token logged_in_world in
   let r2 := UserService.addUserSession almost_an_hour_later "u1" next_token 1700604800000
               None None (snd r1) in
   fst (UserService.validateUserSession almost_an_hour_later "u1" issued_token (snd r2))
   = Ok false)
  /\ (let r1 := @UserService.removeUserSession prefix_platform "u1" issued_token
                  prefix_world in
      let r2 := @UserService.addUserSession prefix_platform almost_an_hour_later "u1"
                  next_token 1700604800000 None None (snd r1) in
      fst (@UserService.validateUserSession prefix_platform almost_an_hour_later "u1"
             issued_token (snd r2))
      = Ok true).
Proof.
  split.
  - destruct (replaced_session_validates_iff_bcrypt_matches almost_an_hour_later
                almost_an_hour_later "u1" issued_token next_token 1700604800000 None None
                logged_in_world stored_user)
      as (_ & _ & Hold & _).
    + exact logged_in_unique_ids.
    + vm_compute. reflexivity.
    + reflexivity.
    + reflexivity.
    + exact Hold.
  - destruct (@replaced_session_validates_iff_bcrypt_matches prefix_platform
                almost_an_hour_later almost_an_hour_later "u1" issued_token next_token
                1700604800000 None None prefix_world
                (match users prefix_world with
                 | u :: _ => u
                 | [] => stored_user
                 end))
      as (_ & _ & Hold & _).
    + vm_compute. constructor; [intros [] | constructor].
    + vm_compute. reflexivity.
    + reflexivity.
    + reflexivity.
    + exact Hold.
Defined.

Lemma envSchema_parse_sound_witness :
  exists e secret,
    Env.envSchema_parse production_env = Ok e
    /\ e !! "JWT_SECRET" = Some secret
    /\ (32 <= String.length secret)%nat
    /\ e !! "NODE_ENV" = None.
Proof.
  assert (Hok : match Env.envSchema_parse production_env with
                | Ok _ => true
                | Throw _ => false
                end = true) by (vm_compute; reflexivity).
  destruct (Env.envSchema_parse production_env) as [e|err] eqn:Hparse;
    [|discriminate Hok].
  destruct (envSchema_parse_sound production_env e Hparse)
    as (_ & Hstrip & secret & He & _ & Hlen).
  exists e, secret. repeat apply conj; try assumption; try reflexivity.
  apply Hstrip. vm_compute. intuition discriminate.
Defined.

Lemma validateEnv_caches_witness :
  exists e st',
    Env.validateEnv production_env fresh_env_state = (Ok e, st')
    /\ Env.env_get development_env "JWT_SECRET" st' = (Ok (e !! "JWT_SECRET"), st').
Proof.
  assert (Hok : match fst (Env.validateEnv production_env fresh_env_state) with
                | Ok _ => true
                | Throw _ => false
                end = true) by (vm_compute; reflexivity).
  destruct (Env.validateEnv production_env fresh_env_state) as [[e|err] st'] eqn:Hrun;
    [|discriminate Hok].
  exists e, st'. split; [reflexivity|].
  apply (proj1 (validateEnv_caches production_env fresh_env_state st') e Hrun).
Defined.
